(** * Notion-Sync: a shallow embedding of [scripts/fetch_from_notion.py]

    The script walks a Notion page tree through the Notion client and writes
    Markdown and CSV files.  Python values coming from the API are modelled
    by a JSON-like [value] type, Python strings by lists of code points,
    exceptions by an explicit [outcome], and the file system together with
    the console by a [world] threaded through the effectful functions. *)

From Stdlib Require Import List ZArith NArith String Ascii Bool Lia.
From Stdlib Require Import DecimalString Permutation Sorted.
Import ListNotations.

#[local] Set Warnings "-register-all".

Open Scope N_scope.
Open Scope list_scope.

(** ** Python strings *)

(** A Python [str] is a sequence of Unicode code points. *)
Definition str := list N.

(** Source literals are written as UTF-8 text and decoded to code points. *)
Fixpoint utf8_decode (bs : list N) : str :=
  match bs with
  | [] => []
  | b0 :: t0 =>
    if b0 <? 128 then b0 :: utf8_decode t0 else
    match t0 with
    | [] => [b0]
    | b1 :: t1 =>
      if b0 <? 224 then ((b0 - 192) * 64 + (b1 - 128)) :: utf8_decode t1 else
      match t1 with
      | [] => [b0; b1]
      | b2 :: t2 =>
        if b0 <? 240
        then ((b0 - 224) * 4096 + (b1 - 128) * 64 + (b2 - 128)) :: utf8_decode t2
        else
        match t2 with
        | [] => [b0; b1; b2]
        | b3 :: t3 =>
          ((b0 - 240) * 262144 + (b1 - 128) * 4096 + (b2 - 128) * 64 + (b3 - 128))
            :: utf8_decode t3
        end
      end
    end
  end.

Definition lit (s : string) : str :=
  utf8_decode (map N_of_ascii (list_ascii_of_string s)).

Fixpoint str_eqb (a b : str) : bool :=
  match a, b with
  | [], [] => true
  | x :: a', y :: b' => (x =? y) && str_eqb a' b'
  | _, _ => false
  end.

Definition mem (c : N) (cs : str) : bool := existsb (N.eqb c) cs.

(** The double quote, kept out of literals. *)
Definition dquote : N := 34.
Definition newline : N := 10.
Definition pipe : N := 124.
Definition backslash : N := 92.

(** [str.isspace] per character: the code points that [str.strip()]
    removes (CPython's [_PyUnicode_IsWhitespace]). *)
Definition isspace (c : N) : bool :=
  ((9 <=? c) && (c <=? 13)) || ((28 <=? c) && (c <=? 32))
  || (c =? 133) || (c =? 160) || (c =? 5760)
  || ((8192 <=? c) && (c <=? 8202))
  || (c =? 8232) || (c =? 8233) || (c =? 8239) || (c =? 8287) || (c =? 12288).

Fixpoint lstrip (s : str) : str :=
  match s with
  | c :: t => if isspace c then lstrip t else s
  | [] => []
  end.

Definition rstrip (s : str) : str := rev (lstrip (rev s)).

(** [s.strip()] *)
Definition strip (s : str) : str := rstrip (lstrip s).

(** [s.replace(old, new)] for a one-character [old]. *)
Definition replace (old : N) (new : str) (s : str) : str :=
  flat_map (fun c => if c =? old then new else [c]) s.

(** [sep.join(parts)] on strings. *)
Fixpoint join (sep : str) (parts : list str) : str :=
  match parts with
  | [] => []
  | [p] => p
  | p :: rest => p ++ sep ++ join sep rest
  end.

(** [s.split(sep)] for a one-character separator: never empty. *)
Fixpoint split_on (sep : N) (s : str) : list str :=
  match s with
  | [] => [[]]
  | c :: t =>
    if c =? sep then [] :: split_on sep t
    else match split_on sep t with
         | p :: ps => (c :: p) :: ps
         | [] => [[c]]
         end
  end.

(** [str(n)] for an [int]. *)
Definition str_of_Z (z : Z) : str :=
  lit (NilZero.string_of_int (Z.to_int z)).

Definition str_of_nat (n : nat) : str := str_of_Z (Z.of_nat n).

(** [re.sub(r'[...]', repl, s)] for a character class. *)
Definition re_sub_class (cls : str) (repl : str) (s : str) : str :=
  flat_map (fun c => if mem c cls then repl else [c]) s.

(** The character class of both regular expressions: the nine characters
    less-than, greater-than, colon, double quote, slash, backslash, pipe,
    question mark and star. *)
Definition unsafe_chars : str :=
  lit "<>:" ++ [dquote] ++ lit "/\|?*".

(** ** Python values and exceptions *)

(** The JSON-shaped objects handled by the script.  A [dict] keeps its
    insertion order, which the CSV header depends on, so it is an
    association list.  A [float] is carried by its [repr] text: the script
    only ever prints one. *)
Inductive value : Type :=
| VNone
| VBool (b : bool)
| VInt (z : Z)
| VFloat (repr : str)
| VStr (s : str)
| VList (l : list value)
| VDict (d : list (str * value)).

Inductive exn : Type :=
| AttributeError
| TypeError
| IndexError
| KeyError
| UnicodeEncodeError
| OSError
| APIResponseError (msg : str)
| RequestException (msg : str)
| LibraryError (msg : str).

(** What running a piece of the script yields: a value, a Python exception,
    or one of two outcomes that no [except] clause observes: the model does
    not cover the case ([Unmodelled]: the [repr] of a container), or the
    loop budget is exhausted ([OutOfFuel]). *)
Inductive outcome (A : Type) : Type :=
| Ok (a : A)
| Raise (e : exn)
| Unmodelled
| OutOfFuel.

Arguments Ok {A} a.
Arguments Raise {A} e.
Arguments Unmodelled {A}.
Arguments OutOfFuel {A}.

Definition bind {A B} (c : outcome A) (k : A -> outcome B) : outcome B :=
  match c with
  | Ok a => k a
  | Raise e => Raise e
  | Unmodelled => Unmodelled
  | OutOfFuel => OutOfFuel
  end.

Notation "x <- c ;; k" := (bind c (fun x => k))
  (at level 61, c at next level, right associativity).

Fixpoint mapM {A B} (f : A -> outcome B) (l : list A) : outcome (list B) :=
  match l with
  | [] => Ok []
  | x :: t => y <- f x ;; ys <- mapM f t ;; Ok (y :: ys)
  end.

Fixpoint lookup (k : str) (d : list (str * value)) : option value :=
  match d with
  | [] => None
  | (k', v) :: t => if str_eqb k k' then Some v else lookup k t
  end.

(** [v.get(k, dflt)] *)
Definition get_s (v : value) (k : str) (dflt : value) : outcome value :=
  match v with
  | VDict d => Ok (match lookup k d with Some x => x | None => dflt end)
  | _ => Raise AttributeError
  end.

Definition get (v : value) (k : string) (dflt : value) : outcome value :=
  get_s v (lit k) dflt.

(** Truth value of an object, as tested by [if], [or] and [not]. *)
Definition truthy (v : value) : bool :=
  match v with
  | VNone => false
  | VBool b => b
  | VInt z => negb (Z.eqb z 0)
  | VFloat r => negb (str_eqb r (lit "0.0") || str_eqb r (lit "-0.0"))
  | VStr s => match s with [] => false | _ => true end
  | VList l => match l with [] => false | _ => true end
  | VDict d => match d with [] => false | _ => true end
  end.

(** [v == "literal"] *)
Definition eq_lit (v : value) (s : string) : bool :=
  match v with
  | VStr x => str_eqb x (lit s)
  | _ => false
  end.

(** [str(v)], which is also how an f-string renders [{v}]. *)
Definition py_str (v : value) : outcome str :=
  match v with
  | VNone => Ok (lit "None")
  | VBool true => Ok (lit "True")
  | VBool false => Ok (lit "False")
  | VInt z => Ok (str_of_Z z)
  | VFloat r => Ok r
  | VStr s => Ok s
  | VList _ | VDict _ => Unmodelled
  end.

(** The pieces of an f-string. *)
Inductive piece : Type :=
| Lit (s : string)
| NL
| Val (v : value).

Fixpoint fstr (ps : list piece) : outcome str :=
  match ps with
  | [] => Ok []
  | Lit s :: t => r <- fstr t ;; Ok (lit s ++ r)
  | NL :: t => r <- fstr t ;; Ok (newline :: r)
  | Val v :: t => x <- py_str v ;; r <- fstr t ;; Ok (x ++ r)
  end.

(** What [for x in v] enumerates. *)
Definition iter (v : value) : outcome (list value) :=
  match v with
  | VList l => Ok l
  | VStr s => Ok (map (fun c => VStr [c]) s)
  | VDict d => Ok (map (fun kv => VStr (fst kv)) d)
  | _ => Raise TypeError
  end.

(** [len(v)] *)
Definition len (v : value) : outcome nat :=
  match v with
  | VList l => Ok (List.length l)
  | VStr s => Ok (List.length s)
  | VDict d => Ok (List.length d)
  | _ => Raise TypeError
  end.

(** [v[0]] *)
Definition index0 (v : value) : outcome value :=
  match v with
  | VList (x :: _) => Ok x
  | VStr (c :: _) => Ok (VStr [c])
  | VList [] | VStr [] => Raise IndexError
  | VDict _ => Raise KeyError
  | _ => Raise TypeError
  end.

(** [v[:10]]; what is raised for a [dict] depends on the interpreter
    version and is taken to be a [TypeError]. *)
Definition slice10 (v : value) : outcome value :=
  match v with
  | VStr s => Ok (VStr (firstn 10 s))
  | VList l => Ok (VList (firstn 10 l))
  | _ => Raise TypeError
  end.

(** [d.items()] and [d.values()] *)
Definition items (v : value) : outcome (list (str * value)) :=
  match v with
  | VDict d => Ok d
  | _ => Raise AttributeError
  end.

(** The receiver of a [str] method such as [replace], [split] or [strip]. *)
Definition str_method (v : value) : outcome str :=
  match v with
  | VStr s => Ok s
  | _ => Raise AttributeError
  end.

(** The subject of [re.sub]. *)
Definition re_subject (v : value) : outcome str :=
  match v with
  | VStr s => Ok s
  | _ => Raise TypeError
  end.

(** [sep.join(vs)]: every member must be a [str]. *)
Definition join_values (sep : str) (vs : list value) : outcome str :=
  ss <- mapM (fun v => match v with VStr s => Ok s | _ => Raise TypeError end) vs ;;
  Ok (join sep ss).

(** [a or b] *)
Definition por (a : value) (b : outcome value) : outcome value :=
  if truthy a then Ok a else b.

(** ** The pure renderers *)

Fixpoint get_page_title_loop (props : list (str * value)) : outcome value :=
  match props with
  | [] => Ok (VStr (lit "Untitled"))
  | (_, prop) :: rest =>
    ty <- get prop "type" VNone ;;
    if eq_lit ty "title" then
      title_list <- get prop "title" (VList []) ;;
      if truthy title_list then
        first <- index0 title_list ;;
        get first "plain_text" (VStr (lit "Untitled"))
      else get_page_title_loop rest
    else get_page_title_loop rest
  end.

Definition get_page_title (page : value) : outcome value :=
  props <- get page "properties" (VDict []) ;;
  d <- items props ;;
  get_page_title_loop d.

(** [[t.get("plain_text", "") for t in v]] *)
Definition plain_texts (v : value) : outcome (list value) :=
  ts <- iter v ;;
  mapM (fun t => get t "plain_text" (VStr [])) ts.

(** [[o.get("name", "") for o in v]] *)
Definition option_names (v : value) : outcome (list value) :=
  os <- iter v ;;
  mapM (fun o => get o "name" (VStr [])) os.

(** [str(num) if num is not None else ""] *)
Definition str_unless_none (num : value) : outcome value :=
  match num with
  | VNone => Ok (VStr [])
  | _ => s <- py_str num ;; Ok (VStr s)
  end.

(** The body of the [people] loop: the names that are kept. *)
Fixpoint people_names (people : list value) : outcome (list value) :=
  match people with
  | [] => Ok []
  | p :: rest =>
    n <- get p "name" VNone ;;
    name <- por n (person <- get p "person" (VDict []) ;;
                   get person "email" (VStr [])) ;;
    names <- people_names rest ;;
    Ok (if truthy name then name :: names else names)
  end.

(** ["✅" if checked else "☐"] *)
Definition check_mark (checked : value) : value :=
  VStr (if truthy checked then lit "✅" else lit "☐").

Definition extract_property_value (prop : value) : outcome value :=
  prop_type <- get prop "type" VNone ;;
  if eq_lit prop_type "title" then
    titles <- get prop "title" (VList []) ;;
    ts <- plain_texts titles ;;
    s <- join_values [] ts ;; Ok (VStr s)
  else if eq_lit prop_type "rich_text" then
    texts <- get prop "rich_text" (VList []) ;;
    ts <- plain_texts texts ;;
    s <- join_values [] ts ;; Ok (VStr s)
  else if eq_lit prop_type "number" then
    num <- get prop "number" VNone ;;
    str_unless_none num
  else if eq_lit prop_type "select" then
    select <- get prop "select" VNone ;;
    if truthy select then get select "name" (VStr []) else Ok (VStr [])
  else if eq_lit prop_type "multi_select" then
    options <- get prop "multi_select" (VList []) ;;
    ns <- option_names options ;;
    s <- join_values (lit ", ") ns ;; Ok (VStr s)
  else if eq_lit prop_type "status" then
    status <- get prop "status" VNone ;;
    if truthy status then get status "name" (VStr []) else Ok (VStr [])
  else if eq_lit prop_type "date" then
    date <- get prop "date" VNone ;;
    if truthy date then
      start <- get date "start" (VStr []) ;;
      end_ <- get date "end" VNone ;;
      if truthy end_ then
        s <- fstr [Val start; Lit " → "; Val end_] ;; Ok (VStr s)
      else Ok start
    else Ok (VStr [])
  else if eq_lit prop_type "people" then
    people <- get prop "people" (VList []) ;;
    ps <- iter people ;;
    names <- people_names ps ;;
    s <- join_values (lit ", ") names ;; Ok (VStr s)
  else if eq_lit prop_type "checkbox" then
    checked <- get prop "checkbox" (VBool false) ;;
    Ok (check_mark checked)
  else if eq_lit prop_type "url" then
    u <- get prop "url" (VStr []) ;; por u (Ok (VStr []))
  else if eq_lit prop_type "email" then
    u <- get prop "email" (VStr []) ;; por u (Ok (VStr []))
  else if eq_lit prop_type "phone_number" then
    u <- get prop "phone_number" (VStr []) ;; por u (Ok (VStr []))
  else if eq_lit prop_type "formula" then
    formula <- get prop "formula" (VDict []) ;;
    formula_type <- get formula "type" VNone ;;
    if eq_lit formula_type "string" then
      s <- get formula "string" (VStr []) ;; por s (Ok (VStr []))
    else if eq_lit formula_type "number" then
      num <- get formula "number" VNone ;;
      str_unless_none num
    else if eq_lit formula_type "boolean" then
      b <- get formula "boolean" VNone ;;
      Ok (check_mark b)
    else if eq_lit formula_type "date" then
      date <- get formula "date" VNone ;;
      if truthy date then get date "start" (VStr []) else Ok (VStr [])
    else Ok (VStr [])
  else if eq_lit prop_type "relation" then
    relations <- get prop "relation" (VList []) ;;
    n <- len relations ;;
    Ok (VStr (lit "(" ++ str_of_nat n ++ lit " items)"))
  else if eq_lit prop_type "rollup" then
    rollup <- get prop "rollup" (VDict []) ;;
    rollup_type <- get rollup "type" VNone ;;
    if eq_lit rollup_type "number" then
      num <- get rollup "number" VNone ;;
      str_unless_none num
    else if eq_lit rollup_type "array" then
      arr <- get rollup "array" (VList []) ;;
      n <- len arr ;;
      Ok (VStr (lit "(" ++ str_of_nat n ++ lit " items)"))
    else Ok (VStr [])
  else if eq_lit prop_type "created_time" then
    t <- get prop "created_time" (VStr []) ;; slice10 t
  else if eq_lit prop_type "created_by" then
    user <- get prop "created_by" (VDict []) ;;
    n <- get user "name" (VStr []) ;;
    por n (get user "id" (VStr []))
  else if eq_lit prop_type "last_edited_time" then
    t <- get prop "last_edited_time" (VStr []) ;; slice10 t
  else if eq_lit prop_type "last_edited_by" then
    user <- get prop "last_edited_by" (VDict []) ;;
    n <- get user "name" (VStr []) ;;
    por n (get user "id" (VStr []))
  else if eq_lit prop_type "files" then
    files <- get prop "files" (VList []) ;;
    n <- len files ;;
    Ok (VStr (lit "(" ++ str_of_nat n ++ lit " files)"))
  else
    s <- fstr [Lit "["; Val prop_type; Lit "]"] ;; Ok (VStr s).

(** One run of [rich_text_to_markdown]'s loop. *)
Definition rich_text_run (text : value) : outcome value :=
  content <- get text "plain_text" (VStr []) ;;
  annotations <- get text "annotations" (VDict []) ;;
  bold <- get annotations "bold" VNone ;;
  content <- (if truthy bold
              then s <- fstr [Lit "**"; Val content; Lit "**"] ;; Ok (VStr s)
              else Ok content) ;;
  italic <- get annotations "italic" VNone ;;
  content <- (if truthy italic
              then s <- fstr [Lit "*"; Val content; Lit "*"] ;; Ok (VStr s)
              else Ok content) ;;
  strikethrough <- get annotations "strikethrough" VNone ;;
  content <- (if truthy strikethrough
              then s <- fstr [Lit "~~"; Val content; Lit "~~"] ;; Ok (VStr s)
              else Ok content) ;;
  code <- get annotations "code" VNone ;;
  content <- (if truthy code
              then s <- fstr [Lit "`"; Val content; Lit "`"] ;; Ok (VStr s)
              else Ok content) ;;
  href <- get text "href" VNone ;;
  if truthy href
  then s <- fstr [Lit "["; Val content; Lit "]("; Val href; Lit ")"] ;; Ok (VStr s)
  else Ok content.

Definition rich_text_to_markdown (rich_texts : value) : outcome str :=
  ts <- iter rich_texts ;;
  result <- mapM rich_text_run ts ;;
  join_values [] result.

Definition sanitize_filename (name : value) : outcome str :=
  s <- re_subject name ;;
  Ok (strip (re_sub_class unsafe_chars [] s)).

(** Lexicographic order on code points, the order of [str] comparison. *)
Fixpoint str_leb (a b : str) : bool :=
  match a, b with
  | [], _ => true
  | _ :: _, [] => false
  | x :: a', y :: b' => if x <? y then true else if y <? x then false else str_leb a' b'
  end.

(** [list.sort(key=lambda x: x[0])]: a stable sort on the first component. *)
Fixpoint insert_by_key (x : str * str) (l : list (str * str)) : list (str * str) :=
  match l with
  | [] => [x]
  | y :: t => if str_leb (fst x) (fst y) then x :: y :: t else y :: insert_by_key x t
  end.

Fixpoint sort_by_key (l : list (str * str)) : list (str * str) :=
  match l with
  | [] => []
  | x :: t => insert_by_key x (sort_by_key t)
  end.

(** The table-escaped pipe, [s.replace("|", "\\|")]. *)
Definition escape_pipe (s : str) : str := replace pipe [backslash; pipe] s.

(** ["| " + " | ".join(cells) + " |"] *)
Definition table_row (cells : list str) : str :=
  lit "| " ++ join (lit " | ") cells ++ lit " |".

(** The loop of [get_page_properties_markdown] that fills [prop_items]. *)
Fixpoint collect_prop_items (props : list (str * value)) : outcome (list (str * str)) :=
  match props with
  | [] => Ok []
  | (name, prop) :: rest =>
    ty <- get prop "type" VNone ;;
    if eq_lit ty "title" then collect_prop_items rest
    else
      value <- extract_property_value prop ;;
      if truthy value then
        v <- str_method value ;;
        r <- collect_prop_items rest ;;
        Ok ((escape_pipe name, escape_pipe v) :: r)
      else collect_prop_items rest
  end.

(** The two-row table built from the sorted items, and the rule below it. *)
Definition properties_table (prop_items : list (str * str)) : str :=
  let headers := map fst prop_items in
  let values := map snd prop_items in
  let header_row := table_row headers in
  let separator := table_row (repeat (lit "---") (List.length headers)) in
  let value_row := table_row values in
  header_row ++ [newline] ++ separator ++ [newline] ++ value_row
    ++ [newline; newline] ++ lit "---" ++ [newline].

Definition get_page_properties_markdown (page : value) : outcome str :=
  props <- get page "properties" (VDict []) ;;
  if negb (truthy props) then Ok [] else
  d <- items props ;;
  prop_items <- collect_prop_items d ;;
  match prop_items with
  | [] => Ok []
  | _ => Ok (properties_table (sort_by_key prop_items))
  end.

(** ** Paths and the file system *)

(** A [pathlib] path: the number of leading slashes it keeps (0 for a
    relative path, 1, or 2 for exactly two) and its segments. *)
Record path : Type := mk_path { anchor : N; segs : list str }.

Fixpoint leading_slashes (s : str) : nat :=
  match s with
  | c :: t => if c =? 47 then S (leading_slashes t) else O
  | [] => O
  end.

Definition keep_segment (p : str) : bool :=
  negb (str_eqb p []) && negb (str_eqb p (lit ".")).

Definition parse_path (s : str) : path :=
  let n := leading_slashes s in
  mk_path (match n with O => 0 | 2%nat => 2 | _ => 1 end)
          (filter keep_segment (split_on 47 s)).

(** [p / s]: an anchored right operand replaces the left one. *)
Definition path_join (p : path) (s : str) : path :=
  let q := parse_path s in
  if anchor q =? 0 then mk_path (anchor p) (segs p ++ segs q) else q.

(** [p.parent] *)
Definition parent (p : path) : path :=
  mk_path (anchor p) (removelast (segs p)).

Fixpoint segs_eqb (a b : list str) : bool :=
  match a, b with
  | [], [] => true
  | x :: a', y :: b' => str_eqb x y && segs_eqb a' b'
  | _, _ => false
  end.

Definition path_eqb (p q : path) : bool :=
  (anchor p =? anchor q) && segs_eqb (segs p) (segs q).

Inductive node : Type :=
| Dir
| TextFile (content : str)
| BinFile (content : list N).

(** The tree below the working directory and the roots, newest entry
    first; the working directory and the roots themselves always exist.
    No links, permissions or name-length limits are modelled. *)
Definition filesystem := list (path * node).

Fixpoint fs_lookup (p : path) (fs : filesystem) : option node :=
  match fs with
  | [] => None
  | (q, n) :: t => if path_eqb p q then Some n else fs_lookup p t
  end.

(** Create or replace the entry of [p]. *)
Definition fs_set (p : path) (n : node) (fs : filesystem) : filesystem :=
  (p, n) :: filter (fun e => negb (path_eqb p (fst e))) fs.

Definition node_at (p : path) (fs : filesystem) : option node :=
  match segs p with
  | [] => Some Dir
  | _ => fs_lookup p fs
  end.

(** A [..] segment is resolved by the operating system, not by [pathlib];
    such paths are left out of the model. *)
Definition has_dotdot (p : path) : bool :=
  existsb (fun s => str_eqb s (lit "..")) (segs p).

(** ** The world: files and what the run did, newest event first *)

Inductive event : Type :=
| Printed (line : str)
| PrintExn (prefix : str) (e : exn)
| HttpGet (url : value)
| FileOpened (p : path).

Record world : Type := mk_world { fs : filesystem; trace : list event }.

Definition M (A : Type) : Type := world -> outcome A * world.

Definition ret {A} (a : A) : M A := fun w => (Ok a, w).

Definition bindM {A B} (c : M A) (k : A -> M B) : M B :=
  fun w =>
    match c w with
    | (Ok a, w') => k a w'
    | (Raise e, w') => (Raise e, w')
    | (Unmodelled, w') => (Unmodelled, w')
    | (OutOfFuel, w') => (OutOfFuel, w')
    end.

Notation "x <~ c ;; k" := (bindM c (fun x => k))
  (at level 61, c at next level, right associativity).

Definition lift {A} (c : outcome A) : M A := fun w => (c, w).

(** [try: c  except Exception as e: h e] *)
Definition try_except {A} (c : M A) (h : exn -> M A) : M A :=
  fun w =>
    match c w with
    | (Raise e, w') => h e w'
    | r => r
    end.

Definition emit (e : event) : M unit :=
  fun w => (Ok tt, mk_world (fs w) (e :: trace w)).

Definition print (line : str) : M unit := emit (Printed line).

Fixpoint forM_ {A} (f : A -> M unit) (l : list A) : M unit :=
  match l with
  | [] => ret tt
  | x :: t => _ <~ f x ;; forM_ f t
  end.

Fixpoint mapMM {A B} (f : A -> M B) (l : list A) : M (list B) :=
  match l with
  | [] => ret []
  | x :: t => y <~ f x ;; ys <~ mapMM f t ;; ret (y :: ys)
  end.

(** [p.exists()] *)
Definition path_exists (p : path) : M bool :=
  fun w =>
    if has_dotdot p then (Unmodelled, w)
    else (Ok (match node_at p (fs w) with Some _ => true | None => false end), w).

(** The directories [mkdir] has to add, walking down from the anchor. *)
Fixpoint mkdir_walk (a : N) (done todo : list str) (fs : filesystem)
  : outcome filesystem :=
  match todo with
  | [] => Ok fs
  | s :: rest =>
    let p := mk_path a (done ++ [s]) in
    match fs_lookup p fs with
    | Some Dir => mkdir_walk a (done ++ [s]) rest fs
    | Some _ => Raise OSError
    | None => mkdir_walk a (done ++ [s]) rest ((p, Dir) :: fs)
    end
  end.

(** [p.mkdir(parents=True, exist_ok=True)] *)
Definition mkdir (p : path) : M unit :=
  fun w =>
    if has_dotdot p then (Unmodelled, w) else
    match mkdir_walk (anchor p) [] (segs p) (fs w) with
    | Ok fs' => (Ok tt, mk_world fs' (trace w))
    | Raise e => (Raise e, w)
    | Unmodelled => (Unmodelled, w)
    | OutOfFuel => (OutOfFuel, w)
    end.

(** Opening [p] for writing creates or truncates it. *)
Definition open_w (p : path) (empty : node) : M unit :=
  fun w =>
    if has_dotdot p then (Unmodelled, w) else
    match segs p, node_at (parent p) (fs w), fs_lookup p (fs w) with
    | [], _, _ => (Raise OSError, w)
    | _, _, Some Dir => (Raise OSError, w)
    | _, Some Dir, _ =>
      (Ok tt, mk_world (fs_set p empty (fs w)) (FileOpened p :: trace w))
    | _, _, _ => (Raise OSError, w)
    end.

(** UTF-8 cannot encode a surrogate code point. *)
Definition encodable (s : str) : bool :=
  forallb (fun c => negb ((55296 <=? c) && (c <=? 57343))) s.

(** [f.write(s)] on a text file opened at [p]. *)
Definition write_text_to (p : path) (s : str) : M unit :=
  fun w =>
    if negb (encodable s) then (Raise UnicodeEncodeError, w) else
    match fs_lookup p (fs w) with
    | Some (TextFile old) =>
      (Ok tt, mk_world (fs_set p (TextFile (old ++ s)) (fs w)) (trace w))
    | _ => (Raise OSError, w)
    end.

(** [f.write(b)] on a binary file opened at [p]. *)
Definition write_bytes_to (p : path) (b : list N) : M unit :=
  fun w =>
    match fs_lookup p (fs w) with
    | Some (BinFile old) =>
      (Ok tt, mk_world (fs_set p (BinFile (old ++ b)) (fs w)) (trace w))
    | _ => (Raise OSError, w)
    end.

(** [p.write_text(s, encoding="utf-8")] *)
Definition write_text (p : path) (s : str) : M unit :=
  _ <~ open_w p (TextFile []) ;;
  write_text_to p s.

(** ** The collaborators outside the script *)

(** The Notion client, [requests] (a GET followed by [raise_for_status],
    giving the body), [urllib.parse] (the path of a parsed URL, and
    [unquote]), [hashlib] (the MD5 digest of the encoded text), and the two
    settings read from the environment.  Each call answers or raises.  The
    remote workspace is a snapshot: a call with the same arguments gives the
    same answer during a run. *)
Inductive reply (A : Type) : Type :=
| Reply (a : A)
| Fail (e : exn).

Arguments Reply {A} a.
Arguments Fail {A} e.

Definition call {A} (r : reply A) : outcome A :=
  match r with
  | Reply a => Ok a
  | Fail e => Raise e
  end.

Record env : Type := mk_env {
  pages_retrieve : value -> reply value;
  databases_retrieve : value -> reply value;
  blocks_children_list : value -> value -> reply value;
  comments_list : value -> value -> reply value;
  databases_query : value -> value -> reply value;
  requests_get : value -> reply (list N);
  urlparse_path : value -> reply str;
  unquote : str -> str;
  md5_digest : str -> reply (list N);
  DOWNLOAD_IMAGES : bool;
  ROOT_PAGE_ID : str
}.

(** [hexdigest()]: two lowercase hexadecimal digits per byte. *)
Definition hex_digit (n : N) : N := if n <? 10 then 48 + n else 87 + n.

Definition hexdigest (bytes : list N) : str :=
  flat_map (fun b => [hex_digit ((b mod 256) / 16); hex_digit (b mod 16)]) bytes.

(** ** Pagination *)

(** The [while True] loop shared by the three listings: call, extend,
    stop when [has_more] is false, else follow [next_cursor]. *)
Fixpoint drain (fuel : nat) (list_fn : value -> reply value)
         (cursor : value) (acc : list value) : outcome (list value) :=
  match fuel with
  | O => OutOfFuel
  | S fuel' =>
    response <- call (list_fn cursor) ;;
    results <- get response "results" (VList []) ;;
    xs <- iter results ;;
    has_more <- get response "has_more" VNone ;;
    if negb (truthy has_more) then Ok (acc ++ xs)
    else
      cursor' <- get response "next_cursor" VNone ;;
      drain fuel' list_fn cursor' (acc ++ xs)
  end.

Definition get_page_children (E : env) (fuel : nat) (page_id : value)
  : outcome (list value) :=
  drain fuel (blocks_children_list E page_id) VNone [].

(** ** Comments *)

(** The line of one comment, the body of the loop over the comments. *)
Definition comment_line (comment : value) : outcome str :=
  created_by <- get comment "created_by" (VDict []) ;;
  n <- get created_by "name" VNone ;;
  user_name <- por n (get created_by "id" (VStr (lit "Unknown"))) ;;
  t <- get comment "created_time" (VStr []) ;;
  created_time <- slice10 t ;;
  rich_text <- get comment "rich_text" (VList []) ;;
  ts <- plain_texts rich_text ;;
  content <- join_values [] ts ;;
  let content_lines := split_on newline content in
  let formatted_content := join (newline :: lit "> ") content_lines in
  fstr [Lit "> **"; Val user_name; Lit "** ("; Val created_time; Lit "): ";
        Val (VStr formatted_content); NL].

(** What [get_page_comments] does inside its [try]. *)
Definition comments_body (E : env) (fuel : nat) (page_id : value) : outcome str :=
  comments <- drain fuel (comments_list E page_id) VNone [] ;;
  match comments with
  | [] => Ok []
  | _ =>
    ls <- mapM comment_line comments ;;
    Ok (join [newline]
             ([lit "## 💬 コメント" ++ [newline]] ++ ls
              ++ [[newline] ++ lit "---" ++ [newline]]))
  end.

Definition get_page_comments (E : env) (fuel : nat) (page_id : value) : M str :=
  try_except (lift (comments_body E fuel page_id))
    (fun e => _ <~ emit (PrintExn (lit "    ⚠️ Could not fetch comments: ") e) ;;
              ret []).

(** ** Assets *)

(** [image_uuid] and [original_name], from the path of the URL or, when it
    has no two parts, from the digest of the URL. *)
Definition image_identity (E : env) (url : value) : outcome (str * str) :=
  parsed_path <- call (urlparse_path E url) ;;
  let path_parts := split_on 47 parsed_path in
  if (2 <=? List.length path_parts)%nat then
    Ok (nth (List.length path_parts - 2) path_parts [],
        unquote E (last path_parts []))
  else
    u <- str_method url ;;
    digest <- call (md5_digest E u) ;;
    Ok (firstn 12 (hexdigest digest), lit "image.png").

(** [filename = f"{image_uuid}_{safe_name}"] *)
Definition image_filename (E : env) (url : value) : outcome str :=
  id <- image_identity E url ;;
  let safe_name := re_sub_class unsafe_chars (lit "_") (snd id) in
  Ok (fst id ++ lit "_" ++ safe_name).

Definition download_image (E : env) (url : value) (output_dir : path) : M value :=
  try_except
    (filename <~ lift (image_filename E url) ;;
     let images_dir := path_join output_dir (lit "images") in
     _ <~ mkdir images_dir ;;
     let image_path := path_join images_dir filename in
     present <~ path_exists image_path ;;
     if present then
       _ <~ print (lit "    ⏭️ 画像スキップ（既存）: " ++ filename) ;;
       ret (VStr (lit "images/" ++ filename))
     else
       _ <~ print (lit "    📥 画像ダウンロード: " ++ filename) ;;
       _ <~ emit (HttpGet url) ;;
       content <~ lift (call (requests_get E url)) ;;
       _ <~ open_w image_path (BinFile []) ;;
       _ <~ write_bytes_to image_path content ;;
       ret (VStr (lit "images/" ++ filename)))
    (fun e => _ <~ emit (PrintExn (lit "    ⚠️ 画像ダウンロードエラー: ") e) ;;
              ret url).

(** ** Blocks *)

(** [v.get(k, {}).get(f, dflt)] *)
Definition get2 (v : value) (k f : string) (dflt : value) : outcome value :=
  inner <- get v k (VDict []) ;;
  get inner f dflt.

(** ["| " + " | ".join(["---"] * n) + " |"] *)
Definition table_separator (n : nat) : str := table_row (repeat (lit "---") n).

(** One cell: its rich text with the pipes escaped. *)
Definition table_cell (cell : value) : outcome str :=
  cell_text <- rich_text_to_markdown cell ;;
  Ok (escape_pipe cell_text).

(** The inner loop over the cells of one row. *)
Definition row_cells (row : value) : outcome (list str) :=
  cells <- get2 row "table_row" "cells" (VList []) ;;
  cs <- iter cells ;;
  mapM table_cell cs.

(** The [for i, row in enumerate(rows)] loop of [convert_table_block]. *)
Fixpoint table_rows_loop (i : nat) (rows : list value) : outcome (list str) :=
  match rows with
  | [] => Ok []
  | row :: rest =>
    ty <- get row "type" VNone ;;
    if negb (eq_lit ty "table_row") then table_rows_loop (S i) rest
    else
      cell_texts <- row_cells row ;;
      let md_row := table_row cell_texts in
      md_rows <- table_rows_loop (S i) rest ;;
      Ok (md_row ::
          (if Nat.eqb i 0 then [table_separator (List.length cell_texts)] else [])
          ++ md_rows)
  end.

(** What [convert_table_block] does inside its [try]; the rows are listed
    once, without a cursor. *)
Definition table_body (E : env) (block_id : value) : outcome str :=
  rows_response <- call (blocks_children_list E block_id VNone) ;;
  rows <- get rows_response "results" (VList []) ;;
  if negb (truthy rows) then Ok (lit "[Empty Table]" ++ [newline]) else
  rs <- iter rows ;;
  md_rows <- table_rows_loop 0 rs ;;
  Ok (join [newline] md_rows ++ [newline; newline]).

Definition convert_table_block (E : env) (block : value) : M str :=
  block_id <~ lift (get block "id" VNone) ;;
  table_info <~ lift (get block "table" (VDict [])) ;;
  has_column_header <~ lift (get table_info "has_column_header" (VBool false)) ;;
  has_row_header <~ lift (get table_info "has_row_header" (VBool false)) ;;
  try_except (lift (table_body E block_id))
    (fun e => _ <~ emit (PrintExn (lit "  ⚠️ テーブル変換エラー: ") e) ;;
              ret (lit "[Table conversion error]" ++ [newline])).

(** The [child_page] and [child_database] branches, which differ in the
    key, the icon and the extension only. *)
Definition nested_reference (key icon ext : string) (block parent_title : value)
  : outcome str :=
  title <- get2 block key "title" (VStr (lit "Untitled")) ;;
  raw_id <- get block "id" (VStr []) ;;
  id_str <- str_method raw_id ;;
  let child_id := replace 45 [] id_str in
  if truthy parent_title && truthy (VStr child_id) then
    safe_parent <- sanitize_filename parent_title ;;
    safe_title <- sanitize_filename title ;;
    link_path <- fstr [Val (VStr safe_parent); Lit "/"; Val (VStr safe_title);
                       Lit "%20"; Val (VStr child_id); Lit ext] ;;
    fstr [Lit icon; Lit " ["; Val title; Lit "]("; Val (VStr link_path); Lit ")"; NL]
  else
    fstr [Lit icon; Lit " ["; Val title; Lit "]"; NL].

(** The branches of the shape [f"{prefix}{rich_text_to_markdown(texts)}\n"],
    with [texts = block.get(key, {}).get("rich_text", [])]: paragraph,
    headings, list items and quote. *)
Definition heading (prefix key : string) (block : value) : outcome str :=
  texts <- get2 block key "rich_text" (VList []) ;;
  t <- rich_text_to_markdown texts ;;
  Ok (lit prefix ++ t ++ [newline]).

Definition block_to_markdown (E : env) (block : value)
           (output_dir : option path) (parent_title : value) : M str :=
  block_type <~ lift (get block "type" VNone) ;;
  if eq_lit block_type "paragraph" then lift (heading "" "paragraph" block)
  else if eq_lit block_type "heading_1" then lift (heading "# " "heading_1" block)
  else if eq_lit block_type "heading_2" then lift (heading "## " "heading_2" block)
  else if eq_lit block_type "heading_3" then lift (heading "### " "heading_3" block)
  else if eq_lit block_type "bulleted_list_item" then
    lift (heading "- " "bulleted_list_item" block)
  else if eq_lit block_type "numbered_list_item" then
    lift (heading "1. " "numbered_list_item" block)
  else if eq_lit block_type "to_do" then
    lift (texts <- get2 block "to_do" "rich_text" (VList []) ;;
          checked <- get2 block "to_do" "checked" (VBool false) ;;
          let checkbox := if truthy checked then lit "[x]" else lit "[ ]" in
          t <- rich_text_to_markdown texts ;;
          Ok (lit "- " ++ checkbox ++ lit " " ++ t ++ [newline]))
  else if eq_lit block_type "toggle" then
    lift (texts <- get2 block "toggle" "rich_text" (VList []) ;;
          t <- rich_text_to_markdown texts ;;
          Ok (lit "<details><summary>" ++ t ++ lit "</summary>" ++ [newline]
              ++ lit "</details>" ++ [newline]))
  else if eq_lit block_type "code" then
    lift (texts <- get2 block "code" "rich_text" (VList []) ;;
          language <- get2 block "code" "language" (VStr []) ;;
          code <- rich_text_to_markdown texts ;;
          fstr [Lit "```"; Val language; NL; Val (VStr code); NL; Lit "```"; NL])
  else if eq_lit block_type "quote" then lift (heading "> " "quote" block)
  else if eq_lit block_type "divider" then ret (lit "---" ++ [newline])
  else if eq_lit block_type "callout" then
    lift (texts <- get2 block "callout" "rich_text" (VList []) ;;
          icon <- get2 block "callout" "icon" (VDict []) ;;
          emoji <- (if truthy icon then get icon "emoji" (VStr (lit "💡"))
                    else Ok (VStr (lit "💡"))) ;;
          t <- rich_text_to_markdown texts ;;
          fstr [Lit "> "; Val emoji; Lit " "; Val (VStr t); NL])
  else if eq_lit block_type "child_page" then
    lift (nested_reference "child_page" "📄" ".md" block parent_title)
  else if eq_lit block_type "child_database" then
    lift (nested_reference "child_database" "🗄️" ".csv" block parent_title)
  else if eq_lit block_type "image" then
    image <~ lift (get block "image" (VDict [])) ;;
    image_type <~ lift (get image "type" VNone) ;;
    image_path <~
      (if eq_lit image_type "external" then
         lift (get2 image "external" "url" (VStr []))
       else
         url <~ lift (get2 image "file" "url" (VStr [])) ;;
         match output_dir with
         | Some dir =>
           if DOWNLOAD_IMAGES E && truthy url then download_image E url dir
           else ret url
         | None => ret url
         end) ;;
    lift (cap <- get image "caption" (VList []) ;;
          caption <- rich_text_to_markdown cap ;;
          fstr [Lit "!["; Val (VStr caption); Lit "]("; Val image_path; Lit ")"; NL])
  else if eq_lit block_type "bookmark" then
    lift (url <- get2 block "bookmark" "url" (VStr []) ;;
          fstr [Lit "🔗 "; Val url; NL])
  else if eq_lit block_type "table" then convert_table_block E block
  else
    lift (fstr [Lit "["; Val block_type; Lit "]"; NL]).

Definition fetch_page_content (E : env) (fuel : nat) (page_id : value)
           (output_dir : option path) (parent_title : value) : M str :=
  blocks <~ lift (get_page_children E fuel page_id) ;;
  content_lines <~ mapMM (fun block => block_to_markdown E block output_dir parent_title)
                         blocks ;;
  ret (join [newline] content_lines).

(** ** The tabular export *)

(** How [csv.writer] renders one field: [None] is empty, a [str] is taken
    as it is, anything else goes through [str()]. *)
Definition csv_field (v : value) : outcome str :=
  match v with
  | VNone => Ok []
  | VStr s => Ok s
  | _ => py_str v
  end.

(** Minimal quoting: a field with a comma, a quote, a carriage return or a
    line feed is quoted, its quotes doubled. *)
Definition csv_needs_quotes (s : str) : bool :=
  existsb (fun c => (c =? 44) || (c =? dquote) || (c =? 13) || (c =? 10)) s.

Definition csv_quote (s : str) : str :=
  if csv_needs_quotes s
  then [dquote] ++ replace dquote [dquote; dquote] s ++ [dquote]
  else s.

(** One record of the default (excel) dialect. *)
Definition csv_line (fields : list str) : str :=
  match fields with
  | [[]] => [dquote; dquote]
  | _ => join (lit ",") (map csv_quote fields)
  end ++ [13; 10].

(** The loop over the first record's properties. *)
Fixpoint csv_headers_loop (props : list (str * value))
         (title_prop : option str) (headers : list str)
  : outcome (option str * list str) :=
  match props with
  | [] => Ok (title_prop, headers)
  | (name, prop) :: rest =>
    ty <- get prop "type" VNone ;;
    if eq_lit ty "title" then csv_headers_loop rest (Some name) headers
    else csv_headers_loop rest title_prop (headers ++ [name])
  end.

(** The columns: those of the first record in their order, the title
    property moved to the front; [if title_prop] drops an empty name. *)
Definition csv_headers (first_record : value) : outcome (list str) :=
  props <- get first_record "properties" (VDict []) ;;
  d <- items props ;;
  r <- csv_headers_loop d None [] ;;
  match fst r with
  | Some (c :: t) => Ok ((c :: t) :: snd r)
  | _ => Ok (snd r)
  end.

(** One cell: [extract_property_value(record.get("properties", {}).get(name, {}))] *)
Definition csv_cell (record : value) (name : str) : outcome value :=
  props <- get record "properties" (VDict []) ;;
  prop <- get_s props name (VDict []) ;;
  extract_property_value prop.

(** The [row] dictionary of one record, in header order. *)
Definition csv_row (headers : list str) (record : value) : outcome (list value) :=
  mapM (csv_cell record) headers.

(** The row as [writer.writerow] formats it. *)
Definition csv_fields (headers : list str) (record : value) : outcome (list str) :=
  row <- csv_row headers record ;;
  mapM csv_field row.

Definition write_csv_record (csv_path : path) (headers : list str) (record : value)
  : M unit :=
  fields <~ lift (csv_fields headers record) ;;
  write_text_to csv_path (csv_line fields).

Definition export_database_to_csv (records : list value) (title : value)
           (db_id : str) (output_path : path) : M unit :=
  match records with
  | [] => ret tt
  | first_record :: _ =>
    headers <~ lift (csv_headers first_record) ;;
    safe <~ lift (sanitize_filename title) ;;
    let csv_filename := safe ++ lit " " ++ db_id ++ lit ".csv" in
    let csv_path := path_join output_path csv_filename in
    _ <~ open_w csv_path (TextFile []) ;;
    _ <~ write_text_to csv_path (csv_line headers) ;;
    _ <~ forM_ (write_csv_record csv_path headers) records ;;
    print (lit "  📊 CSV exported: " ++ csv_filename)
  end.

(** ** The traversal *)

(** ['  ' * depth] *)
Definition indent (depth : nat) : str := List.concat (repeat (lit "  ") depth).

(** [b.get("type") in ("child_page", "child_database")] *)
Definition is_child_node (b : value) : outcome bool :=
  ty <- get b "type" VNone ;;
  Ok (eq_lit ty "child_page" || eq_lit ty "child_database").

Fixpoint filterM {A} (f : A -> outcome bool) (l : list A) : outcome (list A) :=
  match l with
  | [] => Ok []
  | x :: t => b <- f x ;; r <- filterM f t ;; Ok (if b then x :: r else r)
  end.

(** [try: x = retrieve(id)  except Exception as e: print(...); return] *)
Definition retrieve_or_log (what : string) (retrieve : value -> reply value)
           (id : value) : M (option value) :=
  try_except (x <~ lift (call (retrieve id)) ;; ret (Some x))
    (fun e =>
       prefix <~ lift (fstr [Lit "  Error fetching "; Lit what; Lit " "; Val id; Lit ": "]) ;;
       _ <~ emit (PrintExn prefix e) ;;
       ret None).

Fixpoint process_page (E : env) (fuel : nat) (page_id : value) (output_path : path)
         (depth : nat) (include_properties : bool) {struct fuel} : M unit :=
  match fuel with
  | O => lift OutOfFuel
  | S fuel' =>
    fetched <~ retrieve_or_log "page" (pages_retrieve E) page_id ;;
    match fetched with
    | None => ret tt
    | Some page =>
      title <~ lift (get_page_title page) ;;
      id_str <~ lift (str_method page_id) ;;
      let page_id_short := replace 45 [] id_str in
      safe <~ lift (sanitize_filename title) ;;
      let filename := safe ++ lit " " ++ page_id_short ++ lit ".md" in
      let filepath := path_join output_path filename in
      line <~ lift (fstr [Val (VStr (indent depth)); Lit "📄 "; Val title]) ;;
      _ <~ print line ;;
      content <~ fetch_page_content E fuel page_id (Some output_path) title ;;
      comments_md <~ get_page_comments E fuel page_id ;;
      properties_md <~ (if include_properties
                        then lift (get_page_properties_markdown page)
                        else ret []) ;;
      markdown <~ lift (fstr [Lit "# "; Val title; NL; NL; Val (VStr properties_md);
                              Val (VStr comments_md); Val (VStr content)]) ;;
      _ <~ mkdir (parent filepath) ;;
      _ <~ write_text filepath markdown ;;
      blocks <~ lift (get_page_children E fuel page_id) ;;
      child_pages <~ lift (filterM is_child_node blocks) ;;
      match child_pages with
      | [] => ret tt
      | _ =>
        safe_dir <~ lift (sanitize_filename title) ;;
        let child_dir := path_join output_path safe_dir in
        _ <~ mkdir child_dir ;;
        forM_ (fun child =>
                 child_id <~ lift (get child "id" VNone) ;;
                 ty <~ lift (get child "type" VNone) ;;
                 if eq_lit ty "child_page" then
                   process_page E fuel' child_id child_dir (S depth) false
                 else if eq_lit ty "child_database" then
                   process_database E fuel' child_id child_dir (S depth)
                 else ret tt)
              child_pages
      end
    end
  end

with process_database (E : env) (fuel : nat) (database_id : value)
       (output_path : path) (depth : nat) {struct fuel} : M unit :=
  match fuel with
  | O => lift OutOfFuel
  | S fuel' =>
    fetched <~ retrieve_or_log "database" (databases_retrieve E) database_id ;;
    match fetched with
    | None => ret tt
    | Some db =>
      titles <~ lift (get db "title" (VList [VDict []])) ;;
      first <~ lift (index0 titles) ;;
      title <~ lift (get first "plain_text" (VStr (lit "Untitled"))) ;;
      id_str <~ lift (str_method database_id) ;;
      let db_id_short := replace 45 [] id_str in
      line <~ lift (fstr [Val (VStr (indent depth)); Lit "🗄️ "; Val title]) ;;
      _ <~ print line ;;
      records <~ lift (drain fuel (databases_query E database_id) VNone []) ;;
      safe <~ lift (sanitize_filename title) ;;
      let db_dir := path_join output_path safe in
      _ <~ mkdir db_dir ;;
      _ <~ export_database_to_csv records title db_id_short output_path ;;
      forM_ (fun record =>
               record_id <~ lift (get record "id" VNone) ;;
               process_page E fuel' record_id db_dir (S depth) true)
            records
    end
  end.

(** The bodies of the two [for] loops of the traversal. *)
Definition visit_child (E : env) (fuel : nat) (child_dir : path) (depth : nat)
           (child : value) : M unit :=
  child_id <~ lift (get child "id" VNone) ;;
  ty <~ lift (get child "type" VNone) ;;
  if eq_lit ty "child_page" then
    process_page E fuel child_id child_dir (S depth) false
  else if eq_lit ty "child_database" then
    process_database E fuel child_id child_dir (S depth)
  else ret tt.

Definition visit_record (E : env) (fuel : nat) (db_dir : path) (depth : nat)
           (record : value) : M unit :=
  record_id <~ lift (get record "id" VNone) ;;
  process_page E fuel record_id db_dir (S depth) true.

Definition OUTPUT_DIR : path := parse_path (lit "root_page").

Definition main (E : env) (fuel : nat) : M unit :=
  match ROOT_PAGE_ID E with
  | [] => print (lit "Error: NOTION_ROOT_PAGE_ID is not set")
  | _ =>
    line <~ lift (fstr [Lit "Fetching from Notion (root: "; Val (VStr (ROOT_PAGE_ID E)); Lit ")"]) ;;
    _ <~ print line ;;
    _ <~ print (List.concat (repeat (lit "=") 50)) ;;
    _ <~ mkdir OUTPUT_DIR ;;
    _ <~ process_page E fuel (VStr (ROOT_PAGE_ID E)) OUTPUT_DIR 0 false ;;
    _ <~ print (List.concat (repeat (lit "=") 50)) ;;
    print (lit "Done!")
  end.


(** ** The shape of API objects *)

(** The property types the extractor knows; the payload of a property is
    stored under the key named after its type. *)
Definition property_types : list string :=
  ["title"; "rich_text"; "number"; "select"; "multi_select"; "status"; "date";
   "people"; "checkbox"; "url"; "email"; "phone_number"; "formula"; "relation";
   "rollup"; "created_time"; "created_by"; "last_edited_time"; "last_edited_by";
   "files"]%string.

Definition is_none (v : value) : bool := match v with VNone => true | _ => false end.
Definition is_bool (v : value) : bool := match v with VBool _ => true | _ => false end.
Definition is_str (v : value) : bool := match v with VStr _ => true | _ => false end.
Definition is_list (v : value) : bool := match v with VList _ => true | _ => false end.
Definition is_dict (v : value) : bool := match v with VDict _ => true | _ => false end.
Definition is_number (v : value) : bool :=
  match v with VInt _ | VFloat _ => true | _ => false end.

Definition nullable (P : value -> bool) (v : value) : bool := is_none v || P v.

Definition list_of (P : value -> bool) (v : value) : bool :=
  match v with VList l => forallb P l | _ => false end.

(** [v] is an object whose field [k], when present, satisfies [P]. *)
Definition field (k : string) (P : value -> bool) (v : value) : bool :=
  match v with
  | VDict d => match lookup (lit k) d with Some x => P x | None => true end
  | _ => false
  end.

(** A rich-text item as far as its plain text is concerned. *)
Definition plain_item (v : value) : bool := field "plain_text" is_str v.

Definition named (v : value) : bool := field "name" is_str v.

Definition user_object (v : value) : bool :=
  field "name" (nullable is_str) v && field "id" is_str v
  && field "person" (field "email" is_str) v.

Definition date_object (v : value) : bool :=
  field "start" is_str v && field "end" (nullable is_str) v.

Definition type_of (v : value) : value :=
  match v with
  | VDict d => match lookup (lit "type") d with Some t => t | None => VNone end
  | _ => VNone
  end.

Definition formula_object (v : value) : bool :=
  is_dict v &&
  (if eq_lit (type_of v) "string" then field "string" (nullable is_str) v
   else if eq_lit (type_of v) "number" then field "number" (nullable is_number) v
   else if eq_lit (type_of v) "boolean" then field "boolean" (nullable is_bool) v
   else if eq_lit (type_of v) "date" then field "date" (nullable date_object) v
   else true).

Definition rollup_object (v : value) : bool :=
  is_dict v &&
  (if eq_lit (type_of v) "number" then field "number" (nullable is_number) v
   else if eq_lit (type_of v) "array" then field "array" is_list v
   else true).

(** A property value as the API documents it, any field possibly absent. *)
Definition well_formed_property (prop : value) : bool :=
  is_dict prop && is_str (type_of prop) &&
  (if eq_lit (type_of prop) "title" then field "title" (list_of plain_item) prop
   else if eq_lit (type_of prop) "rich_text" then field "rich_text" (list_of plain_item) prop
   else if eq_lit (type_of prop) "number" then field "number" (nullable is_number) prop
   else if eq_lit (type_of prop) "select" then field "select" (nullable named) prop
   else if eq_lit (type_of prop) "multi_select" then field "multi_select" (list_of named) prop
   else if eq_lit (type_of prop) "status" then field "status" (nullable named) prop
   else if eq_lit (type_of prop) "date" then field "date" (nullable date_object) prop
   else if eq_lit (type_of prop) "people" then field "people" (list_of user_object) prop
   else if eq_lit (type_of prop) "checkbox" then field "checkbox" is_bool prop
   else if eq_lit (type_of prop) "url" then field "url" (nullable is_str) prop
   else if eq_lit (type_of prop) "email" then field "email" (nullable is_str) prop
   else if eq_lit (type_of prop) "phone_number" then field "phone_number" (nullable is_str) prop
   else if eq_lit (type_of prop) "formula" then field "formula" formula_object prop
   else if eq_lit (type_of prop) "relation" then field "relation" is_list prop
   else if eq_lit (type_of prop) "rollup" then field "rollup" rollup_object prop
   else if eq_lit (type_of prop) "created_time" then field "created_time" is_str prop
   else if eq_lit (type_of prop) "created_by" then field "created_by" user_object prop
   else if eq_lit (type_of prop) "last_edited_time" then field "last_edited_time" is_str prop
   else if eq_lit (type_of prop) "last_edited_by" then field "last_edited_by" user_object prop
   else if eq_lit (type_of prop) "files" then field "files" is_list prop
   else true).

(** What the extractor gives for a known type whose payload is missing. *)
Definition absent_renderings : list str :=
  [[]; lit "☐"; lit "(0 items)"; lit "(0 files)"].

(** ** Sample data *)

Definition text_run (s : string) : value :=
  VDict [(lit "plain_text", VStr (lit s))].

Definition title_prop (s : string) : value :=
  VDict [(lit "type", VStr (lit "title")); (lit "title", VList [text_run s])].

Definition select_prop (s : string) : value :=
  VDict [(lit "type", VStr (lit "select"));
         (lit "select", VDict [(lit "name", VStr (lit s))])].

Definition multi_select_prop (names : list string) : value :=
  VDict [(lit "type", VStr (lit "multi_select"));
         (lit "multi_select",
          VList (map (fun n => VDict [(lit "name", VStr (lit n))]) names))].

Definition record (id : string) (props : list (str * value)) : value :=
  VDict [(lit "id", VStr (lit id)); (lit "properties", VDict props)].

(** Two records of one database: the second has no [Tag]. *)
Definition record_a : value :=
  record "a-1" [(lit "Tag", select_prop "High"); (lit "Name", title_prop "Alpha")].

Definition record_b : value :=
  record "b-2" [(lit "Name", title_prop "Beta")].

Definition empty_world : world := mk_world [] [].

(** ** Paginated listings *)

(** [serves list_fn cursor pages]: asked from [cursor] on, the listing
    answers with the item lists [pages], one call each, following
    [next_cursor] while [has_more] holds and reporting no more on the last. *)
Inductive serves (list_fn : value -> reply value) : value -> list (list value) -> Prop :=
| serves_last (cursor response results has_more : value) (items : list value) :
    list_fn cursor = Reply response ->
    get response "results" (VList []) = Ok results ->
    iter results = Ok items ->
    get response "has_more" VNone = Ok has_more ->
    truthy has_more = false ->
    serves list_fn cursor [items]
| serves_more (cursor response results has_more next : value) (items : list value)
              (rest : list (list value)) :
    list_fn cursor = Reply response ->
    get response "results" (VList []) = Ok results ->
    iter results = Ok items ->
    get response "has_more" VNone = Ok has_more ->
    truthy has_more = true ->
    get response "next_cursor" VNone = Ok next ->
    serves list_fn next rest ->
    serves list_fn cursor (items :: rest).

Definition listing_page (items : list value) (next : option string) : value :=
  VDict [(lit "results", VList items);
         (lit "has_more", VBool (match next with Some _ => true | None => false end));
         (lit "next_cursor", match next with Some c => VStr (lit c) | None => VNone end)].

(** A listing of three items served in two pages. *)
Definition two_pages (cursor : value) : reply value :=
  match cursor with
  | VNone => Reply (listing_page [VInt 1; VInt 2] (Some "c1"%string))
  | VStr _ => Reply (listing_page [VInt 3] None)
  | _ => Fail (APIResponseError (lit "bad cursor"))
  end.

(** ** A sample workspace: a parent page with three child pages, the
    second of which cannot be retrieved *)

Definition page_object (title : string) : value :=
  VDict [(lit "object", VStr (lit "page"));
         (lit "properties", VDict [(lit "title", title_prop title)])].

Definition paragraph (s : string) : value :=
  VDict [(lit "type", VStr (lit "paragraph"));
         (lit "paragraph", VDict [(lit "rich_text", VList [text_run s])])].

Definition child_page (id title : string) : value :=
  VDict [(lit "type", VStr (lit "child_page"));
         (lit "id", VStr (lit id));
         (lit "child_page", VDict [(lit "title", VStr (lit title))])].

Definition child_database (id title : string) : value :=
  VDict [(lit "type", VStr (lit "child_database"));
         (lit "id", VStr (lit id));
         (lit "child_database", VDict [(lit "title", VStr (lit title))])].

Definition sample_children : list value :=
  [child_page "c-1" "One"; child_page "c-2" "Two"; child_page "c-3" "Three"].

Definition sample_env : env :=
  mk_env
    (fun id =>
       if eq_lit id "root" then Reply (page_object "Parent")
       else if eq_lit id "c-1" then Reply (page_object "One")
       else if eq_lit id "c-3" then Reply (page_object "Three")
       else Fail (APIResponseError (lit "Could not find page")))
    (fun id => Fail (APIResponseError (lit "Could not find database")))
    (fun id cursor =>
       if eq_lit id "root" then Reply (listing_page sample_children None)
       else Reply (listing_page [paragraph "Hello"] None))
    (fun id cursor => Reply (listing_page [] None))
    (fun id cursor => Reply (listing_page [] None))
    (fun url => Reply [137; 80; 78; 71])
    (fun url => match url with
                | VStr s => Reply s
                | _ => Fail AttributeError
                end)
    (fun s => s)
    (fun s => Reply [0; 17; 34; 51; 68; 85; 102; 119; 136; 153; 170; 187;
                     204; 221; 238; 255])
    true
    (lit "root").

(** The world after a caught exception was reported. *)
Definition logged (prefix : str) (e : exn) (w : world) : world :=
  mk_world (fs w) (PrintExn prefix e :: trace w).

(** The node [node] names a page, resp. a database, whose retrieval raises
    [e]; [prefix] is the text printed before the exception. *)
Definition page_fetch_fails (E : env) (node : value) (prefix : str) (e : exn) : Prop :=
  exists id,
    get node "id" VNone = Ok (VStr id)
    /\ pages_retrieve E (VStr id) = Fail e
    /\ prefix = lit "  Error fetching page " ++ id ++ lit ": ".

Definition database_fetch_fails (E : env) (node : value) (prefix : str) (e : exn)
  : Prop :=
  exists id,
    get node "id" VNone = Ok (VStr id)
    /\ databases_retrieve E (VStr id) = Fail e
    /\ prefix = lit "  Error fetching database " ++ id ++ lit ": ".

Definition child_fetch_fails (E : env) (child : value) (prefix : str) (e : exn)
  : Prop :=
  (eq_lit (type_of child) "child_page" = true /\ page_fetch_fails E child prefix e)
  \/ (eq_lit (type_of child) "child_database" = true
      /\ database_fetch_fails E child prefix e).

(** ** The shape of blocks *)

(** The block kinds the renderer knows. *)
Definition block_types : list string :=
  ["paragraph"; "heading_1"; "heading_2"; "heading_3"; "bulleted_list_item";
   "numbered_list_item"; "to_do"; "toggle"; "code"; "quote"; "divider"; "callout";
   "child_page"; "child_database"; "image"; "bookmark"; "table"]%string.

(** A rich-text run: its text, its annotations and its link target. *)
Definition rich_run (v : value) : bool :=
  field "plain_text" is_str v && field "annotations" is_dict v
  && field "href" (nullable is_str) v.

Definition rich_text (v : value) : bool := list_of rich_run v.

Definition with_rich_text (k : string) (block : value) : bool :=
  field k (field "rich_text" rich_text) block.

Definition image_object (v : value) : bool :=
  is_dict v
  && field "external" (field "url" is_str) v
  && field "file" (field "url" is_str) v
  && field "caption" rich_text v.

Definition well_formed_row (row : value) : bool :=
  is_dict row && eq_lit (type_of row) "table_row"
  && field "table_row" (field "cells" (list_of rich_text)) row.

(** A block as the API documents it, any field possibly absent. *)
Definition well_formed_block (block : value) : bool :=
  is_dict block && is_str (type_of block) &&
  (if eq_lit (type_of block) "paragraph" then with_rich_text "paragraph" block
   else if eq_lit (type_of block) "heading_1" then with_rich_text "heading_1" block
   else if eq_lit (type_of block) "heading_2" then with_rich_text "heading_2" block
   else if eq_lit (type_of block) "heading_3" then with_rich_text "heading_3" block
   else if eq_lit (type_of block) "bulleted_list_item"
        then with_rich_text "bulleted_list_item" block
   else if eq_lit (type_of block) "numbered_list_item"
        then with_rich_text "numbered_list_item" block
   else if eq_lit (type_of block) "to_do" then with_rich_text "to_do" block
   else if eq_lit (type_of block) "toggle" then with_rich_text "toggle" block
   else if eq_lit (type_of block) "code"
        then with_rich_text "code" block && field "code" (field "language" is_str) block
   else if eq_lit (type_of block) "quote" then with_rich_text "quote" block
   else if eq_lit (type_of block) "divider" then true
   else if eq_lit (type_of block) "callout"
        then with_rich_text "callout" block
             && field "callout" (field "icon" (nullable (field "emoji" is_str))) block
   else if eq_lit (type_of block) "child_page"
        then field "child_page" (field "title" is_str) block && field "id" is_str block
   else if eq_lit (type_of block) "child_database"
        then field "child_database" (field "title" is_str) block
             && field "id" is_str block
   else if eq_lit (type_of block) "image" then field "image" image_object block
   else if eq_lit (type_of block) "bookmark"
        then field "bookmark" (field "url" is_str) block
   else if eq_lit (type_of block) "table" then field "table" is_dict block
   else true).

(** [sanitize_filename] on a string. *)
Definition sanitized (s : str) : str := strip (re_sub_class unsafe_chars [] s).

(** Every pipe of [s] comes right after a backslash. *)
Fixpoint escaped_after (prev : N) (s : str) : bool :=
  match s with
  | [] => true
  | c :: t => (negb (c =? pipe) || (prev =? backslash)) && escaped_after c t
  end.

Definition pipes_escaped (s : str) : bool := escaped_after 0 s.

(** The cells of the rows that are table rows, the others skipped. *)
Fixpoint rows_cells (rows : list value) : outcome (list (list str)) :=
  match rows with
  | [] => Ok []
  | row :: rest =>
    ty <- get row "type" VNone ;;
    if negb (eq_lit ty "table_row") then rows_cells rest
    else
      cells <- row_cells row ;;
      more <- rows_cells rest ;;
      Ok (cells :: more)
  end.

(** Where [download_image] keeps the file of a given name. *)
Definition images_dir_of (output_dir : path) : path :=
  path_join output_dir (lit "images").

Definition image_path_of (output_dir : path) (filename : str) : path :=
  path_join (images_dir_of output_dir) filename.

(** How often a file was opened for writing, by the trace. *)
Fixpoint times_opened (p : path) (t : list event) : nat :=
  match t with
  | [] => O
  | FileOpened q :: t' => (if path_eqb p q then 1 else 0) + times_opened p t'
  | _ :: t' => times_opened p t'
  end.

Fixpoint times_requested (t : list event) : nat :=
  match t with
  | [] => O
  | HttpGet _ :: t' => S (times_requested t')
  | _ :: t' => times_requested t'
  end.

(** A fragment that ends in a line break, hence is not empty. *)
Definition ends_with_newline (s : str) : Prop := exists t, s = t ++ [newline].

(** A computation that ends with a value satisfying [P] or with a Python
    exception: it stays inside what the model covers. *)
Definition settled {A} (P : A -> Prop) (c : outcome A) : Prop :=
  match c with
  | Ok a => P a
  | Raise _ => True
  | Unmodelled | OutOfFuel => False
  end.

Definition settles {A} (P : A -> Prop) (r : outcome A * world) : Prop :=
  settled P (fst r).

(** ** More sample data *)

(** The path of an [https://host/...] address: what follows the host, up to
    a question mark.  A stand-in for [urlparse] on such addresses. *)
Fixpoint until_char (stop : N) (s : str) : str :=
  match s with
  | [] => []
  | c :: t => if c =? stop then [] else c :: until_char stop t
  end.

Fixpoint from_char (start : N) (s : str) : str :=
  match s with
  | [] => []
  | c :: t => if c =? start then s else from_char start t
  end.

Definition simple_url_path (url : value) : reply str :=
  match url with
  | VStr s => Reply (until_char 63 (from_char 47 (skipn 8 s)))
  | _ => Fail AttributeError
  end.

(** A workspace whose every listing is the two-page listing above. *)
Definition paged_env : env :=
  mk_env (fun _ => Fail (APIResponseError []))
         (fun _ => Fail (APIResponseError []))
         (fun _ => two_pages)
         (fun _ => two_pages)
         (fun _ => two_pages)
         (fun _ => Fail (RequestException []))
         simple_url_path (fun s => s) (fun _ => Reply [])
         true (lit "root").

Definition cell (s : string) : value := VList [text_run s].

Definition table_row_block (cells : list value) : value :=
  VDict [(lit "type", VStr (lit "table_row"));
         (lit "table_row", VDict [(lit "cells", VList cells)])].

Definition sample_rows : list value :=
  [table_row_block [cell "a|b"; cell "c"]; table_row_block [cell "1"; cell "2"]].

(** A table that says it has no header row. *)
Definition sample_table : value :=
  VDict [(lit "type", VStr (lit "table"));
         (lit "id", VStr (lit "t-1"));
         (lit "table", VDict [(lit "has_column_header", VBool false);
                              (lit "has_row_header", VBool false)])].

(** A workspace where the children of any block are the sample rows, and
    where assets can be downloaded. *)
Definition table_env : env :=
  mk_env (fun _ => Fail (APIResponseError []))
         (fun _ => Fail (APIResponseError []))
         (fun _ _ => Reply (listing_page sample_rows None))
         (fun _ _ => Reply (listing_page [] None))
         (fun _ _ => Reply (listing_page [] None))
         (fun _ => Reply [137; 80; 78; 71])
         simple_url_path (fun s => s) (fun _ => Reply [])
         true (lit "root").

Definition sample_url : value :=
  VStr (lit "https://files.example.com/secure/0a1b/photo.png?sig=x").

Definition checkbox_without_value : value :=
  VDict [(lit "type", VStr (lit "checkbox"))].

Definition button_prop : value :=
  VDict [(lit "type", VStr (lit "button")); (lit "button", VDict [])].

Definition synced_block : value :=
  VDict [(lit "type", VStr (lit "synced_block")); (lit "id", VStr (lit "s-1"))].

(** A record with a title, a choice and an empty text. *)
Definition sample_record : value :=
  record "r-1" [(lit "Name", title_prop "Alpha");
                (lit "Tag", select_prop "High");
                (lit "Note", VDict [(lit "type", VStr (lit "rich_text"));
                                    (lit "rich_text", VList [])])].

(** A record with a multi-choice property. *)
Definition record_tags : value :=
  record "t-1" [(lit "Name", title_prop "Alpha");
                (lit "Tags", multi_select_prop ["x"; "y"]%string)].

(** ** Rows of the property table and of the tabular export *)

(** The rows a record contributes: not the title, and a non-empty value. *)
Definition shown (name : str) (prop : value) (n v : str) : Prop :=
  exists s,
    eq_lit (type_of prop) "title" = false
    /\ extract_property_value prop = Ok (VStr s)
    /\ s <> []
    /\ n = escape_pipe name /\ v = escape_pipe s.

(** A record that has no property called [name]. *)
Definition lacks (record : value) (name : str) : Prop :=
  exists p, get record "properties" (VDict []) = Ok (VDict p) /\ lookup name p = None.

(** ** Further notions used by the properties *)

(** A property that the scan for the page title passes over: it is not of
    type title, or its title list is empty. *)
Definition skipped_for_title (prop : value) : Prop :=
  exists ty,
    get prop "type" VNone = Ok ty
    /\ (eq_lit ty "title" = false
        \/ exists t, get prop "title" (VList []) = Ok t /\ truthy t = false).

(** An annotation flag that is absent or false. *)
Definition flag_off (k : string) (annotations : value) : bool :=
  match get annotations k VNone with
  | Ok f => negb (truthy f)
  | _ => false
  end.

(** A run of plain text: no style and no link. *)
Definition unstyled (run : value) : bool :=
  field "plain_text" is_str run
  && field "annotations"
           (fun a => flag_off "bold" a && flag_off "italic" a
                     && flag_off "strikethrough" a && flag_off "code" a) run
  && field "href" (fun h => negb (truthy h)) run.

(** The property types by the kind of their payload. *)
Definition scalar_types : list string :=
  ["number"; "select"; "status"; "date"; "url"; "email"; "phone_number"]%string.

Definition list_types : list string :=
  ["title"; "rich_text"; "multi_select"; "people"; "relation"; "files"]%string.

Definition object_types : list string :=
  ["formula"; "rollup"; "created_by"; "last_edited_by"]%string.

Definition time_types : list string :=
  ["created_time"; "last_edited_time"]%string.

(** Ascending order of the names of a property table. *)
Definition by_name (a b : str * str) : Prop := str_leb (fst a) (fst b) = true.

(** The names of the properties that are not the title, in their order, and
    the name of the last title property. *)
Definition is_title (prop : value) : bool := eq_lit (type_of prop) "title".

Definition non_title_names (props : list (str * value)) : list str :=
  map fst (filter (fun kv => negb (is_title (snd kv))) props).

Fixpoint last_title_name (props : list (str * value)) : option str :=
  match props with
  | [] => None
  | (name, prop) :: rest =>
    match last_title_name rest with
    | Some later => Some later
    | None => if is_title prop then Some name else None
    end
  end.

(** The column of the title: none when there is no title property or when
    its name is empty. *)
Definition title_column (props : list (str * value)) : list str :=
  match last_title_name props with
  | Some (c :: t) => [c :: t]
  | _ => []
  end.

(** A property of type [title], and one of type [rich_text], over the
    same runs. *)
Definition title_of (runs : list value) : value :=
  VDict [(lit "type", VStr (lit "title")); (lit "title", VList runs)].

Definition rich_text_of (runs : list value) : value :=
  VDict [(lit "type", VStr (lit "rich_text")); (lit "rich_text", VList runs)].

(** The plain text of a run; empty when the run has none. *)
Definition plain_of (run : value) : str :=
  match get run "plain_text" (VStr []) with
  | Ok (VStr s) => s
  | _ => []
  end.

(** A page whose title has two runs, and a page without a title. *)
Definition two_run_title : value :=
  VDict [(lit "type", VStr (lit "title"));
         (lit "title", VList [text_run "Hello "; text_run "World"])].

Definition two_run_props : list (str * value) :=
  [(lit "Tag", select_prop "High"); (lit "Name", two_run_title)].

Definition two_run_page : value := VDict [(lit "properties", VDict two_run_props)].

Definition untitled_props : list (str * value) := [(lit "Tag", select_prop "High")].

Definition untitled_page : value := VDict [(lit "properties", VDict untitled_props)].

(** A record that lists its properties in descending order of name. *)
Definition unordered_props : list (str * value) :=
  [(lit "Zeta", select_prop "z"); (lit "Name", title_prop "Alpha");
   (lit "Beta", select_prop "b")].

Definition unordered_record : value := record "u-1" unordered_props.

(** A first record with two title properties. *)
Definition two_title_props : list (str * value) :=
  [(lit "Old", title_prop "x"); (lit "Tag", select_prop "High");
   (lit "Name", title_prop "Alpha")].

(** A listing that says there is more and gives no cursor. *)
Definition stuck_listing (cursor : value) : reply value :=
  Reply (VDict [(lit "results", VList [VInt 1]); (lit "has_more", VBool true)]).

(** Every line break of [s] is its last character or is followed by the
    quote marker and a space. *)
Fixpoint continues_quote (s : str) : bool :=
  match s with
  | [] => true
  | c :: t =>
    (if c =? newline
     then match t with
          | [] => true
          | a :: b :: _ => (a =? 62) && (b =? 32)
          | _ => false
          end
     else true)
    && continues_quote t
  end.

(** A comment of two lines. *)
Definition two_line_comment : value :=
  VDict [(lit "created_by", VDict [(lit "name", VStr (lit "Ada"))]);
         (lit "created_time", VStr (lit "2024-05-06T07:08:00.000Z"));
         (lit "rich_text", VList [VDict [(lit "plain_text",
                                          VStr (lit "first" ++ [newline] ++ lit "second"))]])].

(** A workspace whose comments cannot be listed. *)
Definition no_comments_env : env :=
  mk_env (fun _ => Fail (APIResponseError []))
         (fun _ => Fail (APIResponseError []))
         (fun _ _ => Fail (APIResponseError (lit "no blocks")))
         (fun _ _ => Fail (APIResponseError (lit "no comment capability")))
         (fun _ _ => Fail (APIResponseError []))
         (fun _ => Fail (RequestException (lit "timeout")))
         simple_url_path (fun s => s) (fun _ => Reply [])
         true (lit "root").

(** An address whose last part has characters that are unsafe in a name. *)
Definition odd_url : value :=
  VStr (lit "https://files.example.com/secure/0a1b/a:b*c.png").

(** A database object whose title list is empty. *)
Definition untitled_database : value :=
  VDict [(lit "object", VStr (lit "database")); (lit "title", VList [])].

Definition untitled_database_env : env :=
  mk_env (fun _ => Fail (APIResponseError []))
         (fun _ => Reply untitled_database)
         (fun _ _ => Reply (listing_page [] None))
         (fun _ _ => Reply (listing_page [] None))
         (fun _ _ => Reply (listing_page [] None))
         (fun _ => Fail (RequestException []))
         simple_url_path (fun s => s) (fun _ => Reply [])
         true (lit "root").

(** A listing of a table whose first child is not a row. *)
Definition odd_rows : list value :=
  [VDict [(lit "type", VStr (lit "unsupported"))];
   table_row_block [cell "a"; cell "b"]; table_row_block [cell "1"; cell "2"]].

Definition odd_table_env : env :=
  mk_env (fun _ => Fail (APIResponseError []))
         (fun _ => Fail (APIResponseError []))
         (fun _ _ => Reply (listing_page odd_rows None))
         (fun _ _ => Reply (listing_page [] None))
         (fun _ _ => Reply (listing_page [] None))
         (fun _ => Fail (RequestException []))
         simple_url_path (fun s => s) (fun _ => Reply [])
         true (lit "root").

(** An image hosted by the workspace, and one hosted elsewhere. *)
Definition file_image : value :=
  VDict [(lit "type", VStr (lit "image"));
         (lit "image", VDict [(lit "type", VStr (lit "file"));
                              (lit "file", VDict [(lit "url", sample_url)])])].

(** ** Relations between the world before and after *)

(** [c] takes every world to one related to it by [R], however it ends. *)
Definition respects (R : world -> world -> Prop) {A} (c : M A) : Prop :=
  forall w, R w (snd (c w)).

(** Nothing is removed: what exists still exists, and a directory is still
    a directory. *)
Definition fs_grows (w w' : world) : Prop :=
  forall p n, fs_lookup p (fs w) = Some n ->
              exists n', fs_lookup p (fs w') = Some n' /\ (n = Dir -> n' = Dir).

(** Nothing was requested over HTTP, and no binary file is new or changed. *)
Definition no_download (w w' : world) : Prop :=
  times_requested (trace w') = times_requested (trace w)
  /\ forall p b, fs_lookup p (fs w') = Some (BinFile b) ->
                 fs_lookup p (fs w) = Some (BinFile b).

(** The sample workspace with the download of assets switched off, its
    first child holding an image hosted by the workspace. *)
Definition offline_env : env :=
  mk_env (pages_retrieve sample_env) (databases_retrieve sample_env)
         (fun id cursor =>
            if eq_lit id "root" then Reply (listing_page sample_children None)
            else Reply (listing_page [file_image] None))
         (comments_list sample_env) (databases_query sample_env)
         (requests_get sample_env) simple_url_path (fun s => s)
         (md5_digest sample_env) false (lit "root").

(** A workspace whose root cannot be retrieved. *)
Definition rootless_env : env :=
  mk_env (fun _ => Fail (APIResponseError (lit "unauthorized")))
         (fun _ => Fail (APIResponseError []))
         (fun _ _ => Reply (listing_page [] None))
         (fun _ _ => Reply (listing_page [] None))
         (fun _ _ => Reply (listing_page [] None))
         (fun _ => Fail (RequestException []))
         simple_url_path (fun s => s) (fun _ => Reply [])
         true (lit "root").

(** A record whose choice has a list where its name should be. *)
Definition broken_record : value :=
  record "x-9" [(lit "Name", title_prop "Gamma");
                (lit "Tag", VDict [(lit "type", VStr (lit "multi_select"));
                                   (lit "multi_select", VInt 3)])].

(** The sample workspace, the blocks of whose second child cannot be
    listed although the page itself is retrieved. *)
Definition unlistable_env : env :=
  mk_env (fun id =>
            if eq_lit id "root" then Reply (page_object "Parent")
            else if eq_lit id "c-1" then Reply (page_object "One")
            else if eq_lit id "c-2" then Reply (page_object "Two")
            else if eq_lit id "c-3" then Reply (page_object "Three")
            else Fail (APIResponseError (lit "Could not find page")))
         (databases_retrieve sample_env)
         (fun id cursor =>
            if eq_lit id "root" then Reply (listing_page sample_children None)
            else if eq_lit id "c-2" then Fail (APIResponseError (lit "rate limited"))
            else Reply (listing_page [paragraph "Hello"] None))
         (comments_list sample_env) (databases_query sample_env)
         (requests_get sample_env) simple_url_path (fun s => s)
         (md5_digest sample_env) true (lit "root").

(** A configuration without a root identifier. *)
Definition unset_env : env :=
  mk_env (pages_retrieve rootless_env) (databases_retrieve rootless_env)
         (blocks_children_list rootless_env) (comments_list rootless_env)
         (databases_query rootless_env) (requests_get rootless_env)
         simple_url_path (fun s => s) (md5_digest rootless_env) true [].

(** A record whose property name and value hold pipes. *)
Definition piped_props : list (str * value) :=
  [(lit "Name", title_prop "Alpha"); (lit "a|b", select_prop "x|y")].

Definition piped_record : value := record "p-1" piped_props.

(** ** Exported nodes *)

(** The file of the page [id] titled [title], exported into [dir]:
    [f"{sanitize_filename(title)} {page_id_short}.md"] under [dir]. *)
Definition page_file (dir : path) (title id : str) : path :=
  path_join dir (sanitized title ++ lit " " ++ replace 45 [] id ++ lit ".md").

(** [p] holds a file; [p] is a directory. *)
Definition is_file (p : path) (w : world) : Prop :=
  exists n, fs_lookup p (fs w) = Some n /\ n <> Dir.

Definition is_dir (p : path) (w : world) : Prop := node_at p (fs w) = Some Dir.

(** [node] names a page that can be retrieved and has a title; exported
    into [dir], its file is [p]. *)
Definition page_retrieved (E : env) (node : value) (dir p : path) : Prop :=
  exists id page title,
    get node "id" VNone = Ok (VStr id)
    /\ pages_retrieve E (VStr id) = Reply page
    /\ get_page_title page = Ok (VStr title)
    /\ p = page_file dir title id.

(** [node] names a database that can be retrieved and has a title;
    exported into [dir], the directory of its records is [p]. *)
Definition database_retrieved (E : env) (node : value) (dir p : path) : Prop :=
  exists id db titles first title,
    get node "id" VNone = Ok (VStr id)
    /\ databases_retrieve E (VStr id) = Reply db
    /\ get db "title" (VList [VDict []]) = Ok titles
    /\ index0 titles = Ok first
    /\ get first "plain_text" (VStr (lit "Untitled")) = Ok (VStr title)
    /\ p = path_join dir (sanitized title).

(** Nothing is removed and nothing changes its kind: a file stays a file
    and a directory a directory. *)
Definition fs_keeps (w w' : world) : Prop :=
  forall p n, fs_lookup p (fs w) = Some n ->
              exists n', fs_lookup p (fs w') = Some n' /\ (n = Dir <-> n' = Dir).

(** No caught exception was reported. *)
Definition nothing_reported (t : list event) : Prop :=
  Forall (fun ev => match ev with PrintExn _ _ => False | _ => True end) t.

(** ** Listings and what is done with their items *)

(** What [get_page_comments] makes of the comments once they are listed. *)
Definition comments_markdown (comments : list value) : outcome str :=
  match comments with
  | [] => Ok []
  | _ =>
    ls <- mapM comment_line comments ;;
    Ok (join [newline]
             ([lit "## 💬 コメント" ++ [newline]] ++ ls
              ++ [[newline] ++ lit "---" ++ [newline]]))
  end.

(** What [process_database] does with the records once they are listed:
    the directory, the tabular export, and one page per record. *)
Definition export_records (E : env) (fuel : nat) (title : value) (db_id_short : str)
           (output_path : path) (depth : nat) (records : list value) : M unit :=
  safe <~ lift (sanitize_filename title) ;;
  let db_dir := path_join output_path safe in
  _ <~ mkdir db_dir ;;
  _ <~ export_database_to_csv records title db_id_short output_path ;;
  forM_ (visit_record E fuel db_dir depth) records.

(** What [fetch_page_content] makes of the blocks once they are listed. *)
Definition render_blocks (E : env) (output_dir : option path) (parent_title : value)
           (blocks : list value) : M str :=
  content_lines <~ mapMM (fun block => block_to_markdown E block output_dir parent_title)
                         blocks ;;
  ret (join [newline] content_lines).

(** A table whose rows are served in two pages. *)
Definition row_a : value := table_row_block [cell "a"].

Definition row_b : value := table_row_block [cell "b"].

Definition row_pages (cursor : value) : reply value :=
  match cursor with
  | VNone => Reply (listing_page [row_a] (Some "c1"%string))
  | VStr _ => Reply (listing_page [row_b] None)
  | _ => Fail (APIResponseError (lit "bad cursor"))
  end.

Definition long_table_env : env :=
  mk_env (fun _ => Fail (APIResponseError []))
         (fun _ => Fail (APIResponseError []))
         (fun _ => row_pages)
         (fun _ _ => Reply (listing_page [] None))
         (fun _ _ => Reply (listing_page [] None))
         (fun _ => Fail (RequestException []))
         simple_url_path (fun s => s) (fun _ => Reply [])
         true (lit "root").

(** Comments and records served in two pages each, and a database titled
    [DB]. *)
Definition comment_pages (cursor : value) : reply value :=
  match cursor with
  | VNone => Reply (listing_page [two_line_comment] (Some "c1"%string))
  | VStr _ => Reply (listing_page [two_line_comment] None)
  | _ => Fail (APIResponseError (lit "bad cursor"))
  end.

Definition record_pages (cursor : value) : reply value :=
  match cursor with
  | VNone => Reply (listing_page [record_a] (Some "c1"%string))
  | VStr _ => Reply (listing_page [record_b] None)
  | _ => Fail (APIResponseError (lit "bad cursor"))
  end.

Definition titled_database : value :=
  VDict [(lit "object", VStr (lit "database"));
         (lit "title", VList [VDict [(lit "plain_text", VStr (lit "DB"))]])].

Definition paged_workspace : env :=
  mk_env (fun _ => Fail (APIResponseError (lit "Could not find page")))
         (fun _ => Reply titled_database)
         (fun _ => two_pages)
         (fun _ => comment_pages)
         (fun _ => record_pages)
         (fun _ => Fail (RequestException []))
         simple_url_path (fun s => s) (fun _ => Reply [])
         true (lit "root").


(** * Properties *)

(** ** Strings *)

Lemma str_eqb_eq (a b : str) : str_eqb a b = true <-> a = b.
Proof.
  revert b. induction a as [|x a IH]; intros [|y b]; simpl; split;
    try congruence; try reflexivity.
  - intros H. apply andb_true_iff in H. destruct H as [Hx Hab].
    apply N.eqb_eq in Hx. apply IH in Hab. congruence.
  - intros H. injection H as -> ->. rewrite N.eqb_refl. simpl. now apply IH.
Qed.

Lemma str_eqb_refl (a : str) : str_eqb a a = true.
Proof. now apply str_eqb_eq. Qed.

Lemma str_eqb_neq (a b : str) : a <> b -> str_eqb a b = false.
Proof.
  intros H. destruct (str_eqb a b) eqn:E; [|reflexivity].
  apply str_eqb_eq in E. contradiction.
Qed.

Lemma mem_In (c : N) (cs : str) : mem c cs = true <-> In c cs.
Proof.
  unfold mem. rewrite existsb_exists. split.
  - intros [x [Hx He]]. apply N.eqb_eq in He. now subst.
  - intros H. exists c. split; [assumption | apply N.eqb_refl].
Qed.

(** *** Stripping *)

Lemma lstrip_incl (s : str) (c : N) : In c (lstrip s) -> In c s.
Proof.
  induction s as [|a s IH]; simpl; [tauto|].
  destruct (isspace a); simpl; intuition.
Qed.

Lemma rstrip_incl (s : str) (c : N) : In c (rstrip s) -> In c s.
Proof.
  unfold rstrip. intros H. apply in_rev in H. apply lstrip_incl in H.
  now apply in_rev.
Qed.

Lemma strip_incl (s : str) (c : N) : In c (strip s) -> In c s.
Proof. intros H. now apply lstrip_incl, rstrip_incl. Qed.

Lemma lstrip_idem (s : str) : lstrip (lstrip s) = lstrip s.
Proof.
  induction s as [|a s IH]; simpl; [reflexivity|].
  destruct (isspace a) eqn:Ha; [assumption|]. simpl. now rewrite Ha.
Qed.

Lemma lstrip_snoc (l : str) (c : N) :
  isspace c = false -> lstrip (l ++ [c]) = lstrip l ++ [c].
Proof.
  intros Hc. induction l as [|a l IH]; simpl.
  - now rewrite Hc.
  - destruct (isspace a); [assumption | reflexivity].
Qed.

Lemma rstrip_cons (c : N) (t : str) :
  isspace c = false -> rstrip (c :: t) = c :: rstrip t.
Proof.
  intros Hc. unfold rstrip. simpl. rewrite lstrip_snoc by assumption.
  now rewrite rev_app_distr.
Qed.

Lemma rstrip_idem (s : str) : rstrip (rstrip s) = rstrip s.
Proof.
  unfold rstrip. now rewrite rev_involutive, lstrip_idem.
Qed.

Lemma lstrip_rstrip_fixed (t : str) : lstrip t = t -> lstrip (rstrip t) = rstrip t.
Proof.
  destruct t as [|c t]; [reflexivity|]. simpl.
  destruct (isspace c) eqn:Hc.
  - intros H. exfalso.
    assert (L : forall u, (List.length (lstrip u) <= List.length u)%nat).
    { induction u as [|a u IH]; simpl; [lia|]. destruct (isspace a); simpl; lia. }
    specialize (L t). rewrite H in L. simpl in L. lia.
  - intros _. rewrite rstrip_cons by assumption. simpl. now rewrite Hc.
Qed.

Lemma strip_idem (s : str) : strip (strip s) = strip s.
Proof.
  unfold strip. rewrite (lstrip_rstrip_fixed (lstrip s)) by apply lstrip_idem.
  apply rstrip_idem.
Qed.


Lemma re_sub_class_drop_clean (cls s : str) (c : N) :
  In c (re_sub_class cls [] s) -> In c s /\ mem c cls = false.
Proof.
  unfold re_sub_class. rewrite in_flat_map. intros [x [Hx Hc]].
  destruct (mem x cls) eqn:E; simpl in Hc; [tauto|].
  destruct Hc as [<-|[]]. now split.
Qed.

Lemma re_sub_class_fixed (cls repl s : str) :
  (forall c, In c s -> mem c cls = false) -> re_sub_class cls repl s = s.
Proof.
  unfold re_sub_class. induction s as [|a s IH]; intros H; simpl; [reflexivity|].
  rewrite (H a) by now left. simpl. f_equal. apply IH. intros c Hc. apply H. now right.
Qed.

(** C8: sanitising is idempotent, and a sanitised name holds none of the
    nine characters of the class. *)
Theorem sanitize_filename_idempotent (x : str) :
  exists s,
    sanitize_filename (VStr x) = Ok s
    /\ sanitize_filename (VStr s) = Ok s
    /\ forall c, In c unsafe_chars -> ~ In c s.
Proof.
  exists (strip (re_sub_class unsafe_chars [] x)).
  assert (Clean : forall c, In c (strip (re_sub_class unsafe_chars [] x)) ->
                            mem c unsafe_chars = false).
  { intros c Hc. apply strip_incl in Hc. now apply re_sub_class_drop_clean in Hc. }
  repeat split.
  - unfold sanitize_filename. simpl.
    rewrite (re_sub_class_fixed unsafe_chars [] _ Clean). now rewrite strip_idem.
  - intros c Hin Hs. apply Clean in Hs. apply mem_In in Hin. congruence.
Qed.

(** [sanitize_filename] on a string. *)
Lemma sanitize_filename_str (s : str) : sanitize_filename (VStr s) = Ok (sanitized s).
Proof. reflexivity. Qed.

(** ** Property values *)

Lemma get_dict (d : list (str * value)) (k : string) (dflt : value) :
  get (VDict d) k dflt
  = Ok (match lookup (lit k) d with Some x => x | None => dflt end).
Proof. reflexivity. Qed.

Lemma get_type (d : list (str * value)) :
  get (VDict d) "type" VNone = Ok (type_of (VDict d)).
Proof. reflexivity. Qed.

Lemma field_get (k : string) (P : value -> bool) (v dflt : value) :
  field k P v = true -> P dflt = true ->
  exists x, get v k dflt = Ok x /\ P x = true.
Proof.
  unfold field. destruct v; try discriminate. intros H Hd.
  rewrite get_dict. destruct (lookup (lit k) d); eauto.
Qed.

Lemma is_str_inv (v : value) : is_str v = true -> exists s, v = VStr s.
Proof. destruct v; try discriminate. eauto. Qed.

Lemma nullable_inv (P : value -> bool) (v : value) :
  nullable P v = true -> v = VNone \/ P v = true.
Proof.
  unfold nullable. intros H. apply orb_true_iff in H. destruct H as [H|H].
  - left. now destruct v.
  - now right.
Qed.

Lemma join_values_strs (sep : str) (ss : list str) :
  join_values sep (map VStr ss) = Ok (join sep ss).
Proof.
  unfold join_values.
  assert (E : mapM (fun v => match v with VStr s => Ok s | _ => Raise TypeError end)
                   (map VStr ss) = Ok ss).
  { induction ss as [|s ss IH]; simpl; [reflexivity|]. now rewrite IH. }
  now rewrite E.
Qed.

Lemma mapM_get_str (k : string) (l : list value) :
  forallb (field k is_str) l = true ->
  exists ss, mapM (fun t => get t k (VStr [])) l = Ok (map VStr ss).
Proof.
  induction l as [|t l IH]; simpl; intros H.
  - now exists [].
  - apply andb_true_iff in H. destruct H as [Ht Hl].
    destruct (field_get k is_str t (VStr []) Ht eq_refl) as [x [Hx Hs]].
    destruct (is_str_inv x Hs) as [s ->].
    destruct (IH Hl) as [ss Hss]. exists (s :: ss). now rewrite Hx, Hss.
Qed.

Lemma plain_texts_joined (x : value) :
  list_of plain_item x = true ->
  exists s, (ts <- plain_texts x ;; s <- join_values [] ts ;; Ok (VStr s)) = Ok (VStr s).
Proof.
  destruct x; try discriminate. simpl. intros H.
  destruct (mapM_get_str "plain_text" l H) as [ss Hss].
  unfold plain_texts. simpl. rewrite Hss. simpl. rewrite join_values_strs. simpl. eauto.
Qed.

Lemma option_names_joined (x : value) :
  list_of named x = true ->
  exists s, (ns <- option_names x ;; s <- join_values (lit ", ") ns ;; Ok (VStr s))
            = Ok (VStr s).
Proof.
  destruct x; try discriminate. simpl. intros H.
  destruct (mapM_get_str "name" l H) as [ss Hss].
  unfold option_names. simpl. rewrite Hss. simpl. rewrite join_values_strs. simpl. eauto.
Qed.

Lemma str_unless_none_number (x : value) :
  nullable is_number x = true -> exists s, str_unless_none x = Ok (VStr s).
Proof.
  intros H. destruct (nullable_inv _ _ H) as [->|Hn]; [simpl; eauto|].
  destruct x; try discriminate; simpl; eauto.
Qed.

Lemma named_or_empty (x : value) :
  nullable named x = true ->
  exists s, (if truthy x then get x "name" (VStr []) else Ok (VStr [])) = Ok (VStr s).
Proof.
  intros H. destruct (nullable_inv _ _ H) as [->|Hn]; [simpl; eauto|].
  destruct (truthy x); [|eauto].
  destruct (field_get "name" is_str x (VStr []) Hn eq_refl) as [y [Hy Hs]].
  destruct (is_str_inv y Hs) as [s ->]. eauto.
Qed.

Lemma date_rendered (x : value) :
  nullable date_object x = true ->
  exists s,
    (if truthy x then
       start <- get x "start" (VStr []) ;;
       end_ <- get x "end" VNone ;;
       if truthy end_ then
         s <- fstr [Val start; Lit " → "; Val end_] ;; Ok (VStr s)
       else Ok start
     else Ok (VStr [])) = Ok (VStr s).
Proof.
  intros H. destruct (nullable_inv _ _ H) as [->|Hn]; [simpl; eauto|].
  destruct (truthy x); [|eauto].
  unfold date_object in Hn. apply andb_true_iff in Hn. destruct Hn as [Hs He].
  destruct (field_get "start" is_str x (VStr []) Hs eq_refl) as [a [Ha Has]].
  destruct (is_str_inv a Has) as [s ->].
  destruct (field_get "end" (nullable is_str) x VNone He eq_refl) as [b [Hb Hbs]].
  rewrite Ha, Hb. simpl.
  destruct (nullable_inv _ _ Hbs) as [->|Hb']; [simpl; eauto|].
  destruct (is_str_inv b Hb') as [e ->].
  destruct (truthy (VStr e)); simpl; eauto.
Qed.

Lemma date_start_rendered (x : value) :
  nullable date_object x = true ->
  exists s, (if truthy x then get x "start" (VStr []) else Ok (VStr [])) = Ok (VStr s).
Proof.
  intros H. destruct (nullable_inv _ _ H) as [->|Hn]; [simpl; eauto|].
  destruct (truthy x); [|eauto].
  unfold date_object in Hn. apply andb_true_iff in Hn. destruct Hn as [Hs _].
  destruct (field_get "start" is_str x (VStr []) Hs eq_refl) as [a [Ha Has]].
  destruct (is_str_inv a Has) as [s ->]. eauto.
Qed.

Lemma people_names_strs (l : list value) :
  forallb user_object l = true ->
  exists ss, people_names l = Ok (map VStr ss).
Proof.
  induction l as [|p l IH]; simpl; intros H; [now exists []|].
  apply andb_true_iff in H. destruct H as [Hp Hl].
  unfold user_object in Hp. apply andb_true_iff in Hp. destruct Hp as [Hp Hperson].
  apply andb_true_iff in Hp. destruct Hp as [Hname _].
  destruct (field_get "name" (nullable is_str) p VNone Hname eq_refl) as [n [Hn Hns]].
  destruct (field_get "person" (field "email" is_str) p (VDict []) Hperson eq_refl)
    as [q [Hq Hqs]].
  destruct (field_get "email" is_str q (VStr []) Hqs eq_refl) as [e [He Hes]].
  destruct (is_str_inv e Hes) as [es ->].
  destruct (IH Hl) as [ss Hss].
  rewrite Hn. simpl. unfold por.
  destruct (truthy n) eqn:Tn.
  - simpl. rewrite Hss. simpl. rewrite Tn.
    destruct (nullable_inv _ _ Hns) as [->|Hn']; [discriminate|].
    destruct (is_str_inv n Hn') as [ns ->]. now exists (ns :: ss).
  - rewrite Hq. simpl. rewrite He. simpl. rewrite Hss. simpl.
    destruct es as [|c es]; [now exists ss | now exists ((c :: es) :: ss)].
Qed.

Lemma people_joined (x : value) :
  list_of user_object x = true ->
  exists s, (ps <- iter x ;; names <- people_names ps ;;
             s <- join_values (lit ", ") names ;; Ok (VStr s)) = Ok (VStr s).
Proof.
  destruct x; try discriminate. simpl. intros H.
  destruct (people_names_strs l H) as [ss Hss]. rewrite Hss. simpl.
  rewrite join_values_strs. simpl. eauto.
Qed.

Lemma str_or_empty (x : value) :
  nullable is_str x = true -> exists s, por x (Ok (VStr [])) = Ok (VStr s).
Proof.
  intros H. unfold por. destruct (nullable_inv _ _ H) as [->|Hn]; [simpl; eauto|].
  destruct (is_str_inv x Hn) as [s ->]. destruct (truthy (VStr s)); eauto.
Qed.

Lemma count_rendered (what : string) (x : value) :
  is_list x = true ->
  exists s, (n <- len x ;; Ok (VStr (lit "(" ++ str_of_nat n ++ lit what))) = Ok (VStr s).
Proof. destruct x; try discriminate. simpl. eauto. Qed.

Lemma slice10_str (x : value) :
  is_str x = true -> exists s, slice10 x = Ok (VStr s).
Proof. intros H. destruct (is_str_inv x H) as [s ->]. simpl. eauto. Qed.

Lemma user_rendered (x : value) :
  user_object x = true ->
  exists s, (n <- get x "name" (VStr []) ;; por n (get x "id" (VStr []))) = Ok (VStr s).
Proof.
  unfold user_object. intros H. apply andb_true_iff in H. destruct H as [H _].
  apply andb_true_iff in H. destruct H as [Hname Hid].
  destruct (field_get "name" (nullable is_str) x (VStr []) Hname eq_refl) as [n [Hn Hns]].
  destruct (field_get "id" is_str x (VStr []) Hid eq_refl) as [i [Hi His]].
  destruct (is_str_inv i His) as [is_ ->].
  rewrite Hn. simpl. unfold por. destruct (truthy n) eqn:Tn; [|eauto].
  destruct (nullable_inv _ _ Hns) as [->|Hn']; [discriminate|].
  destruct (is_str_inv n Hn') as [ns ->]. eauto.
Qed.

Lemma check_mark_str (x : value) : exists s, check_mark x = VStr s.
Proof. unfold check_mark. eauto. Qed.

Lemma formula_rendered (x : value) :
  formula_object x = true ->
  exists s,
    (formula_type <- get x "type" VNone ;;
     if eq_lit formula_type "string" then
       s <- get x "string" (VStr []) ;; por s (Ok (VStr []))
     else if eq_lit formula_type "number" then
       num <- get x "number" VNone ;;
       str_unless_none num
     else if eq_lit formula_type "boolean" then
       b <- get x "boolean" VNone ;;
       Ok (check_mark b)
     else if eq_lit formula_type "date" then
       date <- get x "date" VNone ;;
       if truthy date then get date "start" (VStr []) else Ok (VStr [])
     else Ok (VStr [])) = Ok (VStr s).
Proof.
  unfold formula_object. intros H. apply andb_true_iff in H. destruct H as [Hd H].
  destruct x; try discriminate. rewrite get_type. cbn [bind].
  destruct (eq_lit (type_of (VDict d)) "string").
  { destruct (field_get _ _ _ (VStr []) H eq_refl) as [y [Hy Hp]].
    rewrite Hy. cbn [bind]. now apply str_or_empty. }
  destruct (eq_lit (type_of (VDict d)) "number").
  { destruct (field_get _ _ _ VNone H eq_refl) as [y [Hy Hp]].
    rewrite Hy. cbn [bind]. now apply str_unless_none_number. }
  destruct (eq_lit (type_of (VDict d)) "boolean").
  { destruct (field_get _ _ _ VNone H eq_refl) as [y [Hy Hp]].
    rewrite Hy. cbn [bind]. destruct (check_mark_str y) as [s ->]. eauto. }
  destruct (eq_lit (type_of (VDict d)) "date").
  { destruct (field_get _ _ _ VNone H eq_refl) as [y [Hy Hp]].
    rewrite Hy. cbn [bind]. now apply date_start_rendered. }
  eauto.
Qed.

Lemma rollup_rendered (x : value) :
  rollup_object x = true ->
  exists s,
    (rollup_type <- get x "type" VNone ;;
     if eq_lit rollup_type "number" then
       num <- get x "number" VNone ;;
       str_unless_none num
     else if eq_lit rollup_type "array" then
       arr <- get x "array" (VList []) ;;
       n <- len arr ;;
       Ok (VStr (lit "(" ++ str_of_nat n ++ lit " items)"))
     else Ok (VStr [])) = Ok (VStr s).
Proof.
  unfold rollup_object. intros H. apply andb_true_iff in H. destruct H as [Hd H].
  destruct x; try discriminate. rewrite get_type. cbn [bind].
  destruct (eq_lit (type_of (VDict d)) "number").
  { destruct (field_get _ _ _ VNone H eq_refl) as [y [Hy Hp]].
    rewrite Hy. cbn [bind]. now apply str_unless_none_number. }
  destruct (eq_lit (type_of (VDict d)) "array").
  { destruct (field_get _ _ _ (VList []) H eq_refl) as [y [Hy Hp]].
    rewrite Hy. cbn [bind]. now apply count_rendered. }
  eauto.
Qed.

(** Open the payload of the current branch with its default. *)
Ltac payload H dflt :=
  let y := fresh "y" in
  let Hy := fresh "Hy" in
  let Hp := fresh "Hp" in
  destruct (field_get _ _ _ dflt H eq_refl) as [y [Hy Hp]];
  rewrite Hy; cbn [bind].

Lemma extract_well_formed (prop : value) :
  well_formed_property prop = true ->
  exists s, extract_property_value prop = Ok (VStr s).
Proof.
  unfold well_formed_property. intros H.
  apply andb_true_iff in H. destruct H as [H Hb].
  apply andb_true_iff in H. destruct H as [Hd Hs].
  destruct prop; try discriminate.
  unfold extract_property_value. rewrite get_type. cbn [bind].
  destruct (eq_lit (type_of (VDict d)) "title").
  { payload Hb (VList []). now apply plain_texts_joined. }
  destruct (eq_lit (type_of (VDict d)) "rich_text").
  { payload Hb (VList []). now apply plain_texts_joined. }
  destruct (eq_lit (type_of (VDict d)) "number").
  { payload Hb VNone. now apply str_unless_none_number. }
  destruct (eq_lit (type_of (VDict d)) "select").
  { payload Hb VNone. now apply named_or_empty. }
  destruct (eq_lit (type_of (VDict d)) "multi_select").
  { payload Hb (VList []). now apply option_names_joined. }
  destruct (eq_lit (type_of (VDict d)) "status").
  { payload Hb VNone. now apply named_or_empty. }
  destruct (eq_lit (type_of (VDict d)) "date").
  { payload Hb VNone. now apply date_rendered. }
  destruct (eq_lit (type_of (VDict d)) "people").
  { payload Hb (VList []). now apply people_joined. }
  destruct (eq_lit (type_of (VDict d)) "checkbox").
  { payload Hb (VBool false). destruct (check_mark_str y) as [s ->]. eauto. }
  destruct (eq_lit (type_of (VDict d)) "url").
  { payload Hb (VStr []). now apply str_or_empty. }
  destruct (eq_lit (type_of (VDict d)) "email").
  { payload Hb (VStr []). now apply str_or_empty. }
  destruct (eq_lit (type_of (VDict d)) "phone_number").
  { payload Hb (VStr []). now apply str_or_empty. }
  destruct (eq_lit (type_of (VDict d)) "formula").
  { payload Hb (VDict []). now apply formula_rendered. }
  destruct (eq_lit (type_of (VDict d)) "relation").
  { payload Hb (VList []). now apply count_rendered. }
  destruct (eq_lit (type_of (VDict d)) "rollup").
  { payload Hb (VDict []). now apply rollup_rendered. }
  destruct (eq_lit (type_of (VDict d)) "created_time").
  { payload Hb (VStr []). now apply slice10_str. }
  destruct (eq_lit (type_of (VDict d)) "created_by").
  { payload Hb (VDict []). now apply user_rendered. }
  destruct (eq_lit (type_of (VDict d)) "last_edited_time").
  { payload Hb (VStr []). now apply slice10_str. }
  destruct (eq_lit (type_of (VDict d)) "last_edited_by").
  { payload Hb (VDict []). now apply user_rendered. }
  destruct (eq_lit (type_of (VDict d)) "files").
  { payload Hb (VList []). now apply count_rendered. }
  destruct (is_str_inv _ Hs) as [k ->]. simpl. eauto.
Qed.

(** A known type whose payload key is missing. *)
Lemma extract_absent (ty : string) (d : list (str * value)) :
  In ty property_types ->
  type_of (VDict d) = VStr (lit ty) ->
  lookup (lit ty) d = None ->
  exists s, extract_property_value (VDict d) = Ok (VStr s) /\ In s absent_renderings.
Proof.
  intros Hin Hty Habs.
  unfold extract_property_value. rewrite get_type, Hty.
  unfold property_types in Hin. simpl in Hin.
  repeat (destruct Hin as [<-|Hin];
          [ cbn in Habs; cbn; rewrite ?Habs; cbn;
            eexists; split; [reflexivity | cbn; tauto] | ]).
  contradiction.
Qed.

(** A type outside the enumeration. *)
Lemma extract_unknown (k : str) (d : list (str * value)) :
  type_of (VDict d) = VStr k ->
  (forall ty, In ty property_types -> k <> lit ty) ->
  extract_property_value (VDict d) = Ok (VStr (lit "[" ++ k ++ lit "]")).
Proof.
  intros Hty Hk.
  assert (F : forall ty, In ty property_types -> eq_lit (VStr k) ty = false).
  { intros ty Hin. simpl. apply str_eqb_neq. now apply Hk. }
  unfold extract_property_value. rewrite get_type, Hty. cbn [bind].
  rewrite !F by (simpl; tauto).
  reflexivity.
Qed.

(** An object without a type, the empty object in particular. *)
Lemma extract_untyped (d : list (str * value)) :
  lookup (lit "type") d = None ->
  extract_property_value (VDict d) = Ok (VStr (lit "[None]")).
Proof.
  intros H. unfold extract_property_value. rewrite get_dict, H. reflexivity.
Qed.

(** C3: on a well-formed property value the extractor returns a string;
    when the payload of a known type is absent that string is empty or one
    of the fixed renderings of nothing; a type outside the enumeration is
    rendered as its name in square brackets. *)
Theorem extract_property_value_total (prop : value) :
  well_formed_property prop = true ->
  exists s,
    extract_property_value prop = Ok (VStr s)
    /\ (forall ty d, prop = VDict d -> In ty property_types ->
                     type_of prop = VStr (lit ty) ->
                     lookup (lit ty) d = None ->
                     In s absent_renderings)
    /\ (forall k, type_of prop = VStr k ->
                  (forall ty, In ty property_types -> k <> lit ty) ->
                  s = lit "[" ++ k ++ lit "]").
Proof.
  intros H. destruct (extract_well_formed prop H) as [s Hs].
  exists s. split; [assumption|]. split.
  - intros ty d -> Hin Hty Habs.
    destruct (extract_absent ty d Hin Hty Habs) as [s' [Hs' Hin']]. congruence.
  - intros k Hty Hk. unfold well_formed_property in H.
    destruct prop; try discriminate.
    rewrite (extract_unknown k d Hty Hk) in Hs. congruence.
Qed.

(** ** The property table of a record *)

Lemma insert_by_key_perm (x : str * str) (l : list (str * str)) :
  Permutation (insert_by_key x l) (x :: l).
Proof.
  induction l as [|y l IH]; simpl; [apply Permutation_refl|].
  destruct (str_leb (fst x) (fst y)); [apply Permutation_refl|].
  eapply Permutation_trans; [apply perm_skip, IH | apply perm_swap].
Qed.

Lemma sort_by_key_perm (l : list (str * str)) : Permutation (sort_by_key l) l.
Proof.
  induction l as [|x l IH]; simpl; [apply perm_nil|].
  eapply Permutation_trans; [apply insert_by_key_perm | now apply perm_skip].
Qed.

Lemma collect_prop_items_spec (d : list (str * value)) :
  forallb well_formed_property (map snd d) = true ->
  exists items,
    collect_prop_items d = Ok items
    /\ forall n v, In (n, v) items <->
                   exists name prop, In (name, prop) d /\ shown name prop n v.
Proof.
  induction d as [|[name prop] d IH]; simpl; intros H.
  - exists []. split; [reflexivity|]. intros n v. split; [intros []|].
    intros [? [? [[] _]]].
  - apply andb_true_iff in H. destruct H as [Hp Hd].
    destruct (IH Hd) as [items [Hitems Hspec]].
    destruct (extract_well_formed prop Hp) as [s Hs].
    assert (Hdict : exists pd, prop = VDict pd).
    { unfold well_formed_property in Hp. destruct prop; try discriminate. eauto. }
    destruct Hdict as [pd ->]. rewrite get_type. cbn [bind].
    destruct (eq_lit (type_of (VDict pd)) "title") eqn:Ety.
    + exists items. split; [assumption|]. intros n v. rewrite Hspec. split.
      * intros [nm [pr [Hin Hsh]]]. exists nm, pr. split; [now right | assumption].
      * intros [nm [pr [[Heq|Hin] Hsh]]]; [|now exists nm, pr].
        injection Heq as <- <-. destruct Hsh as [? [Hnt _]]. congruence.
    + rewrite Hs. cbn [bind]. destruct s as [|c s].
      * simpl. exists items. split; [assumption|]. intros n v. rewrite Hspec. split.
        -- intros [nm [pr [Hin Hsh]]]. exists nm, pr. split; [now right | assumption].
        -- intros [nm [pr [[Heq|Hin] Hsh]]]; [|now exists nm, pr].
           injection Heq as <- <-. destruct Hsh as [s' [_ [He [Hne _]]]].
           rewrite Hs in He. injection He as <-. congruence.
      * cbn [truthy str_method bind]. rewrite Hitems. cbn [bind].
        eexists. split; [reflexivity|]. intros n v. simpl. rewrite Hspec. split.
        -- intros [Heq|[nm [pr [Hin Hsh]]]].
           ++ injection Heq as <- <-. exists name, (VDict pd). split; [now left|].
              exists (c :: s). repeat split; try assumption; congruence.
           ++ exists nm, pr. split; [now right | assumption].
        -- intros [nm [pr [[Heq|Hin] Hsh]]].
           ++ injection Heq as <- <-. left. destruct Hsh as [s' [_ [He [_ [-> ->]]]]].
              rewrite Hs in He. injection He as <-. reflexivity.
           ++ right. now exists nm, pr.
Qed.

(** C10: the table of a record holds exactly the properties that are not
    the title and whose value is not empty; with none of them, nothing is
    rendered. *)
Theorem get_page_properties_markdown_omits (page : value) (d : list (str * value)) :
  get page "properties" (VDict []) = Ok (VDict d) ->
  forallb well_formed_property (map snd d) = true ->
  exists its,
    (forall n v, In (n, v) its <->
                 exists name prop, In (name, prop) d /\ shown name prop n v)
    /\ (its = [] -> get_page_properties_markdown page = Ok [])
    /\ (its <> [] ->
        exists columns,
          Permutation columns its
          /\ get_page_properties_markdown page = Ok (properties_table columns)).
Proof.
  intros Hget Hwf.
  destruct (collect_prop_items_spec d Hwf) as [its [Hits Hspec]].
  exists its. split; [assumption|].
  unfold get_page_properties_markdown. rewrite Hget. cbn [bind].
  destruct d as [|kv d].
  - simpl in Hits. injection Hits as <-. split; [reflexivity | congruence].
  - cbn [truthy negb items bind]. rewrite Hits. cbn [bind]. split.
    + intros ->. reflexivity.
    + intros Hne. exists (sort_by_key its). split; [apply sort_by_key_perm|].
      destruct its; [congruence | reflexivity].
Qed.

(** ** The tabular export *)

Lemma segs_eqb_refl (l : list str) : segs_eqb l l = true.
Proof.
  induction l as [|x l IH]; simpl; [reflexivity|]. now rewrite str_eqb_refl.
Qed.

Lemma path_eqb_refl (p : path) : path_eqb p p = true.
Proof. unfold path_eqb. now rewrite N.eqb_refl, segs_eqb_refl. Qed.

Lemma fs_lookup_set (p : path) (n : node) (fs : filesystem) :
  fs_lookup p (fs_set p n fs) = Some n.
Proof. unfold fs_set. simpl. now rewrite path_eqb_refl. Qed.

Lemma csv_cell_missing (record : value) (name : str) :
  lacks record name -> csv_cell record name = Ok (VStr (lit "[None]")).
Proof.
  intros [p [Hp Hn]]. unfold csv_cell. rewrite Hp. cbn [bind get_s]. rewrite Hn.
  reflexivity.
Qed.

Lemma mapM_length {A B} (f : A -> outcome B) (l : list A) (r : list B) :
  mapM f l = Ok r -> List.length r = List.length l.
Proof.
  revert r. induction l as [|x l IH]; simpl; intros r H.
  - injection H as <-. reflexivity.
  - destruct (f x); try discriminate. simpl in H.
    destruct (mapM f l); try discriminate. simpl in H. injection H as <-.
    simpl. f_equal. now apply IH.
Qed.

Lemma mapM_nth {A B} (f : A -> outcome B) (l : list A) (r : list B) (i : nat) (x : A) :
  mapM f l = Ok r -> nth_error l i = Some x ->
  exists y, f x = Ok y /\ nth_error r i = Some y.
Proof.
  revert r i. induction l as [|a l IH]; simpl; intros r i H Hi.
  - destruct i; discriminate.
  - destruct (f a) eqn:Fa; try discriminate. simpl in H.
    destruct (mapM f l) eqn:Fl; try discriminate. simpl in H. injection H as <-.
    destruct i as [|i]; simpl in *.
    + injection Hi as <-. eauto.
    + now apply IH.
Qed.

Lemma csv_fields_shape (headers : list str) (record : value) (fields : list str) :
  csv_fields headers record = Ok fields ->
  List.length fields = List.length headers
  /\ forall i name, nth_error headers i = Some name -> lacks record name ->
                    nth_error fields i = Some (lit "[None]").
Proof.
  unfold csv_fields, csv_row. intros H.
  destruct (mapM (csv_cell record) headers) as [row| | |] eqn:Hrow; try discriminate.
  cbn [bind] in H. split.
  - rewrite (mapM_length _ _ _ H). now apply (mapM_length _ _ _ Hrow).
  - intros i name Hi Hl.
    destruct (mapM_nth _ _ _ i name Hrow Hi) as [v [Hv Hvi]].
    rewrite (csv_cell_missing record name Hl) in Hv. injection Hv as <-.
    destruct (mapM_nth _ _ _ i _ H Hvi) as [s [Hs Hsi]].
    simpl in Hs. injection Hs as <-. assumption.
Qed.

Lemma write_records (csv_path : path) (headers : list str) (records : list value) :
  forall (rows : list (list str)) (w : world) (old : str),
    mapM (csv_fields headers) records = Ok rows ->
    forallb encodable (map csv_line rows) = true ->
    fs_lookup csv_path (fs w) = Some (TextFile old) ->
    exists w',
      forM_ (write_csv_record csv_path headers) records w = (Ok tt, w')
      /\ fs_lookup csv_path (fs w')
         = Some (TextFile (old ++ List.concat (map csv_line rows)))
      /\ trace w' = trace w.
Proof.
  induction records as [|r records IH]; simpl; intros rows w old Hrows Henc Hold.
  - injection Hrows as <-. simpl. rewrite app_nil_r. unfold ret. eauto.
  - destruct (csv_fields headers r) as [fields| | |] eqn:Hf; try discriminate.
    cbn [bind] in Hrows.
    destruct (mapM (csv_fields headers) records) as [rows'| | |] eqn:Hr; try discriminate.
    cbn [bind] in Hrows. injection Hrows as <-.
    simpl in Henc. apply andb_true_iff in Henc. destruct Henc as [He Henc].
    unfold bindM at 1. unfold write_csv_record at 1. unfold bindM at 1.
    unfold lift at 1. rewrite Hf. unfold write_text_to at 1. rewrite He, Hold.
    cbn [negb].
    destruct (IH rows' (mk_world (fs_set csv_path (TextFile (old ++ csv_line fields)) (fs w))
                                 (trace w))
                 (old ++ csv_line fields) eq_refl Henc) as [w' [Hrun [Hfile Htr]]].
    { simpl. apply fs_lookup_set. }
    exists w'. split; [assumption|]. split; [|assumption].
    rewrite Hfile. simpl. now rewrite <- app_assoc.
Qed.

(** C2, as the code has it: the file holds the header line and then one
    line per record, each with one field per column of the first record in
    that order; a record without one of the columns shows [[None]] there,
    and looking the column up never fails. *)
Theorem export_database_to_csv_rows
        (first : value) (rest : list value) (title : value) (db_id : str)
        (output_path : path) (w w1 : world)
        (headers : list str) (safe : str) (rows : list (list str)) :
  let records := first :: rest in
  let csv_filename := safe ++ lit " " ++ db_id ++ lit ".csv" in
  let csv_path := path_join output_path csv_filename in
  csv_headers first = Ok headers ->
  sanitize_filename title = Ok safe ->
  mapM (csv_fields headers) records = Ok rows ->
  open_w csv_path (TextFile []) w = (Ok tt, w1) ->
  forallb encodable (csv_line headers :: map csv_line rows) = true ->
  (forall record name, lacks record name ->
                       csv_cell record name = Ok (VStr (lit "[None]")))
  /\ Forall2 (fun record fields =>
                csv_fields headers record = Ok fields
                /\ List.length fields = List.length headers
                /\ forall i name, nth_error headers i = Some name ->
                                  lacks record name ->
                                  nth_error fields i = Some (lit "[None]"))
             records rows
  /\ exists w',
      export_database_to_csv records title db_id output_path w = (Ok tt, w')
      /\ fs_lookup csv_path (fs w')
         = Some (TextFile (csv_line headers ++ List.concat (map csv_line rows))).
Proof.
  intros records csv_filename csv_path Hh Hs Hrows Hopen Henc.
  split; [exact csv_cell_missing|]. split.
  - clear Hopen Henc. subst records. revert rows Hrows.
    generalize (first :: rest) as l.
    induction l as [|r l IH]; simpl; intros rows Hrows.
    + injection Hrows as <-. constructor.
    + destruct (csv_fields headers r) as [fields| | |] eqn:Hf; try discriminate.
      cbn [bind] in Hrows.
      destruct (mapM (csv_fields headers) l) as [rows'| | |] eqn:Hr; try discriminate.
      cbn [bind] in Hrows. injection Hrows as <-. constructor.
      * split; [exact Hf|]. now apply csv_fields_shape.
      * now apply IH.
  - simpl in Henc. apply andb_true_iff in Henc. destruct Henc as [He Henc].
    assert (Hw1 : fs_lookup csv_path (fs w1) = Some (TextFile [])).
    { unfold open_w in Hopen.
      destruct (has_dotdot csv_path); [discriminate|].
      destruct (segs csv_path); [discriminate|].
      destruct (node_at (parent csv_path) (fs w)) as [[| |]|];
        destruct (fs_lookup csv_path (fs w)) as [[| |]|]; try discriminate;
        injection Hopen as <-; apply fs_lookup_set. }
    destruct (write_records csv_path headers records rows
                (mk_world (fs_set csv_path (TextFile (csv_line headers)) (fs w1)) (trace w1))
                (csv_line headers) Hrows Henc) as [w2 [Hrun [Hfile Htr]]].
    { simpl. apply fs_lookup_set. }
    eexists. split.
    + unfold export_database_to_csv. subst records. cbv beta iota.
      unfold bindM at 1. unfold lift at 1. rewrite Hh.
      unfold bindM at 1. unfold lift at 1. rewrite Hs.
      fold csv_filename. fold csv_path.
      unfold bindM at 1. rewrite Hopen.
      unfold bindM at 1. unfold write_text_to at 1. rewrite He, Hw1. cbn [negb app].
      unfold bindM at 1. rewrite Hrun. unfold print, emit. reflexivity.
    + simpl. assumption.
Qed.

(** ** Pagination *)

Lemma drain_serves (list_fn : value -> reply value) (cursor : value)
      (pages : list (list value)) :
  serves list_fn cursor pages ->
  forall fuel acc, (List.length pages <= fuel)%nat ->
                   drain fuel list_fn cursor acc = Ok (acc ++ List.concat pages).
Proof.
  induction 1 as [cursor response results has_more items Hf Hr Hi Hh Ht
                 |cursor response results has_more next items rest Hf Hr Hi Hh Ht Hn Hs IH];
    intros fuel acc Hfuel; (destruct fuel as [|fuel]; [simpl in Hfuel; lia|]);
    simpl; rewrite Hf; cbn [bind call]; rewrite Hr; cbn [bind]; rewrite Hi; cbn [bind];
    rewrite Hh; cbn [bind]; rewrite Ht; cbn [negb].
  - now rewrite app_nil_r.
  - rewrite Hn. cbn [bind]. rewrite IH by (simpl in Hfuel; lia).
    now rewrite <- app_assoc.
Qed.

Lemma drain_ok_serves (list_fn : value -> reply value) :
  forall fuel cursor acc xs,
    drain fuel list_fn cursor acc = Ok xs ->
    exists pages, serves list_fn cursor pages
                  /\ (List.length pages <= fuel)%nat
                  /\ xs = acc ++ List.concat pages.
Proof.
  induction fuel as [|fuel IH]; simpl; intros cursor acc xs H; [discriminate|].
  destruct (list_fn cursor) as [response|] eqn:Hf; try discriminate.
  cbn [bind call] in H.
  destruct (get response "results" (VList [])) as [results| | |] eqn:Hr; try discriminate.
  cbn [bind] in H.
  destruct (iter results) as [items| | |] eqn:Hi; try discriminate.
  cbn [bind] in H.
  destruct (get response "has_more" VNone) as [has_more| | |] eqn:Hh; try discriminate.
  cbn [bind] in H.
  destruct (truthy has_more) eqn:Ht; cbn [negb] in H.
  - destruct (get response "next_cursor" VNone) as [next| | |] eqn:Hn; try discriminate.
    cbn [bind] in H.
    destruct (IH _ _ _ H) as [rest [Hs [Hlen ->]]].
    exists (items :: rest). split; [|split].
    + eapply serves_more; eassumption.
    + simpl. lia.
    + simpl. now rewrite <- app_assoc.
  - injection H as <-. exists [items]. split; [|split].
    + eapply serves_last; eassumption.
    + simpl. lia.
    + simpl. now rewrite app_nil_r.
Qed.

(** ** The traversal *)

Lemma forM_app {A} (f : A -> M unit) (l1 l2 : list A) (w w1 : world) :
  forM_ f l1 w = (Ok tt, w1) ->
  forM_ f (l1 ++ l2) w = forM_ f l2 w1.
Proof.
  revert w. induction l1 as [|x l1 IH]; simpl; intros w H.
  - unfold ret in H. now injection H as <-.
  - unfold bindM in *. destruct (f x w) as [[[]| | |] w'] eqn:Fx; try discriminate.
    now apply IH.
Qed.

(** One level of the traversal, with the two loops named. *)
Lemma process_page_step (E : env) (fuel : nat) (page_id : value) (output_path : path)
      (depth : nat) (include_properties : bool) :
  process_page E (S fuel) page_id output_path depth include_properties
  = (fetched <~ retrieve_or_log "page" (pages_retrieve E) page_id ;;
     match fetched with
     | None => ret tt
     | Some page =>
       title <~ lift (get_page_title page) ;;
       id_str <~ lift (str_method page_id) ;;
       let page_id_short := replace 45 [] id_str in
       safe <~ lift (sanitize_filename title) ;;
       let filename := safe ++ lit " " ++ page_id_short ++ lit ".md" in
       let filepath := path_join output_path filename in
       line <~ lift (fstr [Val (VStr (indent depth)); Lit "📄 "; Val title]) ;;
       _ <~ print line ;;
       content <~ fetch_page_content E (S fuel) page_id (Some output_path) title ;;
       comments_md <~ get_page_comments E (S fuel) page_id ;;
       properties_md <~ (if include_properties
                         then lift (get_page_properties_markdown page)
                         else ret []) ;;
       markdown <~ lift (fstr [Lit "# "; Val title; NL; NL; Val (VStr properties_md);
                               Val (VStr comments_md); Val (VStr content)]) ;;
       _ <~ mkdir (parent filepath) ;;
       _ <~ write_text filepath markdown ;;
       blocks <~ lift (get_page_children E (S fuel) page_id) ;;
       child_pages <~ lift (filterM is_child_node blocks) ;;
       match child_pages with
       | [] => ret tt
       | _ =>
         safe_dir <~ lift (sanitize_filename title) ;;
         let child_dir := path_join output_path safe_dir in
         _ <~ mkdir child_dir ;;
         forM_ (visit_child E fuel child_dir depth) child_pages
       end
     end).
Proof. reflexivity. Qed.

Lemma process_database_step (E : env) (fuel : nat) (database_id : value)
      (output_path : path) (depth : nat) :
  process_database E (S fuel) database_id output_path depth
  = (fetched <~ retrieve_or_log "database" (databases_retrieve E) database_id ;;
     match fetched with
     | None => ret tt
     | Some db =>
       titles <~ lift (get db "title" (VList [VDict []])) ;;
       first <~ lift (index0 titles) ;;
       title <~ lift (get first "plain_text" (VStr (lit "Untitled"))) ;;
       id_str <~ lift (str_method database_id) ;;
       let db_id_short := replace 45 [] id_str in
       line <~ lift (fstr [Val (VStr (indent depth)); Lit "🗄️ "; Val title]) ;;
       _ <~ print line ;;
       records <~ lift (drain (S fuel) (databases_query E database_id) VNone []) ;;
       safe <~ lift (sanitize_filename title) ;;
       let db_dir := path_join output_path safe in
       _ <~ mkdir db_dir ;;
       _ <~ export_database_to_csv records title db_id_short output_path ;;
       forM_ (visit_record E fuel db_dir depth) records
     end).
Proof. reflexivity. Qed.

Lemma retrieve_or_log_fail (what : string) (retrieve : value -> reply value)
      (id : value) (e : exn) (s : str) (w : world) :
  retrieve id = Fail e -> py_str id = Ok s ->
  retrieve_or_log what retrieve id w
  = (Ok None, logged (lit "  Error fetching " ++ lit what ++ lit " " ++ s ++ lit ": ") e w).
Proof.
  intros Hr Hs. unfold retrieve_or_log, try_except, bindM, lift. rewrite Hr.
  cbn [call fstr bind]. rewrite Hs. cbn [bind]. unfold emit, ret, logged.
  cbn [fs trace]. now rewrite app_nil_r.
Qed.

Lemma process_page_fetch_fails (E : env) (fuel : nat) (id : value) (out : path)
      (depth : nat) (props : bool) (e : exn) (s : str) (w : world) :
  pages_retrieve E id = Fail e -> py_str id = Ok s ->
  process_page E (S fuel) id out depth props w
  = (Ok tt, logged (lit "  Error fetching page " ++ s ++ lit ": ") e w).
Proof.
  intros Hr Hs. rewrite process_page_step. unfold bindM at 1.
  now rewrite (retrieve_or_log_fail "page" _ id e s w Hr Hs).
Qed.

Lemma process_database_fetch_fails (E : env) (fuel : nat) (id : value) (out : path)
      (depth : nat) (e : exn) (s : str) (w : world) :
  databases_retrieve E id = Fail e -> py_str id = Ok s ->
  process_database E (S fuel) id out depth w
  = (Ok tt, logged (lit "  Error fetching database " ++ s ++ lit ": ") e w).
Proof.
  intros Hr Hs. rewrite process_database_step. unfold bindM at 1.
  now rewrite (retrieve_or_log_fail "database" _ id e s w Hr Hs).
Qed.

Lemma get_type_of (v x : value) :
  get v "id" VNone = Ok x -> get v "type" VNone = Ok (type_of v).
Proof. destruct v; try discriminate. reflexivity. Qed.

Lemma visit_child_fetch_fails (E : env) (fuel : nat) (dir : path) (depth : nat)
      (child : value) (prefix : str) (e : exn) (w : world) :
  child_fetch_fails E child prefix e ->
  visit_child E (S fuel) dir depth child w = (Ok tt, logged prefix e w).
Proof.
  intros [[Hty [id [Hid [Hr ->]]]]|[Hty [id [Hid [Hr ->]]]]];
    unfold visit_child; unfold bindM at 1; unfold lift at 1; rewrite Hid;
    unfold bindM at 1; unfold lift at 1; rewrite (get_type_of _ _ Hid).
  - rewrite Hty. now apply process_page_fetch_fails.
  - assert (Hp : eq_lit (type_of child) "child_page" = false).
    { unfold eq_lit in *. destruct (type_of child); try discriminate.
      apply str_eqb_eq in Hty. subst. reflexivity. }
    rewrite Hp, Hty. now apply process_database_fetch_fails.
Qed.

Lemma visit_record_fetch_fails (E : env) (fuel : nat) (dir : path) (depth : nat)
      (record : value) (prefix : str) (e : exn) (w : world) :
  page_fetch_fails E record prefix e ->
  visit_record E (S fuel) dir depth record w = (Ok tt, logged prefix e w).
Proof.
  intros [id [Hid [Hr ->]]]. unfold visit_record. unfold bindM at 1.
  unfold lift at 1. rewrite Hid. now apply process_page_fetch_fails.
Qed.

(** The handler covers the retrieval only: when the page is retrieved but
    the listing of its blocks raises, the exception leaves [process_page]. *)
Lemma listing_failure_propagates (E : env) (fuel : nat) (id : str) (out : path)
      (depth : nat) (props : bool) (page : value) (title : str) (e : exn)
      (w : world) :
  pages_retrieve E (VStr id) = Reply page ->
  get_page_title page = Ok (VStr title) ->
  blocks_children_list E (VStr id) VNone = Fail e ->
  exists w', process_page E (S fuel) (VStr id) out depth props w = (Raise e, w')
             /\ fs w' = fs w.
Proof.
  intros Hr Ht Hl. rewrite process_page_step.
  unfold bindM at 1. unfold retrieve_or_log, try_except, bindM at 1, lift at 1.
  rewrite Hr. cbn [call]. unfold ret at 1.
  unfold bindM at 1, lift at 1. rewrite Ht.
  unfold bindM at 1, lift at 1. cbn [str_method].
  unfold bindM at 1, lift at 1. rewrite sanitize_filename_str.
  unfold bindM at 1, lift at 1. cbn [fstr py_str bind].
  unfold bindM at 1, print, emit.
  unfold bindM at 1, fetch_page_content, bindM at 1, lift at 1.
  unfold get_page_children. cbn [drain]. rewrite Hl. cbn [call bind].
  eexists. split; reflexivity.
Qed.

(** ** Rich text *)

Lemma is_dict_inv (v : value) : is_dict v = true -> exists d, v = VDict d.
Proof. destruct v; try discriminate. eauto. Qed.

Lemma rich_text_run_str (v : value) :
  rich_run v = true -> exists s, rich_text_run v = Ok (VStr s).
Proof.
  unfold rich_run. intros H.
  apply andb_true_iff in H. destruct H as [H Hh].
  apply andb_true_iff in H. destruct H as [Hp Ha].
  destruct (field_get _ _ _ (VStr []) Hp eq_refl) as [c [Hc Hcs]].
  destruct (is_str_inv c Hcs) as [c0 ->].
  destruct (field_get _ _ _ (VDict []) Ha eq_refl) as [a [Hget Had]].
  destruct (is_dict_inv a Had) as [ad ->].
  destruct (field_get _ _ _ VNone Hh eq_refl) as [h [Hhref Hhs]].
  unfold rich_text_run. rewrite Hc. cbn [bind]. rewrite Hget. cbn [bind].
  rewrite !get_dict. cbn [bind].
  destruct (truthy _); cbn [fstr py_str bind];
    (destruct (truthy _); cbn [fstr py_str bind]);
    (destruct (truthy _); cbn [fstr py_str bind]);
    (destruct (truthy _); cbn [fstr py_str bind]);
    rewrite Hhref; cbn [bind];
    (destruct (nullable_inv _ _ Hhs) as [->|Hs];
     [ cbn [truthy]; eauto
     | destruct (is_str_inv h Hs) as [h0 ->];
       destruct (truthy (VStr h0)); cbn [fstr py_str bind]; eauto ]).
Qed.

Lemma rich_text_to_markdown_str (x : value) :
  rich_text x = true -> exists s, rich_text_to_markdown x = Ok s.
Proof.
  unfold rich_text. destruct x; try discriminate. cbn [list_of]. intros H.
  assert (R : exists ss, mapM rich_text_run l = Ok (map VStr ss)).
  { induction l as [|t l IH]; [now exists []|].
    cbn [forallb] in H. apply andb_true_iff in H. destruct H as [Ht Hl].
    destruct (rich_text_run_str t Ht) as [s Hs]. destruct (IH Hl) as [ss Hss].
    exists (s :: ss). cbn [mapM]. rewrite Hs. cbn [bind]. rewrite Hss. reflexivity. }
  destruct R as [ss Hss]. unfold rich_text_to_markdown. cbn [iter bind].
  rewrite Hss. cbn [bind]. rewrite join_values_strs. eauto.
Qed.

Lemma get2_field (k f : string) (P : value -> bool) (v dflt : value) :
  field k (field f P) v = true -> P dflt = true ->
  exists x, get2 v k f dflt = Ok x /\ P x = true.
Proof.
  intros H Hd. unfold get2.
  destruct (field_get k (field f P) v (VDict []) H eq_refl) as [inner [Hi Hp]].
  rewrite Hi. cbn [bind]. now apply field_get.
Qed.

(** ** Links to nested pages and databases *)


Lemma nested_reference_linked (key icon ext : string) (block : value)
      (title id p : str) :
  get2 block key "title" (VStr (lit "Untitled")) = Ok (VStr title) ->
  get block "id" (VStr []) = Ok (VStr id) ->
  replace 45 [] id <> [] -> p <> [] ->
  nested_reference key icon ext block (VStr p)
  = Ok (lit icon ++ lit " [" ++ title ++ lit "](" ++ sanitized p ++ lit "/"
        ++ sanitized title ++ lit "%20" ++ replace 45 [] id ++ lit ext
        ++ lit ")" ++ [newline]).
Proof.
  intros Ht Hi Hc Hp. unfold nested_reference. rewrite Ht. cbn [bind].
  rewrite Hi. cbn [bind str_method].
  destruct p as [|c p]; [congruence|].
  destruct (replace 45 [] id) as [|c' r] eqn:Hr; [congruence|].
  cbn [truthy andb]. rewrite !sanitize_filename_str. cbn [bind fstr py_str].
  rewrite !app_nil_r. rewrite <- !app_assoc. reflexivity.
Qed.

(** Decide the comparisons of a known kind with the literals of a cascade. *)
Ltac decide_kinds :=
  repeat match goal with
         | |- context [eq_lit (VStr (lit ?a)) ?b] =>
           let r := eval vm_compute in (eq_lit (VStr (lit a)) b) in
           change (eq_lit (VStr (lit a)) b) with r
         end;
  cbv iota.

Lemma block_type_get (block x : value) :
  get block "id" (VStr []) = Ok x -> get block "type" VNone = Ok (type_of block).
Proof. destruct block; try discriminate. reflexivity. Qed.

(** C7: a reference to a nested page or database, rendered under a parent
    title that is known (a title that is not empty, for a reference whose
    identifier is not empty), links to
    [sanitize(parent)/sanitize(title)%20<id without hyphens>] with the
    extension [.md] or [.csv]; rendered without a parent title it is a bare
    label, and so it is whenever the guard of the code fails. *)
Theorem nested_reference_link (E : env) (block : value) (out : option path)
        (w : world) (kind icon ext : string) (title id : str) :
  In (kind, icon, ext)
     [("child_page", "📄", ".md"); ("child_database", "🗄️", ".csv")]%string ->
  type_of block = VStr (lit kind) ->
  get2 block kind "title" (VStr (lit "Untitled")) = Ok (VStr title) ->
  get block "id" (VStr []) = Ok (VStr id) ->
  (forall p, p <> [] -> replace 45 [] id <> [] ->
     block_to_markdown E block out (VStr p) w
     = (Ok (lit icon ++ lit " [" ++ title ++ lit "](" ++ sanitized p ++ lit "/"
            ++ sanitized title ++ lit "%20" ++ replace 45 [] id ++ lit ext
            ++ lit ")" ++ [newline]), w))
  /\ block_to_markdown E block out VNone w
     = (Ok (lit icon ++ lit " [" ++ title ++ lit "]" ++ [newline]), w)
  /\ (forall parent_title,
        truthy parent_title = false \/ replace 45 [] id = [] ->
        block_to_markdown E block out parent_title w
        = (Ok (lit icon ++ lit " [" ++ title ++ lit "]" ++ [newline]), w)).
Proof.
  intros Hin Hty Ht Hi.
  assert (Hget := block_type_get _ _ Hi). rewrite Hty in Hget.
  assert (Bare : forall parent_title,
             truthy parent_title = false \/ replace 45 [] id = [] ->
             nested_reference kind icon ext block parent_title
             = Ok (lit icon ++ lit " [" ++ title ++ lit "]" ++ [newline])).
  { intros parent_title Hguard. unfold nested_reference. rewrite Ht. cbn [bind].
    rewrite Hi. cbn [bind str_method].
    assert (G : truthy parent_title && truthy (VStr (replace 45 [] id)) = false).
    { destruct Hguard as [-> | ->]; [reflexivity | apply andb_false_r]. }
    rewrite G. reflexivity. }
  destruct Hin as [Heq|[Heq|[]]]; injection Heq as <- <- <-.
  - split; [intros p Hp Hc|split; [|intros parent_title Hguard]];
      unfold block_to_markdown, bindM, lift; rewrite Hget; decide_kinds.
    + now rewrite (nested_reference_linked _ _ _ _ _ _ _ Ht Hi Hc Hp).
    + now rewrite (Bare VNone (or_introl eq_refl)).
    + now rewrite (Bare parent_title Hguard).
  - split; [intros p Hp Hc|split; [|intros parent_title Hguard]];
      unfold block_to_markdown, bindM, lift; rewrite Hget; decide_kinds.
    + now rewrite (nested_reference_linked _ _ _ _ _ _ _ Ht Hi Hc Hp).
    + now rewrite (Bare VNone (or_introl eq_refl)).
    + now rewrite (Bare parent_title Hguard).
Qed.

(** ** Tables *)

Lemma escape_pipe_escaped (prev : N) (s : str) :
  escaped_after prev (escape_pipe s) = true.
Proof.
  revert prev. induction s as [|c s IH]; intros prev; [reflexivity|].
  unfold escape_pipe, replace in *. cbn [flat_map].
  destruct (c =? pipe) eqn:Hc.
  - cbn [app escaped_after]. rewrite IH. reflexivity.
  - cbn [app escaped_after]. rewrite Hc, IH. reflexivity.
Qed.

Lemma table_rows_loop_rest (rows : list value) (i : nat) :
  table_rows_loop (S i) rows = (css <- rows_cells rows ;; Ok (map table_row css)).
Proof.
  revert i. induction rows as [|row rows IH]; intros i; [reflexivity|].
  cbn [table_rows_loop rows_cells].
  destruct (get row "type" VNone) as [ty| | |]; try reflexivity. cbn [bind].
  destruct (negb (eq_lit ty "table_row")); [apply IH|].
  destruct (row_cells row) as [cells| | |]; try reflexivity. cbn [bind].
  rewrite IH. destruct (rows_cells rows); reflexivity.
Qed.

Lemma table_cell_escaped (cell : value) :
  rich_text cell = true ->
  exists s, table_cell cell = Ok s /\ pipes_escaped s = true.
Proof.
  intros H. destruct (rich_text_to_markdown_str cell H) as [t Ht].
  unfold table_cell. rewrite Ht. cbn [bind]. eexists. split; [reflexivity|].
  apply escape_pipe_escaped.
Qed.

Lemma row_cells_escaped (row : value) :
  well_formed_row row = true ->
  get row "type" VNone = Ok (type_of row)
  /\ eq_lit (type_of row) "table_row" = true
  /\ exists cells, row_cells row = Ok cells /\ forallb pipes_escaped cells = true.
Proof.
  unfold well_formed_row. intros H.
  apply andb_true_iff in H. destruct H as [H Hc].
  apply andb_true_iff in H. destruct H as [Hd Hty].
  destruct (is_dict_inv row Hd) as [d ->]. split; [reflexivity|]. split; [assumption|].
  destruct (get2_field _ _ _ _ (VList []) Hc eq_refl) as [cells [Hg Hl]].
  unfold row_cells. rewrite Hg. cbn [bind].
  destruct cells as [| | | | |l|]; try discriminate. cbn [iter bind list_of] in *.
  clear Hg. induction l as [|cell l IH]; [now exists []|].
  cbn [forallb] in Hl. apply andb_true_iff in Hl. destruct Hl as [Hcell Hl].
  destruct (table_cell_escaped cell Hcell) as [s [Hs He]].
  destruct (IH Hl) as [ss [Hss Hes]].
  exists (s :: ss). cbn [mapM]. rewrite Hs. cbn [bind]. rewrite Hss. cbn [bind].
  split; [reflexivity|]. cbn [forallb]. now rewrite He, Hes.
Qed.

Lemma rows_cells_escaped (rows : list value) :
  forallb well_formed_row rows = true ->
  exists css, rows_cells rows = Ok css
              /\ List.length css = List.length rows
              /\ Forall (fun cells => forallb pipes_escaped cells = true) css.
Proof.
  induction rows as [|row rows IH]; intros H.
  - exists []. repeat split. constructor.
  - cbn [forallb] in H. apply andb_true_iff in H. destruct H as [Hr Hrs].
    destruct (row_cells_escaped row Hr) as [Hty [Hk [cells [Hc He]]]].
    destruct (IH Hrs) as [css [Hcss [Hlen Hall]]].
    exists (cells :: css). cbn [rows_cells]. rewrite Hty. cbn [bind]. rewrite Hk.
    cbn [negb]. rewrite Hc. cbn [bind]. rewrite Hcss. cbn [bind].
    split; [reflexivity|]. split; [simpl; congruence|]. now constructor.
Qed.

(** C6: a table whose rows were fetched is rendered as its first row, the
    separator row, then the other rows, whatever the table's own header
    flags say; and in every cell each pipe follows a backslash. *)
Theorem table_header_separator (E : env) (block : value) (w : world)
        (id table_info response row0 : value) (rest : list value) :
  get block "id" VNone = Ok id ->
  get block "table" (VDict []) = Ok table_info ->
  is_dict table_info = true ->
  blocks_children_list E id VNone = Reply response ->
  get response "results" (VList []) = Ok (VList (row0 :: rest)) ->
  forallb well_formed_row (row0 :: rest) = true ->
  exists cells0 cells,
    row_cells row0 = Ok cells0
    /\ rows_cells rest = Ok cells
    /\ List.length cells = List.length rest
    /\ convert_table_block E block w
       = (Ok (join [newline]
                   (table_row cells0 :: table_separator (List.length cells0)
                              :: map table_row cells)
              ++ [newline; newline]), w)
    /\ Forall (fun row => forallb pipes_escaped row = true) (cells0 :: cells).
Proof.
  intros Hid Htable Hinfo Hlist Hres Hwf.
  cbn [forallb] in Hwf. apply andb_true_iff in Hwf. destruct Hwf as [H0 Hrest].
  destruct (row_cells_escaped row0 H0) as [Hty [Hk [cells0 [Hc0 He0]]]].
  destruct (rows_cells_escaped rest Hrest) as [cells [Hcs [Hlen Hall]]].
  exists cells0, cells. repeat split; try assumption; [|now constructor].
  destruct (is_dict_inv table_info Hinfo) as [ti ->].
  unfold convert_table_block, bindM, lift, try_except. rewrite Hid, Htable.
  rewrite !get_dict. unfold table_body. rewrite Hlist. cbn [call bind].
  rewrite Hres. cbn [bind truthy negb iter table_rows_loop]. rewrite Hty. cbn [bind].
  rewrite Hk. cbn [negb]. rewrite Hc0. cbn [bind]. rewrite table_rows_loop_rest, Hcs.
  reflexivity.
Qed.

(** ** File names of assets *)

Lemma split_on_no_sep (sep : N) (s p : str) :
  In p (split_on sep s) -> ~ In sep p.
Proof.
  revert p. induction s as [|c s IH]; simpl; intros p H.
  - destruct H as [<-|[]]. intros [].
  - destruct (c =? sep) eqn:Hc.
    + destruct H as [<-|H]; [intros []|now apply IH].
    + destruct (split_on sep s) as [|q qs] eqn:Hs.
      * destruct H as [<-|[]]. intros [->|[]]. now rewrite N.eqb_refl in Hc.
      * destruct H as [<-|H].
        -- intros [->|Hin]; [now rewrite N.eqb_refl in Hc|].
           apply (IH q); [now left | assumption].
        -- apply IH. now right.
Qed.

Lemma split_on_plain (sep : N) (s : str) : ~ In sep s -> split_on sep s = [s].
Proof.
  induction s as [|c s IH]; simpl; intros H; [reflexivity|].
  destruct (c =? sep) eqn:Hc.
  - apply N.eqb_eq in Hc. subst. exfalso. apply H. now left.
  - rewrite IH; [reflexivity|]. intros Hin. apply H. now right.
Qed.

Lemma nth_no_sep (sep : N) (l : list str) (n : nat) :
  (forall p, In p l -> ~ In sep p) -> ~ In sep (nth n l []).
Proof.
  intros H. destruct (nth_in_or_default n l []) as [Hin|Heq].
  - now apply H.
  - rewrite Heq. intros [].
Qed.

Lemma hex_digit_not_slash (n : N) : hex_digit n <> 47.
Proof. unfold hex_digit. destruct (n <? 10); lia. Qed.

Lemma hexdigest_no_slash (bytes : list N) : ~ In 47 (hexdigest bytes).
Proof.
  unfold hexdigest. rewrite in_flat_map. intros [b [_ [H|[H|[]]]]];
    now apply hex_digit_not_slash in H.
Qed.

Lemma re_sub_class_no_slash (s : str) :
  ~ In 47 (re_sub_class unsafe_chars (lit "_") s).
Proof.
  unfold re_sub_class. rewrite in_flat_map. intros [c [_ H]].
  destruct (mem c unsafe_chars) eqn:Hm.
  - destruct H as [H|[]]. discriminate.
  - destruct H as [->|[]]. vm_compute in Hm. discriminate.
Qed.

Lemma image_filename_shape (E : env) (url : value) (filename : str) :
  image_filename E url = Ok filename -> ~ In 47 filename /\ In 95 filename.
Proof.
  unfold image_filename. intros H.
  destruct (image_identity E url) as [[uuid name]| | |] eqn:Hid; try discriminate.
  cbn [bind fst snd] in H. injection H as <-.
  assert (Hu : ~ In 47 uuid).
  { unfold image_identity in Hid.
    destruct (call (urlparse_path E url)) as [parsed| | |]; try discriminate.
    cbn [bind] in Hid.
    destruct (2 <=? List.length (split_on 47 parsed))%nat.
    - injection Hid as <- _. apply nth_no_sep. intros p. apply split_on_no_sep.
    - destruct (str_method url) as [u| | |]; try discriminate. cbn [bind] in Hid.
      destruct (call (md5_digest E u)) as [digest| | |]; try discriminate.
      cbn [bind] in Hid. injection Hid as <- _.
      intros Hin. apply (hexdigest_no_slash digest).
      rewrite <- (firstn_skipn 12). apply in_or_app. now left. }
  split.
  - intros Hin. apply in_app_or in Hin. destruct Hin as [Hin|Hin]; [contradiction|].
    destruct Hin as [Hin|Hin]; [discriminate|].
    now apply re_sub_class_no_slash in Hin.
  - apply in_or_app. right. now left.
Qed.

Lemma parse_path_plain (f : str) :
  ~ In 47 f -> In 95 f -> parse_path f = mk_path 0 [f].
Proof.
  intros Hs Hu. unfold parse_path. rewrite (split_on_plain 47 f Hs).
  assert (L : leading_slashes f = O).
  { destruct f as [|c f]; [reflexivity|]. simpl.
    destruct (c =? 47) eqn:Hc; [|reflexivity].
    apply N.eqb_eq in Hc. subst. exfalso. apply Hs. now left. }
  rewrite L. cbn [filter].
  assert (K : keep_segment f = true).
  { unfold keep_segment. destruct f as [|c [|c' f]].
    - destruct Hu.
    - destruct Hu as [->|[]]. reflexivity.
    - change (lit ".") with [46]. cbn [str_eqb negb andb].
      now rewrite andb_false_r. }
  now rewrite K.
Qed.

Lemma images_dir_of_eq (dir : path) :
  images_dir_of dir = mk_path (anchor dir) (segs dir ++ [lit "images"]).
Proof. reflexivity. Qed.

Lemma image_path_of_eq (dir : path) (f : str) :
  ~ In 47 f -> In 95 f ->
  image_path_of dir f = mk_path (anchor dir) ((segs dir ++ [lit "images"]) ++ [f]).
Proof.
  intros Hs Hu. unfold image_path_of, path_join at 1.
  rewrite (parse_path_plain f Hs Hu). rewrite images_dir_of_eq. reflexivity.
Qed.

Lemma has_dotdot_images (dir : path) :
  has_dotdot dir = false -> has_dotdot (images_dir_of dir) = false.
Proof.
  intros H. rewrite images_dir_of_eq. unfold has_dotdot in *. cbn [segs].
  rewrite existsb_app, H. reflexivity.
Qed.

Lemma has_dotdot_image_path (dir : path) (f : str) :
  ~ In 47 f -> In 95 f -> has_dotdot dir = false ->
  has_dotdot (image_path_of dir f) = false.
Proof.
  intros Hs Hu H. rewrite (image_path_of_eq dir f Hs Hu).
  pose proof (has_dotdot_images dir H) as Hi. rewrite images_dir_of_eq in Hi.
  unfold has_dotdot in *. cbn [segs] in *. rewrite existsb_app, Hi. cbn [existsb orb].
  rewrite orb_false_r. apply str_eqb_neq. intros ->.
  destruct Hu as [Hu|[Hu|[]]]; discriminate.
Qed.

(** ** The file system *)

Lemma segs_eqb_eq (a b : list str) : segs_eqb a b = true <-> a = b.
Proof.
  revert b. induction a as [|x a IH]; intros [|y b]; simpl; split;
    try congruence; try reflexivity.
  - intros H. apply andb_true_iff in H. destruct H as [Hx Hab].
    apply str_eqb_eq in Hx. apply IH in Hab. congruence.
  - intros H. injection H as -> ->. rewrite str_eqb_refl. simpl. now apply IH.
Qed.

Lemma path_eqb_eq (p q : path) : path_eqb p q = true <-> p = q.
Proof.
  unfold path_eqb. destruct p as [a s], q as [b t]. simpl. split.
  - intros H. apply andb_true_iff in H. destruct H as [Ha Hs].
    apply N.eqb_eq in Ha. apply segs_eqb_eq in Hs. congruence.
  - intros H. injection H as -> ->. now rewrite N.eqb_refl, segs_eqb_refl.
Qed.

Lemma fs_lookup_set_other (p q : path) (n : node) (fs : filesystem) :
  path_eqb q p = false -> fs_lookup q (fs_set p n fs) = fs_lookup q fs.
Proof.
  intros H. unfold fs_set. cbn [fs_lookup]. rewrite H.
  induction fs as [|[r m] fs IH]; [reflexivity|]. cbn [filter fst fs_lookup].
  destruct (path_eqb p r) eqn:Hpr; cbn [negb].
  - apply path_eqb_eq in Hpr. subst r. now rewrite H.
  - cbn [fs_lookup]. now rewrite IH.
Qed.

Lemma mkdir_walk_keeps (a : N) (todo : list str) :
  forall done fs fs',
    mkdir_walk a done todo fs = Ok fs' ->
    forall q n, fs_lookup q fs = Some n -> fs_lookup q fs' = Some n.
Proof.
  induction todo as [|s todo IH]; cbn [mkdir_walk]; intros done fs fs' H q n Hq.
  - now injection H as <-.
  - destruct (fs_lookup (mk_path a (done ++ [s])) fs) as [[| |]|] eqn:Hp;
      try discriminate.
    + now apply (IH _ _ _ H).
    + apply (IH _ _ _ H). cbn [fs_lookup].
      destruct (path_eqb q (mk_path a (done ++ [s]))) eqn:Heq; [|assumption].
      apply path_eqb_eq in Heq. subst q. congruence.
Qed.

Lemma mkdir_walk_last (a : N) (todo : list str) :
  forall done fs fs',
    todo <> [] ->
    mkdir_walk a done todo fs = Ok fs' ->
    fs_lookup (mk_path a (done ++ todo)) fs' = Some Dir.
Proof.
  induction todo as [|s todo IH]; intros done fs fs' Hne H; [congruence|].
  cbn [mkdir_walk] in H.
  assert (Step : forall fs1, fs_lookup (mk_path a (done ++ [s])) fs1 = Some Dir ->
                             mkdir_walk a (done ++ [s]) todo fs1 = Ok fs' ->
                             fs_lookup (mk_path a (done ++ s :: todo)) fs' = Some Dir).
  { intros fs1 H1 Hw. destruct todo as [|t todo].
    - cbn [mkdir_walk] in Hw. now injection Hw as <-.
    - replace (done ++ s :: t :: todo) with ((done ++ [s]) ++ t :: todo)
        by now rewrite <- app_assoc.
      apply (IH _ _ _ ltac:(discriminate) Hw). }
  destruct (fs_lookup (mk_path a (done ++ [s])) fs) as [[| |]|] eqn:Hp; try discriminate.
  - now apply (Step fs).
  - apply (Step ((mk_path a (done ++ [s]), Dir) :: fs)); [|exact H].
    cbn [fs_lookup]. now rewrite path_eqb_refl.
Qed.

Lemma mkdir_walk_again (a : N) (todo : list str) :
  forall done fs fs' fs2,
    mkdir_walk a done todo fs = Ok fs' ->
    (forall q, fs_lookup q fs' = Some Dir -> fs_lookup q fs2 = Some Dir) ->
    mkdir_walk a done todo fs2 = Ok fs2.
Proof.
  induction todo as [|s todo IH]; cbn [mkdir_walk]; intros done fs fs' fs2 H Hdirs;
    [reflexivity|].
  assert (Hp : fs_lookup (mk_path a (done ++ [s])) fs' = Some Dir).
  { destruct (fs_lookup (mk_path a (done ++ [s])) fs) as [[| |]|] eqn:Hp;
      try discriminate.
    - now apply (mkdir_walk_keeps _ _ _ _ _ H).
    - apply (mkdir_walk_keeps _ _ _ _ _ H). cbn [fs_lookup].
      now rewrite path_eqb_refl. }
  rewrite (Hdirs _ Hp).
  destruct (fs_lookup (mk_path a (done ++ [s])) fs) as [[| |]|]; try discriminate;
    now apply (IH _ _ _ _ H).
Qed.

Lemma mkdir_walk_modelled (a : N) (todo : list str) :
  forall done fs,
    (exists fs', mkdir_walk a done todo fs = Ok fs')
    \/ mkdir_walk a done todo fs = Raise OSError.
Proof.
  induction todo as [|s todo IH]; cbn [mkdir_walk]; intros done fs; [eauto|].
  destruct (fs_lookup (mk_path a (done ++ [s])) fs) as [[| |]|]; auto.
Qed.

Lemma mkdir_inv (p : path) (w w0 : world) :
  mkdir p w = (Ok tt, w0) ->
  has_dotdot p = false
  /\ mkdir_walk (anchor p) [] (segs p) (fs w) = Ok (fs w0)
  /\ trace w0 = trace w.
Proof.
  unfold mkdir. destruct (has_dotdot p); [discriminate|].
  destruct (mkdir_walk (anchor p) [] (segs p) (fs w)) as [fs'| | |]; try discriminate.
  intros H. injection H as <-. auto.
Qed.

Lemma open_w_ok (p : path) (n : node) (w : world) :
  has_dotdot p = false -> segs p <> [] ->
  node_at (parent p) (fs w) = Some Dir ->
  fs_lookup p (fs w) = None ->
  open_w p n w = (Ok tt, mk_world (fs_set p n (fs w)) (FileOpened p :: trace w)).
Proof.
  intros Hd Hs Hp Hn. unfold open_w. rewrite Hd, Hp, Hn.
  destruct (segs p); [congruence | reflexivity].
Qed.

Lemma node_at_lookup (p : path) (fs : filesystem) :
  segs p <> [] -> node_at p fs = fs_lookup p fs.
Proof. unfold node_at. destruct (segs p); [congruence | reflexivity]. Qed.

(** ** Assets *)

(** C9: once an asset has been fetched and written, fetching the same URL
    again finds the file, neither requests nor writes anything, and gives
    the same local path: over the two fetches the file is opened for
    writing once and requested once. *)
Theorem download_image_deduplicates (E : env) (url : value) (dir : path)
        (w w0 : world) (filename : str) (content : list N) :
  image_filename E url = Ok filename ->
  requests_get E url = Reply content ->
  mkdir (images_dir_of dir) w = (Ok tt, w0) ->
  fs_lookup (image_path_of dir filename) (fs w0) = None ->
  exists w1 w2,
    download_image E url dir w = (Ok (VStr (lit "images/" ++ filename)), w1)
    /\ download_image E url dir w1 = (Ok (VStr (lit "images/" ++ filename)), w2)
    /\ fs_lookup (image_path_of dir filename) (fs w1) = Some (BinFile content)
    /\ fs w2 = fs w1
    /\ times_opened (image_path_of dir filename) (trace w2)
       = S (times_opened (image_path_of dir filename) (trace w))
    /\ times_requested (trace w2) = S (times_requested (trace w)).
Proof.
  intros Hname Hget Hmk Hnew.
  destruct (image_filename_shape E url filename Hname) as [Hslash Hunder].
  destruct (mkdir_inv _ _ _ Hmk) as [Hdd [Hwalk Htr]].
  set (ip := image_path_of dir filename) in *.
  assert (Hip : ip = mk_path (anchor dir) ((segs dir ++ [lit "images"]) ++ [filename])).
  { apply image_path_of_eq; assumption. }
  assert (Hsegs : segs ip <> []).
  { rewrite Hip. cbn [segs]. intros H. now apply app_eq_nil in H as [_ H]. }
  assert (Hipdd : has_dotdot ip = false).
  { rewrite Hip. rewrite images_dir_of_eq in Hdd. unfold has_dotdot in *. cbn [segs] in *.
    rewrite existsb_app, Hdd. cbn [existsb orb]. rewrite orb_false_r.
    apply str_eqb_neq. intros ->. destruct Hunder as [Hu|[Hu|[]]]; discriminate. }
  assert (Hparent : parent ip = images_dir_of dir).
  { rewrite Hip, images_dir_of_eq. unfold parent. cbn [anchor segs].
    now rewrite removelast_last. }
  assert (Hdir0 : fs_lookup (images_dir_of dir) (fs w0) = Some Dir).
  { rewrite images_dir_of_eq in Hwalk |- *. cbn [anchor segs] in Hwalk.
    apply (mkdir_walk_last (anchor dir) (segs dir ++ [lit "images"]) [] (fs w) (fs w0));
      [|exact Hwalk].
    intros H. apply app_eq_nil in H. destruct H as [_ H]. discriminate. }
  assert (Hisegs : segs (images_dir_of dir) <> []).
  { rewrite images_dir_of_eq. cbn [segs]. intros H. now apply app_eq_nil in H as [_ H]. }
  set (fs1 := fs_set ip (BinFile ([] ++ content)) (fs_set ip (BinFile []) (fs w0))).
  set (tr1 := FileOpened ip :: HttpGet url
              :: Printed (lit "    📥 画像ダウンロード: " ++ filename) :: trace w0).
  assert (Hkeep : forall q, fs_lookup q (fs w0) = Some Dir -> fs_lookup q fs1 = Some Dir).
  { intros q Hq. unfold fs1.
    assert (Hne : path_eqb q ip = false).
    { destruct (path_eqb q ip) eqn:Heq; [|reflexivity].
      apply path_eqb_eq in Heq. subst q. congruence. }
    now rewrite !(fs_lookup_set_other _ _ _ _ Hne). }
  assert (First : download_image E url dir w
                  = (Ok (VStr (lit "images/" ++ filename)), mk_world fs1 tr1)).
  { unfold download_image, try_except. unfold bindM at 1. unfold lift at 1.
    rewrite Hname. unfold bindM at 1.
    change (path_join dir (lit "images")) with (images_dir_of dir).
    rewrite Hmk.
    change (path_join (images_dir_of dir) filename) with ip.
    unfold bindM at 1. unfold path_exists at 1. rewrite Hipdd.
    rewrite (node_at_lookup ip _ Hsegs), Hnew.
    unfold bindM at 1. unfold print, emit at 1. unfold bindM at 1. unfold emit at 1.
    unfold bindM at 1. unfold lift at 1. rewrite Hget. cbn [call].
    unfold bindM at 1.
    rewrite (open_w_ok ip (BinFile []));
      [| assumption | assumption
       | cbn [fs]; rewrite Hparent, (node_at_lookup _ _ Hisegs); exact Hdir0
       | cbn [fs]; exact Hnew ].
    unfold bindM at 1. unfold write_bytes_to. cbn [fs trace].
    rewrite fs_lookup_set. unfold ret. reflexivity. }
  assert (Second : download_image E url dir (mk_world fs1 tr1)
                   = (Ok (VStr (lit "images/" ++ filename)),
                      mk_world fs1 (Printed (lit "    ⏭️ 画像スキップ（既存）: " ++ filename)
                                          :: tr1))).
  { unfold download_image, try_except. unfold bindM at 1. unfold lift at 1.
    rewrite Hname. unfold bindM at 1.
    change (path_join dir (lit "images")) with (images_dir_of dir).
    unfold mkdir. rewrite Hdd. cbn [fs trace].
    rewrite (mkdir_walk_again _ _ _ _ _ fs1 Hwalk Hkeep).
    change (path_join (images_dir_of dir) filename) with ip.
    unfold bindM at 1. unfold path_exists at 1. rewrite Hipdd. cbn [fs].
    rewrite (node_at_lookup ip _ Hsegs). unfold fs1 at 1. rewrite fs_lookup_set.
    unfold bindM at 1. unfold print, emit, ret. reflexivity. }
  exists (mk_world fs1 tr1),
         (mk_world fs1 (Printed (lit "    ⏭️ 画像スキップ（既存）: " ++ filename) :: tr1)).
  split; [exact First|]. split; [exact Second|]. split; [|split; [reflexivity|split]].
  - cbn [fs]. unfold fs1. now rewrite fs_lookup_set.
  - cbn [trace times_opened]. unfold tr1. cbn [times_opened].
    rewrite path_eqb_refl, Htr. reflexivity.
  - cbn [trace times_requested]. unfold tr1. cbn [times_requested]. now rewrite Htr.
Qed.

(** ** Blocks *)

Lemma ends_nl : ends_with_newline [newline].
Proof. now exists []. Qed.

Lemma ends_app (a b : str) : ends_with_newline b -> ends_with_newline (a ++ b).
Proof. intros [t ->]. exists (a ++ t). now rewrite app_assoc. Qed.

Lemma ends_cons (c : N) (b : str) : ends_with_newline b -> ends_with_newline (c :: b).
Proof. intros [t ->]. now exists (c :: t). Qed.

Create HintDb blocks.
#[local] Hint Resolve ends_nl ends_app ends_cons : blocks.

Lemma heading_fragment (prefix key : string) (block : value) :
  with_rich_text key block = true ->
  exists s, heading prefix key block = Ok s /\ ends_with_newline s.
Proof.
  intros H. unfold heading.
  destruct (get2_field _ _ _ _ (VList []) H eq_refl) as [texts [Hg Hr]].
  destruct (rich_text_to_markdown_str texts Hr) as [t Ht].
  rewrite Hg. cbn [bind]. rewrite Ht. cbn [bind]. eauto with blocks.
Qed.

Lemma to_do_fragment (block : value) :
  with_rich_text "to_do" block = true ->
  exists s,
    (texts <- get2 block "to_do" "rich_text" (VList []) ;;
     checked <- get2 block "to_do" "checked" (VBool false) ;;
     let checkbox := if truthy checked then lit "[x]" else lit "[ ]" in
     t <- rich_text_to_markdown texts ;;
     Ok (lit "- " ++ checkbox ++ lit " " ++ t ++ [newline])) = Ok s
    /\ ends_with_newline s.
Proof.
  intros H.
  destruct (get2_field _ _ _ _ (VList []) H eq_refl) as [texts [Hg Hr]].
  destruct (rich_text_to_markdown_str texts Hr) as [t Ht].
  rewrite Hg. cbn [bind].
  assert (Hc : exists c, get2 block "to_do" "checked" (VBool false) = Ok c).
  { unfold get2 in *. destruct (get block "to_do" (VDict [])) as [inner| | |];
      try discriminate. cbn [bind] in *. destruct inner; try discriminate.
    rewrite get_dict. eauto. }
  destruct Hc as [c Hc]. rewrite Hc. cbn [bind]. rewrite Ht. cbn [bind].
  eauto 10 with blocks.
Qed.

Lemma toggle_fragment (block : value) :
  with_rich_text "toggle" block = true ->
  exists s,
    (texts <- get2 block "toggle" "rich_text" (VList []) ;;
     t <- rich_text_to_markdown texts ;;
     Ok (lit "<details><summary>" ++ t ++ lit "</summary>" ++ [newline]
         ++ lit "</details>" ++ [newline])) = Ok s
    /\ ends_with_newline s.
Proof.
  intros H.
  destruct (get2_field _ _ _ _ (VList []) H eq_refl) as [texts [Hg Hr]].
  destruct (rich_text_to_markdown_str texts Hr) as [t Ht].
  rewrite Hg. cbn [bind]. rewrite Ht. cbn [bind]. eauto 10 with blocks.
Qed.

Lemma code_fragment (block : value) :
  with_rich_text "code" block && field "code" (field "language" is_str) block = true ->
  exists s,
    (texts <- get2 block "code" "rich_text" (VList []) ;;
     language <- get2 block "code" "language" (VStr []) ;;
     code <- rich_text_to_markdown texts ;;
     fstr [Lit "```"; Val language; NL; Val (VStr code); NL; Lit "```"; NL]) = Ok s
    /\ ends_with_newline s.
Proof.
  intros H. apply andb_true_iff in H. destruct H as [H Hl].
  destruct (get2_field _ _ _ _ (VList []) H eq_refl) as [texts [Hg Hr]].
  destruct (rich_text_to_markdown_str texts Hr) as [t Ht].
  destruct (get2_field _ _ _ _ (VStr []) Hl eq_refl) as [language [Hlg Hls]].
  destruct (is_str_inv language Hls) as [lang ->].
  rewrite Hg. cbn [bind]. rewrite Hlg. cbn [bind]. rewrite Ht.
  cbn [bind fstr py_str]. eauto 12 with blocks.
Qed.

Lemma callout_fragment (block : value) :
  with_rich_text "callout" block
  && field "callout" (field "icon" (nullable (field "emoji" is_str))) block = true ->
  exists s,
    (texts <- get2 block "callout" "rich_text" (VList []) ;;
     icon <- get2 block "callout" "icon" (VDict []) ;;
     emoji <- (if truthy icon then get icon "emoji" (VStr (lit "💡"))
               else Ok (VStr (lit "💡"))) ;;
     t <- rich_text_to_markdown texts ;;
     fstr [Lit "> "; Val emoji; Lit " "; Val (VStr t); NL]) = Ok s
    /\ ends_with_newline s.
Proof.
  intros H. apply andb_true_iff in H. destruct H as [H Hi].
  destruct (get2_field _ _ _ _ (VList []) H eq_refl) as [texts [Hg Hr]].
  destruct (rich_text_to_markdown_str texts Hr) as [t Ht].
  destruct (get2_field _ _ _ _ (VDict []) Hi eq_refl) as [icon [Hig His]].
  rewrite Hg. cbn [bind]. rewrite Hig. cbn [bind].
  assert (He : exists e, (if truthy icon then get icon "emoji" (VStr (lit "💡"))
                          else Ok (VStr (lit "💡"))) = Ok (VStr e)).
  { destruct (nullable_inv _ _ His) as [->|Hf]; [cbn [truthy]; eauto|].
    destruct (truthy icon); [|eauto].
    destruct (field_get _ _ _ (VStr (lit "💡")) Hf eq_refl) as [x [Hx Hxs]].
    destruct (is_str_inv x Hxs) as [e ->]. eauto. }
  destruct He as [e ->]. cbn [bind]. rewrite Ht. cbn [bind fstr py_str].
  eauto 12 with blocks.
Qed.

Lemma bookmark_fragment (block : value) :
  field "bookmark" (field "url" is_str) block = true ->
  exists s,
    (url <- get2 block "bookmark" "url" (VStr []) ;; fstr [Lit "🔗 "; Val url; NL]) = Ok s
    /\ ends_with_newline s.
Proof.
  intros H.
  destruct (get2_field _ _ _ _ (VStr []) H eq_refl) as [url [Hg Hs]].
  destruct (is_str_inv url Hs) as [u ->].
  rewrite Hg. cbn [bind fstr py_str]. eauto 12 with blocks.
Qed.

Lemma nested_reference_fragment (key icon ext : string) (block parent_title : value) :
  field key (field "title" is_str) block && field "id" is_str block = true ->
  nullable is_str parent_title = true ->
  exists s, nested_reference key icon ext block parent_title = Ok s
            /\ ends_with_newline s.
Proof.
  intros H Hp. apply andb_true_iff in H. destruct H as [Ht Hi].
  destruct (get2_field _ _ _ _ (VStr (lit "Untitled")) Ht eq_refl) as [title [Hg Hs]].
  destruct (is_str_inv title Hs) as [t ->].
  destruct (field_get _ _ _ (VStr []) Hi eq_refl) as [id [Hid Hids]].
  destruct (is_str_inv id Hids) as [i ->].
  unfold nested_reference. rewrite Hg. cbn [bind]. rewrite Hid. cbn [bind str_method].
  destruct (nullable_inv _ _ Hp) as [->|Hps].
  - cbn [truthy andb fstr py_str bind]. eauto 12 with blocks.
  - destruct (is_str_inv parent_title Hps) as [p ->].
    destruct (truthy (VStr p) && truthy (VStr (replace 45 [] i))).
    + rewrite !sanitize_filename_str. cbn [bind fstr py_str]. eauto 12 with blocks.
    + cbn [fstr py_str bind]. eauto 12 with blocks.
Qed.

(** *** Computations that stay inside the model *)

Lemma settles_bindM {A B} (P : A -> Prop) (Q : B -> Prop) (c : M A) (k : A -> M B)
      (w : world) :
  settles P (c w) ->
  (forall a w', P a -> settles Q (k a w')) ->
  settles Q (bindM c k w).
Proof.
  unfold settles, bindM. destruct (c w) as [[a| | |] w']; cbn [fst settled]; auto.
Qed.

Lemma settles_lift {A} (P : A -> Prop) (c : outcome A) (w : world) :
  settled P c -> settles P (lift c w).
Proof. trivial. Qed.

Lemma settled_call {A} (r : reply A) : settled (fun _ => True) (call r).
Proof. destruct r; exact I. Qed.

Lemma settles_emit (e : event) (w : world) : settles (fun _ => True) (emit e w).
Proof. exact I. Qed.

Lemma settles_mkdir (p : path) (w : world) :
  has_dotdot p = false -> settles (fun _ => True) (mkdir p w).
Proof.
  intros H. unfold settles, mkdir. rewrite H.
  destruct (mkdir_walk_modelled (anchor p) (segs p) [] (fs w)) as [[fs' ->]| ->];
    exact I.
Qed.

Lemma settles_path_exists (p : path) (w : world) :
  has_dotdot p = false -> settles (fun _ => True) (path_exists p w).
Proof. intros H. unfold settles, path_exists. rewrite H. exact I. Qed.

Lemma settles_open_w (p : path) (n : node) (w : world) :
  has_dotdot p = false -> settles (fun _ => True) (open_w p n w).
Proof.
  intros H. unfold settles, open_w. rewrite H.
  destruct (segs p); [exact I|].
  destruct (node_at (parent p) (fs w)) as [[| |]|];
    destruct (fs_lookup p (fs w)) as [[| |]|]; exact I.
Qed.

Lemma settles_write_bytes_to (p : path) (b : list N) (w : world) :
  settles (fun _ => True) (write_bytes_to p b w).
Proof.
  unfold settles, write_bytes_to. destruct (fs_lookup p (fs w)) as [[| |]|]; exact I.
Qed.

Lemma image_identity_settled (E : env) (url : value) :
  settled (fun _ => True) (image_identity E url).
Proof.
  unfold image_identity.
  destruct (urlparse_path E url) as [parsed|e]; cbn [call bind settled]; [|exact I].
  destruct (2 <=? List.length (split_on 47 parsed))%nat; [exact I|].
  destruct (str_method url) as [u| | |] eqn:Hu; cbn [bind settled]; try exact I;
    try (destruct url; discriminate).
  destruct (md5_digest E u); exact I.
Qed.

Lemma image_filename_settled (E : env) (url : value) :
  settled (fun f => ~ In 47 f /\ In 95 f) (image_filename E url).
Proof.
  pose proof (image_identity_settled E url) as Hid.
  destruct (image_filename E url) as [f| | |] eqn:H; cbn [settled]; auto.
  - now apply (image_filename_shape E url).
  - unfold image_filename in H.
    destruct (image_identity E url); cbn [bind settled] in *; try discriminate;
      contradiction.
  - unfold image_filename in H.
    destruct (image_identity E url); cbn [bind settled] in *; try discriminate;
      contradiction.
Qed.

Lemma try_except_settles {A} (P : A -> Prop) (c : M A) (h : exn -> M A) (w : world) :
  settles P (c w) ->
  (forall e w', exists a w'', h e w' = (Ok a, w'') /\ P a) ->
  exists a w', try_except c h w = (Ok a, w') /\ P a.
Proof.
  unfold settles, try_except. intros Hc Hh.
  destruct (c w) as [[a|e| |] w']; cbn [fst settled] in Hc; try contradiction.
  - eauto.
  - apply Hh.
Qed.

Lemma download_image_str (E : env) (u : str) (dir : path) (w : world) :
  has_dotdot dir = false ->
  exists v w', download_image E (VStr u) dir w = (Ok v, w') /\ is_str v = true.
Proof.
  intros Hd. unfold download_image.
  apply (try_except_settles (fun v => is_str v = true)).
  - eapply settles_bindM; [apply settles_lift, image_filename_settled|].
    intros f w1 [Hs Hu]. cbv beta.
    change (path_join dir (lit "images")) with (images_dir_of dir).
    change (path_join (images_dir_of dir) f) with (image_path_of dir f).
    pose proof (has_dotdot_image_path dir f Hs Hu Hd) as Hip.
    eapply settles_bindM; [apply settles_mkdir, has_dotdot_images, Hd|].
    intros _ w2 _.
    eapply settles_bindM; [apply settles_path_exists, Hip|].
    intros present w3 _. destruct present.
    + eapply settles_bindM; [apply settles_emit|]. intros _ w4 _. reflexivity.
    + eapply settles_bindM; [apply settles_emit|]. intros _ w4 _.
      eapply settles_bindM; [apply settles_emit|]. intros _ w5 _.
      eapply settles_bindM; [apply settles_lift, settled_call|]. intros content w6 _.
      eapply settles_bindM; [apply settles_open_w, Hip|]. intros _ w7 _.
      eapply settles_bindM; [apply settles_write_bytes_to|]. intros _ w8 _.
      reflexivity.
  - intros e w'. unfold bindM, emit, ret. eauto.
Qed.

Lemma table_fragment (E : env) (block : value) (w : world) :
  field "table" is_dict block = true ->
  (forall id response,
      get block "id" VNone = Ok id ->
      blocks_children_list E id VNone = Reply response ->
      field "results" (list_of well_formed_row) response = true) ->
  exists s w', convert_table_block E block w = (Ok s, w') /\ ends_with_newline s.
Proof.
  intros Ht Hrows.
  destruct (field_get _ _ _ (VDict []) Ht eq_refl) as [info [Hinfo Hd]].
  destruct (is_dict_inv info Hd) as [ti ->].
  assert (Hid : exists id, get block "id" VNone = Ok id).
  { destruct block; try discriminate. rewrite get_dict. eauto. }
  destruct Hid as [id Hid].
  unfold convert_table_block, bindM, lift. rewrite Hid, Hinfo. rewrite !get_dict.
  unfold try_except, table_body.
  destruct (blocks_children_list E id VNone) as [response|e] eqn:Hlist; cbn [call bind].
  - specialize (Hrows id response Hid Hlist).
    destruct (field_get _ _ _ (VList []) Hrows eq_refl) as [rows [Hr Hwf]].
    rewrite Hr. cbn [bind].
    destruct rows as [| | | | |l|]; try discriminate. cbn [list_of] in Hwf.
    destruct l as [|row0 rest].
    + cbn [truthy negb]. eauto 8 with blocks.
    + cbn [truthy negb iter bind table_rows_loop].
      cbn [forallb] in Hwf. apply andb_true_iff in Hwf. destruct Hwf as [H0 Hrest].
      destruct (row_cells_escaped row0 H0) as [Hty [Hk [cells0 [Hc0 _]]]].
      destruct (rows_cells_escaped rest Hrest) as [cells [Hcs _]].
      rewrite Hty. cbn [bind]. rewrite Hk. cbn [negb]. rewrite Hc0. cbn [bind].
      rewrite table_rows_loop_rest, Hcs. cbn [bind].
      eexists. eexists. split; [reflexivity|].
      apply ends_app. now exists [newline].
  - unfold emit, ret. eauto 8 with blocks.
Qed.

Lemma fstr_image_ends (caption : str) (target : value) :
  is_str target = true ->
  exists s, fstr [Lit "!["; Val (VStr caption); Lit "]("; Val target; Lit ")"; NL] = Ok s
            /\ ends_with_newline s.
Proof.
  intros H. destruct (is_str_inv target H) as [t ->]. cbn [fstr py_str bind].
  eauto 12 with blocks.
Qed.

(** A block of a kind outside the enumeration. *)
Lemma block_unknown (E : env) (d : list (str * value)) (out : option path)
      (parent_title : value) (w : world) (k : str) :
  type_of (VDict d) = VStr k ->
  (forall t, In t block_types -> k <> lit t) ->
  block_to_markdown E (VDict d) out parent_title w
  = (Ok (lit "[" ++ k ++ lit "]" ++ [newline]), w).
Proof.
  intros Hty Hk.
  assert (F : forall t, In t block_types -> eq_lit (VStr k) t = false).
  { intros t Hin. simpl. apply str_eqb_neq. now apply Hk. }
  unfold block_to_markdown, bindM, lift. rewrite get_type, Hty.
  rewrite !F by (simpl; tauto).
  reflexivity.
Qed.

(** Lift a pure fragment to the state-passing renderer. *)
Lemma lift_fragment (c : outcome str) (w : world) :
  (exists s, c = Ok s /\ ends_with_newline s) ->
  exists s w', lift c w = (Ok s, w') /\ ends_with_newline s.
Proof. intros [s [-> H]]. unfold lift. eauto. Qed.

(** C5: a well-formed block is rendered as a fragment that ends in a line
    break, so is not empty; a block of a kind outside the enumeration is
    rendered as its kind in square brackets and a line break. *)
Theorem block_to_markdown_fragment (E : env) (block : value) (out : option path)
        (parent_title : value) (w : world) :
  well_formed_block block = true ->
  nullable is_str parent_title = true ->
  (forall dir, out = Some dir -> has_dotdot dir = false) ->
  (eq_lit (type_of block) "table" = true ->
   forall id response,
     get block "id" VNone = Ok id ->
     blocks_children_list E id VNone = Reply response ->
     field "results" (list_of well_formed_row) response = true) ->
  (exists s w', block_to_markdown E block out parent_title w = (Ok s, w')
                /\ ends_with_newline s)
  /\ (forall k, type_of block = VStr k ->
                (forall t, In t block_types -> k <> lit t) ->
                block_to_markdown E block out parent_title w
                = (Ok (lit "[" ++ k ++ lit "]" ++ [newline]), w)).
Proof.
  unfold well_formed_block. intros H Hparent Hout Hrows.
  apply andb_true_iff in H. destruct H as [H Hb].
  apply andb_true_iff in H. destruct H as [Hd Hs].
  destruct block as [| | | | | |d]; try discriminate.
  split; [|intros k Hty Hk; now apply block_unknown].
  unfold block_to_markdown. unfold bindM at 1. unfold lift at 1.
  rewrite get_type.
  destruct (eq_lit (type_of (VDict d)) "paragraph").
  { now apply lift_fragment, heading_fragment. }
  destruct (eq_lit (type_of (VDict d)) "heading_1").
  { now apply lift_fragment, heading_fragment. }
  destruct (eq_lit (type_of (VDict d)) "heading_2").
  { now apply lift_fragment, heading_fragment. }
  destruct (eq_lit (type_of (VDict d)) "heading_3").
  { now apply lift_fragment, heading_fragment. }
  destruct (eq_lit (type_of (VDict d)) "bulleted_list_item").
  { now apply lift_fragment, heading_fragment. }
  destruct (eq_lit (type_of (VDict d)) "numbered_list_item").
  { now apply lift_fragment, heading_fragment. }
  destruct (eq_lit (type_of (VDict d)) "to_do").
  { now apply lift_fragment, to_do_fragment. }
  destruct (eq_lit (type_of (VDict d)) "toggle").
  { now apply lift_fragment, toggle_fragment. }
  destruct (eq_lit (type_of (VDict d)) "code").
  { now apply lift_fragment, code_fragment. }
  destruct (eq_lit (type_of (VDict d)) "quote").
  { now apply lift_fragment, heading_fragment. }
  destruct (eq_lit (type_of (VDict d)) "divider").
  { unfold ret. eauto 8 with blocks. }
  destruct (eq_lit (type_of (VDict d)) "callout").
  { now apply lift_fragment, callout_fragment. }
  destruct (eq_lit (type_of (VDict d)) "child_page").
  { now apply lift_fragment, nested_reference_fragment. }
  destruct (eq_lit (type_of (VDict d)) "child_database").
  { now apply lift_fragment, nested_reference_fragment. }
  destruct (eq_lit (type_of (VDict d)) "image").
  { destruct (field_get _ _ _ (VDict []) Hb eq_refl) as [image [Hi Himg]].
    unfold image_object in Himg.
    apply andb_true_iff in Himg. destruct Himg as [Himg Hcap].
    apply andb_true_iff in Himg. destruct Himg as [Himg Hfile].
    apply andb_true_iff in Himg. destruct Himg as [Hidict Hext].
    destruct (is_dict_inv image Hidict) as [im ->].
    destruct (get2_field _ _ _ _ (VStr []) Hext eq_refl) as [eu [Heu Heus]].
    destruct (get2_field _ _ _ _ (VStr []) Hfile eq_refl) as [fu [Hfu Hfus]].
    destruct (field_get _ _ _ (VList []) Hcap eq_refl) as [cap [Hc Hcr]].
    destruct (rich_text_to_markdown_str cap Hcr) as [caption Hcaption].
    unfold bindM at 1. unfold lift at 1. rewrite Hi.
    unfold bindM at 1. unfold lift at 1. rewrite get_type.
    assert (Target :
      forall w0, exists v w1,
        (if eq_lit (type_of (VDict im)) "external" then
           lift (get2 (VDict im) "external" "url" (VStr []))
         else
           url <~ lift (get2 (VDict im) "file" "url" (VStr [])) ;;
           match out with
           | Some dir =>
             if DOWNLOAD_IMAGES E && truthy url then download_image E url dir
             else ret url
           | None => ret url
           end) w0 = (Ok v, w1) /\ is_str v = true).
    { intros w0. destruct (eq_lit (type_of (VDict im)) "external").
      - unfold lift. rewrite Heu. eauto.
      - unfold bindM, lift. rewrite Hfu. destruct out as [dir|]; [|unfold ret; eauto].
        destruct (DOWNLOAD_IMAGES E && truthy fu); [|unfold ret; eauto].
        destruct (is_str_inv fu Hfus) as [u ->].
        apply download_image_str. now apply Hout. }
    destruct (Target w) as [v [w1 [Hv Hvs]]].
    unfold bindM at 1. rewrite Hv. unfold lift. rewrite Hc. cbn [bind].
    rewrite Hcaption. cbn [bind].
    destruct (fstr_image_ends caption v Hvs) as [s [Hs' He]]. rewrite Hs'. eauto. }
  destruct (eq_lit (type_of (VDict d)) "bookmark").
  { now apply lift_fragment, bookmark_fragment. }
  destruct (eq_lit (type_of (VDict d)) "table").
  { apply table_fragment; [assumption | now apply Hrows]. }
  destruct (is_str_inv _ Hs) as [k ->]. unfold lift. cbn [fstr py_str bind].
  eauto 12 with blocks.
Qed.

(** * Concrete runs *)

(** The sample workspace end to end: the run ends normally, the first and
    the third child have their files, the second has none. *)
Example three_children_one_missing :
  let w := snd (main sample_env 3 empty_world) in
  fst (main sample_env 3 empty_world) = Ok tt
  /\ fs_lookup (parse_path (lit "root_page/Parent/One c1.md")) (fs w)
     = Some (TextFile (lit "# One" ++ [newline; newline] ++ lit "Hello" ++ [newline]))
  /\ fs_lookup (parse_path (lit "root_page/Parent/Three c3.md")) (fs w)
     = Some (TextFile (lit "# Three" ++ [newline; newline] ++ lit "Hello" ++ [newline]))
  /\ fs_lookup (parse_path (lit "root_page/Parent/Two c2.md")) (fs w) = None
  /\ List.length (fs w) = 5%nat.
Proof. vm_compute. repeat split. Qed.

(** A multi-choice value is one cell, joined with a comma and a space and
    therefore quoted in the file; the same value is in the record's table. *)
Example multi_choice_cell :
  csv_fields [lit "Name"; lit "Tags"] record_tags = Ok [lit "Alpha"; lit "x, y"]
  /\ csv_line [lit "Alpha"; lit "x, y"]
     = lit "Alpha," ++ [dquote] ++ lit "x, y" ++ [dquote] ++ [13; 10]
  /\ get_page_properties_markdown record_tags
     = Ok (lit "| Tags |" ++ [newline] ++ lit "| --- |" ++ [newline]
           ++ lit "| x, y |" ++ [newline; newline] ++ lit "---" ++ [newline]).
Proof. vm_compute. repeat split. Qed.

(** C2 as stated fails: the second sample record has no [Tag], and its
    row shows [[None]] in that column, not an empty cell. *)
Lemma csv_missing_column_not_empty :
  csv_headers record_a = Ok [lit "Name"; lit "Tag"]
  /\ lacks record_b (lit "Tag")
  /\ csv_fields [lit "Name"; lit "Tag"] record_b = Ok [lit "Beta"; lit "[None]"]
  /\ csv_cell record_b (lit "Tag") <> Ok (VStr []).
Proof.
  split; [reflexivity|]. split.
  - exists [(lit "Name", title_prop "Beta")]. split; reflexivity.
  - split; [reflexivity|]. vm_compute. discriminate.
Qed.

Lemma export_database_to_csv_rows_witness :
  let csv_path := parse_path (lit "DB db1.csv") in
  exists w',
    export_database_to_csv [record_a; record_b] (VStr (lit "DB")) (lit "db1")
                           (mk_path 0 []) empty_world = (Ok tt, w')
    /\ fs_lookup csv_path (fs w')
       = Some (TextFile (lit "Name,Tag" ++ [13; 10] ++ lit "Alpha,High" ++ [13; 10]
                         ++ lit "Beta,[None]" ++ [13; 10])).
Proof.
  intros csv_path.
  destruct (export_database_to_csv_rows
              record_a [record_b] (VStr (lit "DB")) (lit "db1") (mk_path 0 [])
              empty_world
              (mk_world [(csv_path, TextFile [])] [FileOpened csv_path])
              [lit "Name"; lit "Tag"] (lit "DB")
              [[lit "Alpha"; lit "High"]; [lit "Beta"; lit "[None]"]]
              eq_refl eq_refl eq_refl eq_refl eq_refl)
    as [_ [_ [w' [Hrun Hfile]]]].
  exists w'. split; [exact Hrun | exact Hfile].
Defined.

Lemma extract_property_value_total_witness :
  extract_property_value (select_prop "High") = Ok (VStr (lit "High"))
  /\ (exists s, extract_property_value checkbox_without_value = Ok (VStr s)
                /\ In s absent_renderings)
  /\ extract_property_value button_prop = Ok (VStr (lit "[button]")).
Proof.
  split; [|split].
  - destruct (extract_property_value_total (select_prop "High") eq_refl)
      as [s [Hs _]]. rewrite Hs. vm_compute in Hs. injection Hs as <-. reflexivity.
  - destruct (extract_property_value_total checkbox_without_value eq_refl)
      as [s [Hs [Habsent _]]].
    exists s. split; [exact Hs|].
    apply (Habsent "checkbox"%string [(lit "type", VStr (lit "checkbox"))]);
      [reflexivity | simpl; tauto | reflexivity | reflexivity].
  - destruct (extract_property_value_total button_prop eq_refl)
      as [s [Hs [_ Hunknown]]].
    rewrite Hs. f_equal. f_equal.
    apply (Hunknown (lit "button")); [reflexivity|].
    intros ty Hin Heq. simpl in Hin.
    repeat (destruct Hin as [<-|Hin]; [vm_compute in Heq; discriminate|]).
    contradiction.
Defined.

Lemma block_to_markdown_fragment_witness :
  (exists s w', block_to_markdown table_env sample_table (Some OUTPUT_DIR) VNone
                                  empty_world = (Ok s, w')
                /\ ends_with_newline s)
  /\ block_to_markdown table_env synced_block None (VStr (lit "Parent")) empty_world
     = (Ok (lit "[" ++ lit "synced_block" ++ lit "]" ++ [newline]), empty_world).
Proof.
  split.
  - assert (Hdir : forall dir, Some OUTPUT_DIR = Some dir -> has_dotdot dir = false).
    { intros dir H. injection H as <-. reflexivity. }
    assert (Hrows : eq_lit (type_of sample_table) "table" = true ->
                    forall id response,
                      get sample_table "id" VNone = Ok id ->
                      blocks_children_list table_env id VNone = Reply response ->
                      field "results" (list_of well_formed_row) response = true).
    { intros _ id response _ H. injection H as <-. reflexivity. }
    exact (proj1 (block_to_markdown_fragment table_env sample_table (Some OUTPUT_DIR)
                                             VNone empty_world eq_refl eq_refl
                                             Hdir Hrows)).
  - assert (Hdir : forall dir, @None path = Some dir -> has_dotdot dir = false).
    { intros dir H. discriminate H. }
    assert (Hrows : eq_lit (type_of synced_block) "table" = true ->
                    forall id response,
                      get synced_block "id" VNone = Ok id ->
                      blocks_children_list table_env id VNone = Reply response ->
                      field "results" (list_of well_formed_row) response = true).
    { intros H. vm_compute in H. discriminate H. }
    apply (proj2 (block_to_markdown_fragment table_env synced_block None
                                             (VStr (lit "Parent")) empty_world
                                             eq_refl eq_refl Hdir Hrows)).
    + reflexivity.
    + intros t Hin Heq. simpl in Hin.
      repeat (destruct Hin as [<-|Hin]; [vm_compute in Heq; discriminate|]).
      contradiction.
Defined.

Lemma table_header_separator_witness :
  convert_table_block table_env sample_table empty_world
  = (Ok (lit "| a\|b | c |" ++ [newline] ++ lit "| --- | --- |" ++ [newline]
         ++ lit "| 1 | 2 |" ++ [newline; newline]), empty_world).
Proof.
  destruct (table_header_separator
              table_env sample_table empty_world (VStr (lit "t-1"))
              (VDict [(lit "has_column_header", VBool false);
                      (lit "has_row_header", VBool false)])
              (listing_page sample_rows None)
              (table_row_block [cell "a|b"; cell "c"])
              [table_row_block [cell "1"; cell "2"]]
              eq_refl eq_refl eq_refl eq_refl eq_refl eq_refl)
    as [cells0 [cells [H0 [Hrest [_ [Hrun _]]]]]].
  rewrite Hrun. vm_compute in H0. vm_compute in Hrest.
  injection H0 as <-. injection Hrest as <-. reflexivity.
Defined.

Lemma nested_reference_link_witness :
  block_to_markdown sample_env (child_page "c-1" "One") None (VStr (lit "Parent"))
                    empty_world
  = (Ok (lit "📄 [One](Parent/One%20c1.md)" ++ [newline]), empty_world)
  /\ block_to_markdown sample_env (child_database "d-1" "Tasks") None VNone empty_world
     = (Ok (lit "🗄️ [Tasks]" ++ [newline]), empty_world)
  /\ block_to_markdown sample_env (child_page "c-1" "One") None (VStr []) empty_world
     = (Ok (lit "📄 [One]" ++ [newline]), empty_world).
Proof.
  destruct (nested_reference_link
              sample_env (child_page "c-1" "One") None empty_world
              "child_page" "📄" ".md" (lit "One") (lit "c-1")
              (or_introl eq_refl) eq_refl eq_refl eq_refl)
    as [Hlinked [_ Hguard]].
  destruct (nested_reference_link
              sample_env (child_database "d-1" "Tasks") None empty_world
              "child_database" "🗄️" ".csv" (lit "Tasks") (lit "d-1")
              (or_intror (or_introl eq_refl)) eq_refl eq_refl eq_refl)
    as [_ [Hbare _]].
  split; [|split].
  - rewrite (Hlinked (lit "Parent")
                     ltac:(vm_compute; discriminate) ltac:(vm_compute; discriminate)).
    reflexivity.
  - rewrite Hbare. reflexivity.
  - rewrite (Hguard (VStr []) (or_introl eq_refl)). reflexivity.
Defined.

Lemma download_image_deduplicates_witness :
  exists w1 w2,
    download_image table_env sample_url OUTPUT_DIR empty_world
    = (Ok (VStr (lit "images/0a1b_photo.png")), w1)
    /\ download_image table_env sample_url OUTPUT_DIR w1
       = (Ok (VStr (lit "images/0a1b_photo.png")), w2)
    /\ fs w2 = fs w1
    /\ times_opened (image_path_of OUTPUT_DIR (lit "0a1b_photo.png")) (trace w2) = 1%nat
    /\ times_requested (trace w2) = 1%nat.
Proof.
  destruct (download_image_deduplicates
              table_env sample_url OUTPUT_DIR empty_world
              (mk_world [(images_dir_of OUTPUT_DIR, Dir); (OUTPUT_DIR, Dir)] [])
              (lit "0a1b_photo.png") [137; 80; 78; 71]
              eq_refl eq_refl eq_refl eq_refl)
    as [w1 [w2 [H1 [H2 [_ [Hfs [Hopened Hrequested]]]]]]].
  exists w1, w2. repeat split; assumption.
Defined.

Lemma get_page_properties_markdown_omits_witness :
  exists columns,
    get_page_properties_markdown sample_record = Ok (properties_table columns)
    /\ In (lit "Tag", lit "High") columns.
Proof.
  destruct (get_page_properties_markdown_omits
              sample_record
              [(lit "Name", title_prop "Alpha");
               (lit "Tag", select_prop "High");
               (lit "Note", VDict [(lit "type", VStr (lit "rich_text"));
                                   (lit "rich_text", VList [])])]
              eq_refl eq_refl)
    as [its [Hspec [_ Htable]]].
  assert (Hin : In (lit "Tag", lit "High") its).
  { apply Hspec. exists (lit "Tag"), (select_prop "High"). split; [simpl; tauto|].
    exists (lit "High"). repeat split. vm_compute. discriminate. }
  destruct (Htable ltac:(intros ->; destruct Hin)) as [columns [Hperm Hout]].
  exists columns. split; [exact Hout|].
  apply (Permutation_in _ (Permutation_sym Hperm) Hin).
Defined.

(** * Further properties of the script *)

(** ** The page title *)

Lemma get_page_title_loop_skips (before rest : list (str * value)) :
  Forall (fun kv => skipped_for_title (snd kv)) before ->
  get_page_title_loop (before ++ rest) = get_page_title_loop rest.
Proof.
  induction 1 as [|[name prop] before [ty [Hty Hskip]] _ IH]; [reflexivity|].
  cbn [app get_page_title_loop snd] in *. rewrite Hty. cbn [bind].
  destruct Hskip as [->|[t [Ht Hfalse]]]; [exact IH|].
  destruct (eq_lit ty "title"); [|exact IH].
  rewrite Ht. cbn [bind]. rewrite Hfalse. exact IH.
Qed.

(** X1: the title of a page is the plain text of the first run of the
    first title property whose list is not empty, the later runs being
    left out; with no such property the page is called Untitled. *)
Theorem get_page_title_first_run (page : value) (d before : list (str * value)) :
  get page "properties" (VDict []) = Ok (VDict d) ->
  Forall (fun kv => skipped_for_title (snd kv)) before ->
  (d = before -> get_page_title page = Ok (VStr (lit "Untitled")))
  /\ (forall name prop run more after,
         d = before ++ (name, prop) :: after ->
         eq_lit (type_of prop) "title" = true ->
         get prop "title" (VList []) = Ok (VList (run :: more)) ->
         get_page_title page = get run "plain_text" (VStr (lit "Untitled"))).
Proof.
  intros Hp Hskip. unfold get_page_title. rewrite Hp. cbn [bind items]. split.
  - intros ->. rewrite <- (app_nil_r before).
    now rewrite (get_page_title_loop_skips before [] Hskip).
  - intros name prop run more after -> Hty Ht.
    rewrite (get_page_title_loop_skips before _ Hskip).
    cbn [get_page_title_loop].
    assert (Hg : get prop "type" VNone = Ok (type_of prop)).
    { destruct prop; try discriminate. reflexivity. }
    rewrite Hg. cbn [bind]. rewrite Hty, Ht. reflexivity.
Qed.

Lemma get_page_title_first_run_witness :
  get_page_title two_run_page = Ok (VStr (lit "Hello "))
  /\ get_page_title untitled_page = Ok (VStr (lit "Untitled")).
Proof.
  assert (Hskip : Forall (fun kv => skipped_for_title (snd kv)) untitled_props).
  { constructor; [|constructor]. exists (VStr (lit "select")).
    split; [reflexivity|]. left. reflexivity. }
  split.
  - rewrite (proj2 (get_page_title_first_run two_run_page two_run_props untitled_props
                                             eq_refl Hskip)
                   (lit "Name") two_run_title (text_run "Hello ") [text_run "World"] []
                   eq_refl eq_refl eq_refl).
    reflexivity.
  - exact (proj1 (get_page_title_first_run untitled_page untitled_props untitled_props
                                           eq_refl Hskip) eq_refl).
Defined.

(** ** Rich text *)

Lemma mapM_app {A B} (f : A -> outcome B) (a b : list A) (xs ys : list B) :
  mapM f a = Ok xs -> mapM f b = Ok ys -> mapM f (a ++ b) = Ok (xs ++ ys).
Proof.
  revert xs. induction a as [|x a IH]; cbn [mapM app]; intros xs Ha Hb.
  - now injection Ha as <-.
  - destruct (f x) as [y| | |]; try discriminate. cbn [bind] in *.
    destruct (mapM f a) as [r| | |]; try discriminate. cbn [bind] in *.
    injection Ha as <-. now rewrite (IH r eq_refl Hb).
Qed.

Lemma join_empty_sep (l : list str) : join [] l = List.concat l.
Proof.
  induction l as [|p [|q l] IH]; [reflexivity | simpl; now rewrite app_nil_r |].
  change (join [] (p :: q :: l)) with (p ++ [] ++ join [] (q :: l)).
  rewrite IH. reflexivity.
Qed.

Lemma join_values_inv (sep : str) (vs : list value) (s : str) :
  join_values sep vs = Ok s -> exists ss, vs = map VStr ss /\ s = join sep ss.
Proof.
  unfold join_values.
  destruct (mapM (fun v => match v with VStr s => Ok s | _ => Raise TypeError end) vs)
    as [ss| | |] eqn:H; try discriminate.
  cbn [bind]. intros E. injection E as <-. exists ss. split; [|reflexivity].
  revert ss H. induction vs as [|v vs IH]; cbn [mapM]; intros ss H.
  - now injection H as <-.
  - destruct v; try discriminate. cbn [bind] in H.
    destruct (mapM _ vs) as [r| | |]; try discriminate. cbn [bind] in H.
    injection H as <-. cbn [map]. now rewrite (IH r eq_refl).
Qed.

(** X2: rendering rich text is a homomorphism: the rendering of two lists
    of runs put end to end is the two renderings put end to end. *)
Theorem rich_text_to_markdown_app (a b : list value) (sa sb : str) :
  rich_text_to_markdown (VList a) = Ok sa ->
  rich_text_to_markdown (VList b) = Ok sb ->
  rich_text_to_markdown (VList (a ++ b)) = Ok (sa ++ sb).
Proof.
  unfold rich_text_to_markdown. cbn [iter bind]. intros Ha Hb.
  destruct (mapM rich_text_run a) as [ra| | |] eqn:Ea; try discriminate.
  destruct (mapM rich_text_run b) as [rb| | |] eqn:Eb; try discriminate.
  cbn [bind] in *.
  destruct (join_values_inv _ _ _ Ha) as [xs [-> ->]].
  destruct (join_values_inv _ _ _ Hb) as [ys [-> ->]].
  rewrite (mapM_app _ _ _ _ _ Ea Eb). cbn [bind].
  rewrite <- map_app, join_values_strs, !join_empty_sep.
  now rewrite concat_app.
Qed.

Lemma rich_text_to_markdown_app_witness :
  rich_text_to_markdown (VList ([text_run "Hello "] ++ [text_run "World"]))
  = Ok (lit "Hello " ++ lit "World").
Proof.
  exact (rich_text_to_markdown_app [text_run "Hello "] [text_run "World"]
                                   (lit "Hello ") (lit "World") eq_refl eq_refl).
Defined.

Lemma flag_off_get (k : string) (a : value) :
  flag_off k a = true -> exists f, get a k VNone = Ok f /\ truthy f = false.
Proof.
  unfold flag_off. destruct (get a k VNone) as [f| | |]; try discriminate.
  intros H. exists f. split; [reflexivity|]. now destruct (truthy f).
Qed.

Lemma rich_text_run_unstyled (run : value) :
  unstyled run = true ->
  exists s, get run "plain_text" (VStr []) = Ok (VStr s)
            /\ rich_text_run run = Ok (VStr s).
Proof.
  unfold unstyled. intros H.
  apply andb_true_iff in H. destruct H as [H Hh].
  apply andb_true_iff in H. destruct H as [Hp Ha].
  destruct (field_get _ _ _ (VStr []) Hp eq_refl) as [c [Hc Hcs]].
  destruct (is_str_inv c Hcs) as [s ->].
  destruct (field_get _ _ _ (VDict []) Ha eq_refl) as [a [Hget Hflags]].
  destruct (field_get _ _ _ VNone Hh eq_refl) as [h [Hhref Hoff]].
  apply andb_true_iff in Hflags. destruct Hflags as [Hflags Hcode].
  apply andb_true_iff in Hflags. destruct Hflags as [Hflags Hstrike].
  apply andb_true_iff in Hflags. destruct Hflags as [Hbold Hitalic].
  destruct (flag_off_get _ _ Hbold) as [f1 [G1 T1]].
  destruct (flag_off_get _ _ Hitalic) as [f2 [G2 T2]].
  destruct (flag_off_get _ _ Hstrike) as [f3 [G3 T3]].
  destruct (flag_off_get _ _ Hcode) as [f4 [G4 T4]].
  exists s. split; [assumption|].
  unfold rich_text_run. rewrite Hc. cbn [bind]. rewrite Hget. cbn [bind].
  rewrite G1. cbn [bind]. rewrite T1. cbn [bind].
  rewrite G2. cbn [bind]. rewrite T2. cbn [bind].
  rewrite G3. cbn [bind]. rewrite T3. cbn [bind].
  rewrite G4. cbn [bind]. rewrite T4. cbn [bind].
  rewrite Hhref. cbn [bind]. now destruct (truthy h).
Qed.

(** X3: on runs without style and without link the block renderer and the
    property extractor agree, for a title property and for a rich text
    property alike: each gives the plain texts of the runs put end to
    end. *)
Theorem unstyled_text_agrees (runs : list value) :
  forallb unstyled runs = true ->
  let s := List.concat (map plain_of runs) in
  rich_text_to_markdown (VList runs) = Ok s
  /\ extract_property_value (title_of runs) = Ok (VStr s)
  /\ extract_property_value (rich_text_of runs) = Ok (VStr s).
Proof.
  intros H s.
  assert (R : mapM rich_text_run runs = Ok (map VStr (map plain_of runs))
              /\ mapM (fun t => get t "plain_text" (VStr [])) runs
                 = Ok (map VStr (map plain_of runs))).
  { induction runs as [|run runs IH]; [now split|].
    cbn [forallb] in H. apply andb_true_iff in H. destruct H as [Hr Hrs].
    destruct (rich_text_run_unstyled run Hr) as [t [Hp Ht]].
    destruct (IH Hrs) as [H1 H2].
    assert (Hplain : plain_of run = t) by (unfold plain_of; now rewrite Hp).
    cbn [mapM map]. rewrite Hplain, Ht, Hp, H1, H2. now split. }
  destruct R as [H1 H2].
  assert (Hjoin : join_values [] (map VStr (map plain_of runs)) = Ok s).
  { rewrite join_values_strs, join_empty_sep. reflexivity. }
  split; [|split].
  - unfold rich_text_to_markdown. cbn [iter bind]. rewrite H1. cbn [bind].
    exact Hjoin.
  - unfold extract_property_value, title_of. rewrite get_dict.
    cbn [lookup bind]. decide_kinds.
    change (get (VDict [(lit "type", VStr (lit "title"));
                        (lit "title", VList runs)]) "title" (VList []))
      with (Ok (VList runs)).
    cbn [bind]. unfold plain_texts. cbn [iter bind]. rewrite H2. cbn [bind].
    now rewrite Hjoin.
  - unfold extract_property_value, rich_text_of. rewrite get_dict.
    cbn [lookup bind]. decide_kinds.
    change (get (VDict [(lit "type", VStr (lit "rich_text"));
                        (lit "rich_text", VList runs)]) "rich_text" (VList []))
      with (Ok (VList runs)).
    cbn [bind]. unfold plain_texts. cbn [iter bind]. rewrite H2. cbn [bind].
    now rewrite Hjoin.
Qed.

Lemma unstyled_text_agrees_witness :
  rich_text_to_markdown (VList [text_run "Hello "; text_run "World"])
  = Ok (lit "Hello World")
  /\ extract_property_value (title_of [text_run "Hello "; text_run "World"])
     = Ok (VStr (lit "Hello World"))
  /\ extract_property_value (rich_text_of [text_run "Hello "; text_run "World"])
     = Ok (VStr (lit "Hello World")).
Proof.
  exact (unstyled_text_agrees [text_run "Hello "; text_run "World"] eq_refl).
Defined.

(** ** Null payloads *)

Ltac null_cases Hin Habs :=
  simpl in Hin;
  repeat (destruct Hin as [<-|Hin];
          [cbn in Habs; cbn; rewrite ?Habs; reflexivity|]);
  contradiction.

(** X4: a property whose payload is an explicit null is rendered as the
    empty string when the payload is a scalar, and as the unchecked box for
    a checkbox; when the payload should be a list, a time or an object, the
    extractor raises instead. *)
Theorem extract_null_payload (ty : string) (d : list (str * value)) :
  type_of (VDict d) = VStr (lit ty) ->
  lookup (lit ty) d = Some VNone ->
  (In ty scalar_types -> extract_property_value (VDict d) = Ok (VStr []))
  /\ (ty = "checkbox"%string ->
      extract_property_value (VDict d) = Ok (VStr (lit "☐")))
  /\ (In ty list_types -> extract_property_value (VDict d) = Raise TypeError)
  /\ (In ty time_types -> extract_property_value (VDict d) = Raise TypeError)
  /\ (In ty object_types -> extract_property_value (VDict d) = Raise AttributeError).
Proof.
  intros Hty Habs. unfold extract_property_value. rewrite get_type, Hty.
  split; [|split; [|split; [|split]]].
  - intros Hin. null_cases Hin Habs.
  - intros ->. cbn in Habs. cbn. rewrite ?Habs. reflexivity.
  - intros Hin. null_cases Hin Habs.
  - intros Hin. null_cases Hin Habs.
  - intros Hin. null_cases Hin Habs.
Qed.

Lemma extract_null_payload_witness :
  extract_property_value
    (VDict [(lit "type", VStr (lit "url")); (lit "url", VNone)]) = Ok (VStr [])
  /\ extract_property_value
       (VDict [(lit "type", VStr (lit "people")); (lit "people", VNone)])
     = Raise TypeError
  /\ extract_property_value
       (VDict [(lit "type", VStr (lit "formula")); (lit "formula", VNone)])
     = Raise AttributeError.
Proof.
  split; [|split].
  - apply (proj1 (extract_null_payload
                    "url" [(lit "type", VStr (lit "url")); (lit "url", VNone)]
                    eq_refl eq_refl)).
    simpl. tauto.
  - apply (proj1 (proj2 (proj2 (extract_null_payload
                    "people" [(lit "type", VStr (lit "people")); (lit "people", VNone)]
                    eq_refl eq_refl)))).
    simpl. tauto.
  - apply (proj2 (proj2 (proj2 (proj2 (extract_null_payload
                    "formula" [(lit "type", VStr (lit "formula")); (lit "formula", VNone)]
                    eq_refl eq_refl))))).
    simpl. tauto.
Defined.

(** ** The order of the property table *)

Lemma str_leb_total (a b : str) : str_leb a b = false -> str_leb b a = true.
Proof.
  revert b. induction a as [|x a IH]; intros [|y b]; simpl; try congruence.
  destruct (x <? y) eqn:Hxy; [discriminate|].
  destruct (y <? x) eqn:Hyx; [reflexivity|]. apply IH.
Qed.

Lemma insert_by_key_sorted (x : str * str) (l : list (str * str)) :
  Sorted by_name l -> Sorted by_name (insert_by_key x l).
Proof.
  induction 1 as [|y l Hl IH Hhd]; cbn [insert_by_key].
  - repeat constructor.
  - destruct (str_leb (fst x) (fst y)) eqn:E.
    + constructor; [now constructor|]. now constructor.
    + constructor; [exact IH|].
      destruct l as [|z l]; cbn [insert_by_key].
      * constructor. now apply str_leb_total.
      * destruct (str_leb (fst x) (fst z)).
        -- constructor. now apply str_leb_total.
        -- constructor. now inversion Hhd.
Qed.

Lemma sort_by_key_sorted (l : list (str * str)) : Sorted by_name (sort_by_key l).
Proof.
  induction l as [|x l IH]; cbn [sort_by_key]; [constructor|].
  now apply insert_by_key_sorted.
Qed.

(** X5: the columns of the property table of a record are in ascending
    order of their names, by code points, whatever the order in which the
    record lists its properties. *)
Theorem properties_table_sorted (page : value) (d : list (str * value)) :
  get page "properties" (VDict []) = Ok (VDict d) ->
  forallb well_formed_property (map snd d) = true ->
  get_page_properties_markdown page = Ok []
  \/ exists columns,
      get_page_properties_markdown page = Ok (properties_table columns)
      /\ Sorted by_name columns.
Proof.
  intros Hget Hwf.
  destruct (collect_prop_items_spec d Hwf) as [its [Hits _]].
  unfold get_page_properties_markdown. rewrite Hget. cbn [bind].
  destruct d as [|kv d]; [now left|].
  cbn [truthy negb items bind]. rewrite Hits. cbn [bind].
  destruct its as [|it its]; [now left|].
  right. exists (sort_by_key (it :: its)). split; [reflexivity|].
  apply sort_by_key_sorted.
Qed.

Lemma properties_table_sorted_witness :
  exists columns,
    get_page_properties_markdown unordered_record = Ok (properties_table columns)
    /\ Sorted by_name columns.
Proof.
  destruct (properties_table_sorted unordered_record unordered_props eq_refl eq_refl)
    as [Hempty|Htable].
  - vm_compute in Hempty. discriminate Hempty.
  - exact Htable.
Defined.

(** ** The columns of the tabular export *)

Lemma csv_headers_loop_spec (d : list (str * value)) :
  forallb (fun kv => is_dict (snd kv)) d = true ->
  forall title_prop headers,
    csv_headers_loop d title_prop headers
    = Ok (match last_title_name d with Some n => Some n | None => title_prop end,
          headers ++ non_title_names d).
Proof.
  unfold non_title_names.
  induction d as [|[name prop] d IH]; intros Hd title_prop headers.
  - cbn. now rewrite app_nil_r.
  - cbn [forallb snd] in Hd. apply andb_true_iff in Hd. destruct Hd as [Hp Hd].
    destruct (is_dict_inv prop Hp) as [pd ->].
    cbn [csv_headers_loop]. rewrite get_type. cbn [bind].
    cbn [last_title_name filter snd]. unfold is_title at 1 2.
    destruct (eq_lit (type_of (VDict pd)) "title"); cbn [negb].
    + rewrite (IH Hd). destruct (last_title_name d); reflexivity.
    + rewrite (IH Hd). cbn [map fst]. rewrite <- app_assoc.
      destruct (last_title_name d); reflexivity.
Qed.

Lemma last_title_name_in (d : list (str * value)) (n : str) :
  last_title_name d = Some n -> exists p, In (n, p) d /\ is_title p = true.
Proof.
  induction d as [|[name prop] d IH]; cbn [last_title_name]; [discriminate|].
  destruct (last_title_name d) as [later|].
  - intros H. injection H as <-. destruct (IH eq_refl) as [p [Hin Hp]].
    exists p. split; [now right | assumption].
  - destruct (is_title prop) eqn:E; [|discriminate].
    intros H. injection H as <-. exists prop. split; [now left | assumption].
Qed.

Lemma non_title_names_in (d : list (str * value)) (n : str) :
  In n (non_title_names d) -> exists p, In (n, p) d /\ is_title p = false.
Proof.
  unfold non_title_names. rewrite in_map_iff. intros [[k p] [Hk Hin]].
  cbn [fst] in Hk. subst k. apply filter_In in Hin. destruct Hin as [Hin Hp].
  exists p. split; [assumption|]. cbn [snd] in Hp. now destruct (is_title p).
Qed.

Lemma unique_key (d : list (str * value)) (n : str) (p q : value) :
  NoDup (map fst d) -> In (n, p) d -> In (n, q) d -> p = q.
Proof.
  induction d as [|[k v] d IH]; cbn [map fst]; intros Hnd Hp Hq; [destruct Hp|].
  inversion Hnd as [|? ? Hnotin Hnd']; subst.
  destruct Hp as [Hp|Hp]; destruct Hq as [Hq|Hq].
  - congruence.
  - injection Hp as -> ->. exfalso. apply Hnotin.
    apply in_map_iff. now exists (n, q).
  - injection Hq as -> ->. exfalso. apply Hnotin.
    apply in_map_iff. now exists (n, p).
  - now apply IH.
Qed.

Lemma non_title_names_nodup (d : list (str * value)) :
  NoDup (map fst d) -> NoDup (non_title_names d).
Proof.
  unfold non_title_names. induction d as [|[k v] d IH]; cbn [map fst filter snd];
    intros Hnd; [constructor|].
  inversion Hnd as [|? ? Hnotin Hnd']; subst.
  destruct (negb (is_title v)); [|now apply IH].
  cbn [map fst]. constructor; [|now apply IH].
  intros Hin. apply Hnotin. apply in_map_iff in Hin.
  destruct Hin as [[k' v'] [Hk Hin]]. cbn [fst] in Hk. subst k'.
  apply filter_In in Hin. apply in_map_iff. exists (k, v'). now split.
Qed.

(** X6: the columns of the tabular export are the title property first,
    then the other properties of the first record in the order in which
    the record lists them; of several title properties only the last gives
    a column, and a title property with an empty name gives none.  Every
    column is a property of the first record, and no column comes twice. *)
Theorem csv_headers_shape (first : value) (d : list (str * value)) :
  get first "properties" (VDict []) = Ok (VDict d) ->
  forallb (fun kv => is_dict (snd kv)) d = true ->
  csv_headers first = Ok (title_column d ++ non_title_names d)
  /\ (forall h, In h (title_column d ++ non_title_names d) -> In h (map fst d))
  /\ (NoDup (map fst d) -> NoDup (title_column d ++ non_title_names d)).
Proof.
  intros Hget Hd. split; [|split].
  - unfold csv_headers, title_column. rewrite Hget. cbn [bind items].
    rewrite (csv_headers_loop_spec d Hd None []). cbn [bind fst snd app].
    destruct (last_title_name d) as [[|c t]|]; reflexivity.
  - intros h Hin. apply in_app_or in Hin. destruct Hin as [Hin|Hin].
    + unfold title_column in Hin.
      destruct (last_title_name d) as [[|c t]|] eqn:E; try (now destruct Hin).
      destruct Hin as [<-|[]].
      destruct (last_title_name_in d _ E) as [p [Hp _]].
      apply in_map_iff. now exists (c :: t, p).
    + destruct (non_title_names_in d h Hin) as [p [Hp _]].
      apply in_map_iff. now exists (h, p).
  - intros Hnd. unfold title_column.
    destruct (last_title_name d) as [[|c t]|] eqn:E;
      cbn [app]; try now apply non_title_names_nodup.
    constructor; [|now apply non_title_names_nodup].
    intros Hin. destruct (last_title_name_in d _ E) as [p [Hp Ht]].
    destruct (non_title_names_in d _ Hin) as [q [Hq Hn]].
    rewrite (unique_key d _ p q Hnd Hp Hq) in Ht. congruence.
Qed.

Lemma csv_headers_shape_witness :
  csv_headers (record "r" two_title_props) = Ok [lit "Name"; lit "Tag"].
Proof.
  exact (proj1 (csv_headers_shape (record "r" two_title_props) two_title_props
                                  eq_refl eq_refl)).
Defined.

(** ** A listing without a cursor *)

(** X7: a listing that reports more items and gives no cursor is asked
    again from the start: the loop never ends, whatever budget it is
    given, and returns nothing. *)
Theorem drain_without_cursor_never_ends
        (list_fn : value -> reply value) (response results has_more : value)
        (items : list value) :
  list_fn VNone = Reply response ->
  get response "results" (VList []) = Ok results ->
  iter results = Ok items ->
  get response "has_more" VNone = Ok has_more ->
  truthy has_more = true ->
  get response "next_cursor" VNone = Ok VNone ->
  forall fuel acc, drain fuel list_fn VNone acc = OutOfFuel.
Proof.
  intros Hf Hr Hi Hh Ht Hn. induction fuel as [|fuel IH]; intros acc; [reflexivity|].
  cbn [drain]. rewrite Hf. cbn [call bind]. rewrite Hr. cbn [bind]. rewrite Hi.
  cbn [bind]. rewrite Hh. cbn [bind]. rewrite Ht. cbn [negb]. rewrite Hn. cbn [bind].
  apply IH.
Qed.

Lemma drain_without_cursor_never_ends_witness :
  drain 1000 stuck_listing VNone [] = OutOfFuel.
Proof.
  exact (drain_without_cursor_never_ends
           stuck_listing
           (VDict [(lit "results", VList [VInt 1]); (lit "has_more", VBool true)])
           (VList [VInt 1]) (VBool true) [VInt 1]
           eq_refl eq_refl eq_refl eq_refl eq_refl eq_refl 1000%nat []).
Defined.

(** ** Trimmed names *)

Lemma lstrip_head (s t : str) (c : N) : lstrip s = c :: t -> isspace c = false.
Proof.
  induction s as [|a s IH]; cbn [lstrip]; [discriminate|].
  destruct (isspace a) eqn:E; [exact IH|]. intros H. now injection H as <- _.
Qed.

Lemma rstrip_last (s t : str) (c : N) : rstrip s = t ++ [c] -> isspace c = false.
Proof.
  unfold rstrip. intros H. apply (f_equal (@rev N)) in H.
  rewrite rev_involutive, rev_app_distr in H. cbn [rev app] in H.
  now apply lstrip_head in H.
Qed.

(** X8: a sanitised name neither begins nor ends with white space; and
    sanitising anything that is not a string raises a type error. *)
Theorem sanitize_filename_trimmed (name : value) :
  match name with
  | VStr x =>
    exists s,
      sanitize_filename name = Ok s
      /\ (forall c t, s = c :: t -> isspace c = false)
      /\ (forall c t, s = t ++ [c] -> isspace c = false)
  | _ => sanitize_filename name = Raise TypeError
  end.
Proof.
  destruct name; try reflexivity.
  exists (sanitized s). split; [reflexivity|]. unfold sanitized, strip. split.
  - intros c t H. apply (lstrip_head (rstrip (lstrip (re_sub_class unsafe_chars [] s))) t).
    rewrite lstrip_rstrip_fixed by apply lstrip_idem. exact H.
  - intros c t H. now apply rstrip_last in H.
Qed.

(** ** Comments *)

Lemma Ok_inj {A} (a b : A) : Ok a = Ok b -> a = b.
Proof. intros H. now injection H. Qed.

Lemma join_split_replace (c : N) (x s : str) :
  join (c :: x) (split_on c s) = replace c (c :: x) s.
Proof.
  unfold replace. induction s as [|a s IH]; [reflexivity|].
  cbn [split_on flat_map]. destruct (a =? c) eqn:E.
  - apply N.eqb_eq in E. subst a.
    destruct (split_on c s) as [|p ps] eqn:Hs.
    + destruct s; cbn in Hs; [discriminate|].
      destruct (n =? c); [discriminate|]. destruct (split_on c s); discriminate.
    + change (join (c :: x) ([] :: p :: ps)) with ([] ++ (c :: x) ++ join (c :: x) (p :: ps)).
      rewrite IH. reflexivity.
  - destruct (split_on c s) as [|p ps] eqn:Hs.
    + destruct s; cbn in Hs; [discriminate|].
      destruct (n =? c); [discriminate|]. destruct (split_on c s); discriminate.
    + rewrite <- IH. destruct ps; reflexivity.
Qed.

Lemma continues_quote_prefix (a b : str) :
  ~ In newline a -> continues_quote (a ++ b) = continues_quote b.
Proof.
  induction a as [|c a IH]; intros H; [reflexivity|].
  cbn [app continues_quote].
  assert (Hc : (c =? newline) = false).
  { apply N.eqb_neq. intros ->. apply H. now left. }
  rewrite Hc. cbn [andb]. apply IH. intros Hin. apply H. now right.
Qed.

Lemma continues_quote_body (content : str) :
  continues_quote (replace newline (newline :: lit "> ") content ++ [newline]) = true.
Proof.
  unfold replace. induction content as [|c content IH]; [reflexivity|].
  cbn [flat_map]. destruct (c =? newline) eqn:E.
  - change (lit "> ") with [62; 32]. cbn [app continues_quote].
    change (newline =? newline) with true. cbn iota.
    change (62 =? newline) with false. change (32 =? newline) with false.
    change (62 =? 62) with true. change (32 =? 32) with true.
    cbn [andb]. exact IH.
  - cbn [app continues_quote]. rewrite E. cbn [andb]. exact IH.
Qed.

(** X9: a comment of several lines stays inside the block quote: in the
    rendered comment every line break is followed by the quote marker, or
    ends the comment; and the date shown is the first ten characters of
    the time stamp. *)
Theorem comment_line_quoted (comment created_by rich : value) (user time : str) :
  get comment "created_by" (VDict []) = Ok created_by ->
  get created_by "name" VNone = Ok (VStr user) ->
  user <> [] ->
  get comment "created_time" (VStr []) = Ok (VStr time) ->
  get comment "rich_text" (VList []) = Ok rich ->
  list_of plain_item rich = true ->
  ~ In newline user -> ~ In newline (firstn 10 time) ->
  exists content,
    comment_line comment
    = Ok (lit "> **" ++ user ++ lit "** (" ++ firstn 10 time ++ lit "): "
          ++ replace newline (newline :: lit "> ") content ++ [newline])
    /\ (forall line, comment_line comment = Ok line -> continues_quote line = true).
Proof.
  intros Hcb Hname Hne Htime Hrich Hplain Hu Ht.
  destruct rich as [| | | | |l|]; try discriminate. cbn [list_of] in Hplain.
  destruct (mapM_get_str "plain_text" l Hplain) as [ss Hss].
  exists (join [] ss).
  assert (Hline : comment_line comment
                  = Ok (lit "> **" ++ user ++ lit "** (" ++ firstn 10 time ++ lit "): "
                        ++ replace newline (newline :: lit "> ") (join [] ss)
                        ++ [newline])).
  { unfold comment_line. rewrite Hcb. cbn [bind]. rewrite Hname. cbn [bind].
    unfold por. destruct user as [|c user]; [congruence|]. cbn [truthy bind].
    rewrite Htime. cbn [bind slice10]. rewrite Hrich. cbn [bind].
    unfold plain_texts. cbn [iter bind]. rewrite Hss. cbn [bind].
    rewrite join_values_strs. cbn [bind]. rewrite join_split_replace.
    cbn [fstr py_str bind]. repeat rewrite <- app_assoc. reflexivity. }
  split; [exact Hline|].
  intros line Hl. rewrite Hline in Hl. apply Ok_inj in Hl. subst line.
  change (lit "> **") with [62; 32; 42; 42].
  change (lit "** (") with [42; 42; 32; 40].
  change (lit "): ") with [41; 58; 32].
  rewrite (continues_quote_prefix [62; 32; 42; 42]) by (cbn; intuition discriminate).
  rewrite (continues_quote_prefix user) by assumption.
  rewrite (continues_quote_prefix [42; 42; 32; 40]) by (cbn; intuition discriminate).
  rewrite (continues_quote_prefix (firstn 10 time)) by assumption.
  rewrite (continues_quote_prefix [41; 58; 32]) by (cbn; intuition discriminate).
  apply continues_quote_body.
Qed.

Lemma comment_line_quoted_witness :
  exists line, comment_line two_line_comment = Ok line /\ continues_quote line = true.
Proof.
  destruct (comment_line_quoted
              two_line_comment (VDict [(lit "name", VStr (lit "Ada"))])
              (VList [VDict [(lit "plain_text",
                              VStr (lit "first" ++ [newline] ++ lit "second"))]])
              (lit "Ada") (lit "2024-05-06T07:08:00.000Z")
              eq_refl eq_refl ltac:(vm_compute; discriminate) eq_refl eq_refl eq_refl
              ltac:(vm_compute; intuition discriminate)
              ltac:(vm_compute; intuition discriminate))
    as [content [Hline Hquoted]].
  eexists. split; [exact Hline | apply Hquoted; exact Hline].
Defined.

(** X10: listing the comments never makes the export fail and never
    touches a file: when the listing raises, the exception is printed and
    the page has no comment section; when there is no comment, nothing is
    printed either. *)
Theorem get_page_comments_swallows (E : env) (fuel : nat) (id : value) (w : world) :
  (forall e w', get_page_comments E fuel id w <> (Raise e, w'))
  /\ fs (snd (get_page_comments E fuel id w)) = fs w
  /\ (forall e, comments_list E id VNone = Fail e ->
                get_page_comments E (S fuel) id w
                = (Ok [], logged (lit "    ⚠️ Could not fetch comments: ") e w))
  /\ (forall pages, serves (comments_list E id) VNone pages ->
                    List.concat pages = [] ->
                    (List.length pages <= fuel)%nat ->
                    get_page_comments E fuel id w = (Ok [], w)).
Proof.
  unfold get_page_comments, try_except, lift, bindM, emit, ret.
  split; [|split; [|split]].
  - intros e w'. destruct (comments_body E fuel id); discriminate.
  - destruct (comments_body E fuel id); reflexivity.
  - intros e He. unfold comments_body. cbn [drain]. rewrite He. reflexivity.
  - intros pages Hs Hnil Hlen. unfold comments_body.
    rewrite (drain_serves _ _ _ Hs fuel [] Hlen). cbn [app bind]. now rewrite Hnil.
Qed.

Lemma get_page_comments_swallows_witness :
  get_page_comments no_comments_env 1 (VStr (lit "p")) empty_world
  = (Ok [],
     logged (lit "    ⚠️ Could not fetch comments: ")
            (APIResponseError (lit "no comment capability")) empty_world)
  /\ get_page_comments sample_env 1 (VStr (lit "p")) empty_world = (Ok [], empty_world).
Proof.
  split.
  - exact (proj1 (proj2 (proj2 (get_page_comments_swallows
                                   no_comments_env 0 (VStr (lit "p")) empty_world)))
                 _ eq_refl).
  - apply (proj2 (proj2 (proj2 (get_page_comments_swallows
                                   sample_env 1 (VStr (lit "p")) empty_world)))
                 [[]]); [|reflexivity|apply le_n].
    eapply serves_last; reflexivity.
Defined.

(** ** Assets that cannot be fetched *)

(** X11: fetching an asset never makes the export fail.  When the request
    fails, the original address is returned, the exception is printed, and
    no file is left behind, so that a later run asks again. *)
Theorem download_image_falls_back (E : env) (url : value) (dir : path)
        (w w0 : world) (filename : str) (e : exn) :
  (forall e' w', download_image E url dir w <> (Raise e', w'))
  /\ (image_filename E url = Ok filename ->
      requests_get E url = Fail e ->
      mkdir (images_dir_of dir) w = (Ok tt, w0) ->
      fs_lookup (image_path_of dir filename) (fs w0) = None ->
      exists w',
        download_image E url dir w = (Ok url, w')
        /\ fs w' = fs w0
        /\ fs_lookup (image_path_of dir filename) (fs w') = None
        /\ trace w' = PrintExn (lit "    ⚠️ 画像ダウンロードエラー: ") e
                      :: HttpGet url
                      :: Printed (lit "    📥 画像ダウンロード: " ++ filename)
                      :: trace w).
Proof.
  split.
  - intros e' w'. unfold download_image, try_except.
    match goal with |- context [match ?c w with _ => _ end] => destruct (c w) as [[v|x| |] w1] end;
      unfold bindM, emit, ret; discriminate.
  - intros Hname Hget Hmk Hnew.
    destruct (image_filename_shape E url filename Hname) as [Hslash Hunder].
    destruct (mkdir_inv _ _ _ Hmk) as [Hdd [Hwalk Htr]].
    assert (Hip : image_path_of dir filename
                  = mk_path (anchor dir) ((segs dir ++ [lit "images"]) ++ [filename])).
    { apply image_path_of_eq; assumption. }
    assert (Hsegs : segs (image_path_of dir filename) <> []).
    { rewrite Hip. cbn [segs]. intros H. now apply app_eq_nil in H as [_ H]. }
    assert (Hipdd : has_dotdot (image_path_of dir filename) = false).
    { rewrite Hip. rewrite images_dir_of_eq in Hdd. unfold has_dotdot in *.
      cbn [segs] in *. rewrite existsb_app, Hdd. cbn [existsb orb].
      rewrite orb_false_r. apply str_eqb_neq. intros ->.
      destruct Hunder as [Hu|[Hu|[]]]; discriminate. }
    eexists. split; [|split; [|split]].
    + unfold download_image, try_except. unfold bindM at 1. unfold lift at 1.
      rewrite Hname. unfold bindM at 1.
      change (path_join dir (lit "images")) with (images_dir_of dir).
      rewrite Hmk.
      change (path_join (images_dir_of dir) filename) with (image_path_of dir filename).
      unfold bindM at 1. unfold path_exists at 1. rewrite Hipdd.
      rewrite (node_at_lookup _ _ Hsegs), Hnew.
      unfold bindM at 1. unfold print, emit at 1. unfold bindM at 1. unfold emit at 1.
      unfold bindM at 1. unfold lift at 1. rewrite Hget. cbn [call].
      unfold bindM, emit, ret. reflexivity.
    + reflexivity.
    + cbn [fs]. exact Hnew.
    + cbn [trace]. now rewrite Htr.
Qed.

Lemma download_image_falls_back_witness :
  exists w',
    download_image no_comments_env sample_url OUTPUT_DIR empty_world = (Ok sample_url, w')
    /\ fs_lookup (image_path_of OUTPUT_DIR (lit "0a1b_photo.png")) (fs w') = None.
Proof.
  destruct (proj2 (download_image_falls_back
                     no_comments_env sample_url OUTPUT_DIR empty_world
                     (mk_world [(images_dir_of OUTPUT_DIR, Dir); (OUTPUT_DIR, Dir)] [])
                     (lit "0a1b_photo.png") (RequestException (lit "timeout")))
                  eq_refl eq_refl eq_refl eq_refl)
    as [w' [Hrun [_ [Hnone _]]]].
  exists w'. split; assumption.
Defined.

(** X12: whatever the address, the file of an asset is a direct child of
    the [images] directory: its name, made of the two last parts of the
    path with the unsafe characters replaced, holds no slash. *)
Theorem asset_stored_in_images (E : env) (url : value) (dir : path) (filename : str) :
  image_filename E url = Ok filename ->
  ~ In 47 filename
  /\ image_path_of dir filename
     = mk_path (anchor dir) (segs dir ++ [lit "images"; filename])
  /\ parent (image_path_of dir filename) = images_dir_of dir.
Proof.
  intros H. destruct (image_filename_shape E url filename H) as [Hs Hu].
  split; [assumption|].
  rewrite (image_path_of_eq dir filename Hs Hu), images_dir_of_eq.
  rewrite <- app_assoc. split; [reflexivity|].
  unfold parent. cbn [anchor segs].
  change (segs dir ++ [lit "images"] ++ [filename])
    with (segs dir ++ [lit "images"; filename]).
  replace (segs dir ++ [lit "images"; filename])
    with ((segs dir ++ [lit "images"]) ++ [filename]) by now rewrite <- app_assoc.
  now rewrite removelast_last.
Qed.

Lemma asset_stored_in_images_witness :
  image_path_of OUTPUT_DIR (lit "0a1b_a_b_c.png")
  = mk_path 0 [lit "root_page"; lit "images"; lit "0a1b_a_b_c.png"].
Proof.
  exact (proj1 (proj2 (asset_stored_in_images table_env odd_url OUTPUT_DIR
                                              (lit "0a1b_a_b_c.png") eq_refl))).
Defined.

(** ** Tables that cannot be rendered *)

(** X13: a table never makes the export fail.  When its rows cannot be
    listed the placeholder for a conversion error is rendered and the
    exception printed; when the listing has no rows the placeholder for an
    empty table is rendered. *)
Theorem convert_table_block_placeholders (E : env) (block id info : value) (w : world) :
  get block "id" VNone = Ok id ->
  get block "table" (VDict []) = Ok info ->
  is_dict info = true ->
  (forall e w', convert_table_block E block w <> (Raise e, w'))
  /\ (forall e, blocks_children_list E id VNone = Fail e ->
                convert_table_block E block w
                = (Ok (lit "[Table conversion error]" ++ [newline]),
                   logged (lit "  ⚠️ テーブル変換エラー: ") e w))
  /\ (forall response rows,
         blocks_children_list E id VNone = Reply response ->
         get response "results" (VList []) = Ok rows ->
         truthy rows = false ->
         convert_table_block E block w = (Ok (lit "[Empty Table]" ++ [newline]), w)).
Proof.
  intros Hid Hinfo Hd. destruct (is_dict_inv info Hd) as [ti ->].
  unfold convert_table_block, bindM, lift. rewrite Hid, Hinfo, !get_dict.
  unfold try_except, emit, ret. split; [|split].
  - intros e w'. destruct (table_body E id); discriminate.
  - intros e He. unfold table_body. rewrite He. reflexivity.
  - intros response rows Hl Hr Ht. unfold table_body. rewrite Hl. cbn [call bind].
    rewrite Hr. cbn [bind]. rewrite Ht. reflexivity.
Qed.

Lemma convert_table_block_placeholders_witness :
  convert_table_block no_comments_env sample_table empty_world
  = (Ok (lit "[Table conversion error]" ++ [newline]),
     logged (lit "  ⚠️ テーブル変換エラー: ") (APIResponseError (lit "no blocks")) empty_world)
  /\ convert_table_block sample_env sample_table empty_world
     <> (Raise TypeError, empty_world).
Proof.
  destruct (convert_table_block_placeholders
              no_comments_env sample_table (VStr (lit "t-1"))
              (VDict [(lit "has_column_header", VBool false);
                      (lit "has_row_header", VBool false)])
              empty_world eq_refl eq_refl eq_refl) as [_ [Hfail _]].
  destruct (convert_table_block_placeholders
              sample_env sample_table (VStr (lit "t-1"))
              (VDict [(lit "has_column_header", VBool false);
                      (lit "has_row_header", VBool false)])
              empty_world eq_refl eq_refl eq_refl) as [Hnever _].
  split; [exact (Hfail _ eq_refl) | apply Hnever].
Defined.

(** X14: the separator row is tied to the first listed child, not to the
    first rendered row: when the first child of a table is not a table
    row, the rows that follow are rendered without any separator row. *)
Theorem table_without_separator (E : env) (block id info response first : value)
        (rest : list value) (ty : value) (cells : list (list str)) (w : world) :
  get block "id" VNone = Ok id ->
  get block "table" (VDict []) = Ok info ->
  is_dict info = true ->
  blocks_children_list E id VNone = Reply response ->
  get response "results" (VList []) = Ok (VList (first :: rest)) ->
  get first "type" VNone = Ok ty ->
  eq_lit ty "table_row" = false ->
  rows_cells rest = Ok cells ->
  convert_table_block E block w
  = (Ok (join [newline] (map table_row cells) ++ [newline; newline]), w).
Proof.
  intros Hid Hinfo Hd Hl Hr Hty Hk Hcells. destruct (is_dict_inv info Hd) as [ti ->].
  unfold convert_table_block, bindM, lift. rewrite Hid, Hinfo, !get_dict.
  unfold try_except, table_body. rewrite Hl. cbn [call bind]. rewrite Hr.
  cbn [bind truthy negb iter table_rows_loop]. rewrite Hty. cbn [bind].
  rewrite Hk. cbn [negb]. rewrite table_rows_loop_rest, Hcells. reflexivity.
Qed.

Lemma table_without_separator_witness :
  convert_table_block odd_table_env sample_table empty_world
  = (Ok (lit "| a | b |" ++ [newline] ++ lit "| 1 | 2 |" ++ [newline; newline]),
     empty_world).
Proof.
  rewrite (table_without_separator
             odd_table_env sample_table (VStr (lit "t-1"))
             (VDict [(lit "has_column_header", VBool false);
                     (lit "has_row_header", VBool false)])
             (listing_page odd_rows None)
             (VDict [(lit "type", VStr (lit "unsupported"))])
             [table_row_block [cell "a"; cell "b"]; table_row_block [cell "1"; cell "2"]]
             (VStr (lit "unsupported"))
             [[lit "a"; lit "b"]; [lit "1"; lit "2"]] empty_world
             eq_refl eq_refl eq_refl eq_refl eq_refl eq_refl eq_refl eq_refl).
  reflexivity.
Defined.

(** ** A database without a title *)

(** X15: the title of a database is read from the first element of its
    title list without a guard: for a database whose title list is empty
    the export of the database raises an index error, before anything is
    printed or written; the scan for a page title has the guard and answers
    Untitled. *)
Theorem process_database_empty_title (E : env) (fuel : nat) (id db : value)
        (out : path) (depth : nat) (w : world) :
  databases_retrieve E id = Reply db ->
  get db "title" (VList [VDict []]) = Ok (VList []) ->
  process_database E (S fuel) id out depth w = (Raise IndexError, w).
Proof.
  intros Hr Ht. rewrite process_database_step.
  unfold bindM at 1. unfold retrieve_or_log, try_except, bindM at 1, lift at 1.
  rewrite Hr. cbn [call]. unfold ret at 1.
  unfold bindM at 1, lift at 1. rewrite Ht.
  unfold bindM at 1, lift at 1. reflexivity.
Qed.

Lemma process_database_empty_title_witness :
  process_database untitled_database_env 3 (VStr (lit "d-1")) OUTPUT_DIR 0 empty_world
  = (Raise IndexError, empty_world).
Proof.
  exact (process_database_empty_title untitled_database_env 2 (VStr (lit "d-1"))
                                      untitled_database OUTPUT_DIR 0 empty_world
                                      eq_refl eq_refl).
Defined.

(** ** What rendering a block may touch *)

(** X16: rendering a block changes neither the files nor the console
    unless the block is an image or a table; an image changes them only
    when assets are downloaded. *)
Theorem block_to_markdown_effects (E : env) (block : value) (out : option path)
        (parent_title : value) (w : world) :
  eq_lit (type_of block) "table" = false ->
  eq_lit (type_of block) "image" = false \/ DOWNLOAD_IMAGES E = false \/ out = None ->
  snd (block_to_markdown E block out parent_title w) = w.
Proof.
  intros Htable Himage. unfold block_to_markdown. unfold bindM at 1. unfold lift at 1.
  destruct block as [| | | | | |d]; try reflexivity.
  rewrite get_type.
  repeat match goal with
         | |- context [if eq_lit (type_of (VDict d)) ?k then _ else _] =>
           lazymatch k with
           | "image"%string => fail
           | "table"%string => fail
           | _ => destruct (eq_lit (type_of (VDict d)) k); [reflexivity|]
           end
         end.
  rewrite Htable.
  destruct (eq_lit (type_of (VDict d)) "image") eqn:Ei.
  - unfold bindM at 1. unfold lift at 1.
    destruct (get (VDict d) "image" (VDict [])) as [image| | |]; try reflexivity.
    unfold bindM at 1. unfold lift at 1.
    destruct (get image "type" VNone) as [ity| | |]; try reflexivity.
    unfold bindM at 1.
    destruct (eq_lit ity "external").
    + unfold lift.
      destruct (get2 image "external" "url" (VStr [])); reflexivity.
    + unfold bindM at 1. unfold lift at 1.
      destruct (get2 image "file" "url" (VStr [])) as [url| | |]; try reflexivity.
      assert (Hret : forall u : value,
                 snd (match ret u w with
                      | (Ok a, w') =>
                        lift (cap <- get image "caption" (VList []) ;;
                              caption <- rich_text_to_markdown cap ;;
                              fstr [Lit "!["; Val (VStr caption); Lit "]("; Val a;
                                    Lit ")"; NL]) w'
                      | (Raise e, w') => (Raise e, w')
                      | (Unmodelled, w') => (Unmodelled, w')
                      | (OutOfFuel, w') => (OutOfFuel, w')
                      end) = w).
      { intros u. unfold ret, lift. reflexivity. }
      destruct Himage as [Hi|[Hoff|Hnone]].
      * congruence.
      * rewrite Hoff. cbn [andb]. destruct out; apply Hret.
      * subst out. apply Hret.
  - destruct (eq_lit (type_of (VDict d)) "bookmark"); reflexivity.
Qed.

Lemma block_to_markdown_effects_witness :
  snd (block_to_markdown offline_env file_image (Some OUTPUT_DIR) VNone empty_world)
  = empty_world
  /\ snd (block_to_markdown sample_env (paragraph "Hello") (Some OUTPUT_DIR) VNone
                            empty_world)
     = empty_world.
Proof.
  split.
  - apply block_to_markdown_effects; [reflexivity|]. right. left. reflexivity.
  - apply block_to_markdown_effects; [reflexivity|]. left. reflexivity.
Defined.

(** ** What a whole run keeps *)

Section Combinators.

Variable R : world -> world -> Prop.
Hypothesis R_refl : forall w, R w w.
Hypothesis R_trans : forall a b c, R a b -> R b c -> R a c.

Lemma respects_ret {A} (a : A) : respects R (ret a).
Proof. intros w. apply R_refl. Qed.

Lemma respects_lift {A} (c : outcome A) : respects R (lift c).
Proof. intros w. apply R_refl. Qed.

Lemma respects_bindM {A B} (c : M A) (k : A -> M B) :
  respects R c -> (forall a, respects R (k a)) -> respects R (bindM c k).
Proof.
  intros Hc Hk w. unfold bindM. specialize (Hc w).
  destruct (c w) as [[a|e| |] w']; cbn [snd] in *; try assumption.
  apply (R_trans _ _ _ Hc). apply Hk.
Qed.

Lemma respects_try {A} (c : M A) (h : exn -> M A) :
  respects R c -> (forall e, respects R (h e)) -> respects R (try_except c h).
Proof.
  intros Hc Hh w. unfold try_except. specialize (Hc w).
  destruct (c w) as [[a|e| |] w']; cbn [snd] in *; try assumption.
  apply (R_trans _ _ _ Hc). apply Hh.
Qed.

Lemma respects_forM_ {A} (f : A -> M unit) (l : list A) :
  (forall x, respects R (f x)) -> respects R (forM_ f l).
Proof.
  intros Hf. induction l as [|x l IH]; cbn [forM_].
  - apply respects_ret.
  - apply respects_bindM; [apply Hf | intros _; exact IH].
Qed.

Lemma respects_mapMM {A B} (f : A -> M B) (l : list A) :
  (forall x, respects R (f x)) -> respects R (mapMM f l).
Proof.
  intros Hf. induction l as [|x l IH]; cbn [mapMM].
  - apply respects_ret.
  - apply respects_bindM; [apply Hf|]. intros y.
    apply respects_bindM; [exact IH|]. intros ys. apply respects_ret.
Qed.

End Combinators.

(** One step of a proof that a computation respects a relation. *)
Ltac respect_step refl trans :=
  lazymatch goal with
  | |- respects _ (bindM _ _) =>
    apply (respects_bindM _ trans); [|intros ?; cbv beta]
  | |- respects _ (lift _) => apply (respects_lift _ refl)
  | |- respects _ (ret _) => apply (respects_ret _ refl)
  | |- respects _ (try_except _ _) =>
    apply (respects_try _ trans); [|intros ?; cbv beta]
  | |- respects _ (forM_ _ _) => apply (respects_forM_ _ refl trans); intros ?; cbv beta
  | |- respects _ (mapMM _ _) => apply (respects_mapMM _ refl trans); intros ?; cbv beta
  | |- respects _ (if ?b then _ else _) => destruct b
  | |- respects _ (match ?x with _ => _ end) => destruct x
  end.

Section Traversal.

Variable E : env.
Variable R : world -> world -> Prop.
Hypothesis R_refl : forall w, R w w.
Hypothesis R_trans : forall a b c, R a b -> R b c -> R a c.
Hypothesis R_print : forall line, respects R (print line).
Hypothesis R_report : forall prefix e, respects R (emit (PrintExn prefix e)).
Hypothesis R_mkdir : forall p, respects R (mkdir p).
Hypothesis R_open : forall p, respects R (open_w p (TextFile [])).
Hypothesis R_write : forall p s, respects R (write_text_to p s).
Hypothesis R_download :
  DOWNLOAD_IMAGES E = true -> forall url dir, respects R (download_image E url dir).

Create HintDb respect.
#[local] Hint Resolve R_print R_report R_mkdir R_open R_write : respect.

Ltac respect :=
  repeat first [ respect_step R_refl R_trans
               | solve [auto with respect] ].

Lemma get_page_comments_respects (fuel : nat) (id : value) :
  respects R (get_page_comments E fuel id).
Proof. unfold get_page_comments. respect. Qed.

Lemma convert_table_block_respects (block : value) :
  respects R (convert_table_block E block).
Proof. unfold convert_table_block. respect. Qed.

Lemma block_to_markdown_respects (block : value) (out : option path) (parent : value) :
  respects R (block_to_markdown E block out parent).
Proof.
  unfold block_to_markdown.
  apply (respects_bindM _ R_trans); [apply (respects_lift _ R_refl)|].
  intros ty.
  repeat match goal with
         | |- respects _ (if eq_lit ty ?k then _ else _) =>
           destruct (eq_lit ty k);
           [first [ apply (respects_lift _ R_refl) | apply (respects_ret _ R_refl)
                  | apply convert_table_block_respects | idtac ]|]
         end.
  - apply (respects_bindM _ R_trans); [apply (respects_lift _ R_refl)|].
    intros image.
    apply (respects_bindM _ R_trans); [apply (respects_lift _ R_refl)|].
    intros ity.
    apply (respects_bindM _ R_trans); [|intros ?; apply (respects_lift _ R_refl)].
    destruct (eq_lit ity "external"); [apply (respects_lift _ R_refl)|].
    apply (respects_bindM _ R_trans); [apply (respects_lift _ R_refl)|].
    intros url. destruct out as [dir|]; [|apply (respects_ret _ R_refl)].
    destruct (DOWNLOAD_IMAGES E) eqn:Hd; cbn [andb]; [|apply (respects_ret _ R_refl)].
    destruct (truthy url); [|apply (respects_ret _ R_refl)].
    now apply R_download.
  - apply (respects_lift _ R_refl).
Qed.

Lemma fetch_page_content_respects (fuel : nat) (id : value) (out : option path)
      (parent : value) :
  respects R (fetch_page_content E fuel id out parent).
Proof.
  unfold fetch_page_content. respect. apply block_to_markdown_respects.
Qed.

Lemma export_database_to_csv_respects (records : list value) (title : value)
      (db_id : str) (out : path) :
  respects R (export_database_to_csv records title db_id out).
Proof.
  unfold export_database_to_csv. destruct records as [|first rest]; respect.
  unfold write_csv_record. respect.
Qed.

Lemma retrieve_or_log_respects (what : string) (retrieve : value -> reply value)
      (id : value) :
  respects R (retrieve_or_log what retrieve id).
Proof. unfold retrieve_or_log. respect. Qed.

Lemma process_respects (fuel : nat) :
  (forall id out depth props, respects R (process_page E fuel id out depth props))
  /\ (forall id out depth, respects R (process_database E fuel id out depth)).
Proof.
  induction fuel as [|fuel [IHpage IHdb]].
  - split; intros; apply (respects_lift _ R_refl).
  - split.
    + intros id out depth props. rewrite process_page_step.
      apply (respects_bindM _ R_trans); [apply retrieve_or_log_respects|].
      intros [page|]; [|apply (respects_ret _ R_refl)].
      cbv zeta. unfold write_text. respect.
      * apply fetch_page_content_respects.
      * apply get_page_comments_respects.
      * unfold visit_child. respect.
    + intros id out depth. rewrite process_database_step.
      apply (respects_bindM _ R_trans); [apply retrieve_or_log_respects|].
      intros [db|]; [|apply (respects_ret _ R_refl)].
      cbv zeta. respect.
      * apply export_database_to_csv_respects.
      * unfold visit_record. respect.
Qed.

Lemma main_respects (fuel : nat) : respects R (main E fuel).
Proof.
  unfold main. destruct (ROOT_PAGE_ID E); respect.
  apply (proj1 (process_respects fuel)).
Qed.

End Traversal.

(** *** Nothing is removed *)

Lemma fs_grows_refl (w : world) : fs_grows w w.
Proof. intros p n H. exists n. auto. Qed.

Lemma fs_grows_trans (a b c : world) : fs_grows a b -> fs_grows b c -> fs_grows a c.
Proof.
  intros Hab Hbc p n H. destruct (Hab p n H) as [n1 [H1 D1]].
  destruct (Hbc p n1 H1) as [n2 [H2 D2]]. exists n2. auto.
Qed.

Lemma fs_grows_same (w w' : world) : fs w' = fs w -> fs_grows w w'.
Proof. intros E p n H. exists n. rewrite E. auto. Qed.

Lemma fs_set_grows (p : path) (n : node) (w : world) (t : list event) :
  fs_lookup p (fs w) <> Some Dir ->
  fs_grows w (mk_world (fs_set p n (fs w)) t).
Proof.
  intros Hp q m Hq. cbn [fs].
  destruct (path_eqb q p) eqn:E.
  - apply path_eqb_eq in E. subst q. exists n. rewrite fs_lookup_set.
    split; [reflexivity|]. intros ->. contradiction.
  - exists m. rewrite (fs_lookup_set_other _ _ _ _ E). auto.
Qed.

Lemma emit_grows (e : event) : respects fs_grows (emit e).
Proof. intros w. now apply fs_grows_same. Qed.

Lemma mkdir_grows (p : path) : respects fs_grows (mkdir p).
Proof.
  intros w. unfold mkdir. destruct (has_dotdot p); [apply fs_grows_refl|].
  destruct (mkdir_walk (anchor p) [] (segs p) (fs w)) as [fs'| | |] eqn:H;
    try apply fs_grows_refl.
  intros q n Hq. exists n. cbn [snd fs].
  split; [now apply (mkdir_walk_keeps _ _ _ _ _ H) | auto].
Qed.

Lemma open_w_grows (p : path) (n : node) : respects fs_grows (open_w p n).
Proof.
  intros w. unfold open_w. destruct (has_dotdot p); [apply fs_grows_refl|].
  destruct (segs p); [apply fs_grows_refl|].
  destruct (node_at (parent p) (fs w)) as [[| |]|];
    destruct (fs_lookup p (fs w)) as [[| |]|] eqn:Hp;
    try apply fs_grows_refl; cbn [snd]; apply fs_set_grows; rewrite Hp; discriminate.
Qed.

Lemma write_text_to_grows (p : path) (s : str) : respects fs_grows (write_text_to p s).
Proof.
  intros w. unfold write_text_to. destruct (negb (encodable s)); [apply fs_grows_refl|].
  destruct (fs_lookup p (fs w)) as [[| |]|] eqn:Hp; try apply fs_grows_refl.
  cbn [snd]. apply fs_set_grows. rewrite Hp. discriminate.
Qed.

Lemma write_bytes_to_grows (p : path) (b : list N) :
  respects fs_grows (write_bytes_to p b).
Proof.
  intros w. unfold write_bytes_to.
  destruct (fs_lookup p (fs w)) as [[| |]|] eqn:Hp; try apply fs_grows_refl.
  cbn [snd]. apply fs_set_grows. rewrite Hp. discriminate.
Qed.

Lemma path_exists_grows (p : path) : respects fs_grows (path_exists p).
Proof. intros w. unfold path_exists. destruct (has_dotdot p); apply fs_grows_refl. Qed.

Lemma download_image_grows (E : env) (url : value) (dir : path) :
  respects fs_grows (download_image E url dir).
Proof.
  unfold download_image.
  repeat first [ respect_step fs_grows_refl fs_grows_trans
               | apply emit_grows | apply mkdir_grows | apply open_w_grows
               | apply write_bytes_to_grows | apply path_exists_grows ].
Qed.

(** X17: a run removes nothing: every file and directory that exists
    before still exists after, and a directory is still a directory; this
    holds for the whole run and for the export of any page or database,
    also when it ends with an exception. *)
Theorem export_never_removes (E : env) (fuel : nat) (w : world) :
  fs_grows w (snd (main E fuel w))
  /\ (forall id out depth props,
         fs_grows w (snd (process_page E fuel id out depth props w)))
  /\ (forall id out depth, fs_grows w (snd (process_database E fuel id out depth w))).
Proof.
  assert (P := process_respects E fs_grows fs_grows_refl fs_grows_trans
                 (fun line => emit_grows (Printed line))
                 (fun prefix e => emit_grows (PrintExn prefix e))
                 mkdir_grows (fun p => open_w_grows p (TextFile []))
                 write_text_to_grows
                 (fun _ => download_image_grows E) fuel).
  split; [|split].
  - apply (main_respects E fs_grows fs_grows_refl fs_grows_trans
             (fun line => emit_grows (Printed line))
             (fun prefix e => emit_grows (PrintExn prefix e))
             mkdir_grows (fun p => open_w_grows p (TextFile []))
             write_text_to_grows
             (fun _ => download_image_grows E)).
  - intros id out depth props. apply (proj1 P).
  - intros id out depth. apply (proj2 P).
Qed.

(** *** Files stay files *)

Lemma respects_run {A} (R : world -> world -> Prop) (c : M A) (w w' : world)
      (r : outcome A) :
  respects R c -> c w = (r, w') -> R w w'.
Proof. intros H E. specialize (H w). now rewrite E in H. Qed.

Lemma fs_keeps_refl (w : world) : fs_keeps w w.
Proof. intros p n H. exists n. split; [assumption | reflexivity]. Qed.

Lemma fs_keeps_trans (a b c : world) : fs_keeps a b -> fs_keeps b c -> fs_keeps a c.
Proof.
  intros Hab Hbc p n H. destruct (Hab p n H) as [n1 [H1 D1]].
  destruct (Hbc p n1 H1) as [n2 [H2 D2]]. exists n2. split; [assumption|].
  now rewrite D1.
Qed.

Lemma fs_keeps_same (w w' : world) : fs w' = fs w -> fs_keeps w w'.
Proof. intros E p n H. exists n. rewrite E. split; [assumption | reflexivity]. Qed.

Lemma fs_set_keeps (p : path) (n : node) (w : world) (t : list event) :
  fs_lookup p (fs w) <> Some Dir -> n <> Dir ->
  fs_keeps w (mk_world (fs_set p n (fs w)) t).
Proof.
  intros Hp Hn q m Hq. cbn [fs].
  destruct (path_eqb q p) eqn:E.
  - apply path_eqb_eq in E. subst q. exists n. rewrite fs_lookup_set.
    split; [reflexivity|]. split; intros ->; contradiction.
  - exists m. rewrite (fs_lookup_set_other _ _ _ _ E). split; [assumption | reflexivity].
Qed.

Lemma emit_keeps (e : event) : respects fs_keeps (emit e).
Proof. intros w. now apply fs_keeps_same. Qed.

Lemma mkdir_keeps (p : path) : respects fs_keeps (mkdir p).
Proof.
  intros w. unfold mkdir. destruct (has_dotdot p); [apply fs_keeps_refl|].
  destruct (mkdir_walk (anchor p) [] (segs p) (fs w)) as [fs'| | |] eqn:H;
    try apply fs_keeps_refl.
  intros q n Hq. exists n. cbn [snd fs].
  split; [now apply (mkdir_walk_keeps _ _ _ _ _ H) | reflexivity].
Qed.

Lemma open_w_keeps (p : path) (n : node) : n <> Dir -> respects fs_keeps (open_w p n).
Proof.
  intros Hn w. unfold open_w. destruct (has_dotdot p); [apply fs_keeps_refl|].
  destruct (segs p); [apply fs_keeps_refl|].
  destruct (node_at (parent p) (fs w)) as [[| |]|];
    destruct (fs_lookup p (fs w)) as [[| |]|] eqn:Hp;
    try apply fs_keeps_refl; cbn [snd]; apply fs_set_keeps;
    try assumption; rewrite Hp; discriminate.
Qed.

Lemma write_text_to_keeps (p : path) (s : str) : respects fs_keeps (write_text_to p s).
Proof.
  intros w. unfold write_text_to. destruct (negb (encodable s)); [apply fs_keeps_refl|].
  destruct (fs_lookup p (fs w)) as [[| |]|] eqn:Hp; try apply fs_keeps_refl.
  cbn [snd]. apply fs_set_keeps; [rewrite Hp|]; discriminate.
Qed.

Lemma write_bytes_to_keeps (p : path) (b : list N) :
  respects fs_keeps (write_bytes_to p b).
Proof.
  intros w. unfold write_bytes_to.
  destruct (fs_lookup p (fs w)) as [[| |]|] eqn:Hp; try apply fs_keeps_refl.
  cbn [snd]. apply fs_set_keeps; [rewrite Hp|]; discriminate.
Qed.

Lemma path_exists_keeps (p : path) : respects fs_keeps (path_exists p).
Proof. intros w. unfold path_exists. destruct (has_dotdot p); apply fs_keeps_refl. Qed.

Lemma download_image_keeps (E : env) (url : value) (dir : path) :
  respects fs_keeps (download_image E url dir).
Proof.
  unfold download_image.
  repeat first [ respect_step fs_keeps_refl fs_keeps_trans
               | apply emit_keeps | apply mkdir_keeps
               | apply open_w_keeps; discriminate
               | apply write_bytes_to_keeps | apply path_exists_keeps ].
Qed.

Lemma process_keeps (E : env) (fuel : nat) :
  (forall id out depth props, respects fs_keeps (process_page E fuel id out depth props))
  /\ (forall id out depth, respects fs_keeps (process_database E fuel id out depth)).
Proof.
  exact (process_respects E fs_keeps fs_keeps_refl fs_keeps_trans
           (fun line => emit_keeps (Printed line))
           (fun prefix e => emit_keeps (PrintExn prefix e))
           mkdir_keeps (fun p => open_w_keeps p (TextFile []) ltac:(discriminate))
           write_text_to_keeps
           (fun _ => download_image_keeps E) fuel).
Qed.

Lemma visit_child_keeps (E : env) (fuel : nat) (dir : path) (depth : nat)
      (child : value) :
  respects fs_keeps (visit_child E fuel dir depth child).
Proof.
  unfold visit_child.
  repeat respect_step fs_keeps_refl fs_keeps_trans;
    apply (process_keeps E fuel).
Qed.

Lemma visit_record_keeps (E : env) (fuel : nat) (dir : path) (depth : nat)
      (record : value) :
  respects fs_keeps (visit_record E fuel dir depth record).
Proof.
  unfold visit_record.
  repeat respect_step fs_keeps_refl fs_keeps_trans;
    apply (process_keeps E fuel).
Qed.

Lemma export_database_to_csv_keeps (records : list value) (title : value)
      (db_id : str) (out : path) :
  respects fs_keeps (export_database_to_csv records title db_id out).
Proof.
  unfold export_database_to_csv, write_csv_record, print.
  destruct records as [|first rest];
    repeat first [ respect_step fs_keeps_refl fs_keeps_trans
                 | apply emit_keeps | apply write_text_to_keeps
                 | apply open_w_keeps; discriminate ].
Qed.

Lemma is_file_keeps (p : path) (w w' : world) :
  fs_keeps w w' -> is_file p w -> is_file p w'.
Proof.
  intros K [n [Hn Hf]]. destruct (K p n Hn) as [n' [Hn' D]].
  exists n'. split; [assumption|]. intros ->. apply Hf. now apply D.
Qed.

Lemma is_dir_keeps (p : path) (w w' : world) :
  fs_keeps w w' -> is_dir p w -> is_dir p w'.
Proof.
  unfold is_dir, node_at. intros K H. destruct (segs p); [reflexivity|].
  destruct (K p Dir H) as [n' [Hn' D]]. rewrite Hn'. f_equal. now apply D.
Qed.

(** ** What the export of a node leaves behind *)

Lemma bindM_ok {A B} (c : M A) (k : A -> M B) (w w' : world) (b : B) :
  bindM c k w = (Ok b, w') ->
  exists a w1, c w = (Ok a, w1) /\ k a w1 = (Ok b, w').
Proof.
  unfold bindM. destruct (c w) as [[a| | |] w1]; try discriminate.
  intros H. now exists a, w1.
Qed.

Lemma lift_ok {A} (c : outcome A) (w w' : world) (a : A) :
  lift c w = (Ok a, w') -> c = Ok a /\ w' = w.
Proof. unfold lift. intros H. injection H as -> ->. now split. Qed.

(** One step of a run that ended normally: the first computation ended
    normally too. *)
Ltac run_step H x w Hx :=
  apply bindM_ok in H; destruct H as [x [w [Hx H]]]; cbv beta zeta in H.

Ltac lift_step H x Hx :=
  let w := fresh "w" in
  run_step H x w Hx; apply lift_ok in Hx; destruct Hx as [Hx ->].

Lemma retrieve_or_log_reply (what : string) (retrieve : value -> reply value)
      (id x : value) (w : world) :
  retrieve id = Reply x -> retrieve_or_log what retrieve id w = (Ok (Some x), w).
Proof.
  intros H. unfold retrieve_or_log, try_except, bindM, lift. now rewrite H.
Qed.

Lemma write_text_file (p : path) (s : str) (w w' : world) :
  write_text p s w = (Ok tt, w') -> is_file p w'.
Proof.
  unfold write_text. intros H. run_step H u w1 Ho.
  unfold write_text_to in H. destruct (negb (encodable s)); [discriminate|].
  destruct (fs_lookup p (fs w1)) as [[|old|]|]; try discriminate.
  injection H as <-. exists (TextFile (old ++ s)). cbn [fs].
  rewrite fs_lookup_set. split; [reflexivity | discriminate].
Qed.

Lemma mkdir_is_dir (p : path) (w w' : world) :
  mkdir p w = (Ok tt, w') -> is_dir p w'.
Proof.
  intros H. destruct (mkdir_inv _ _ _ H) as [_ [Hwalk _]].
  unfold is_dir, node_at. destruct (segs p) as [|s t] eqn:Hs; [reflexivity|].
  assert (L := mkdir_walk_last (anchor p) (s :: t) [] _ _ ltac:(discriminate) Hwalk).
  cbn [app] in L. rewrite <- Hs in L. now destruct p.
Qed.

(** A page that is retrieved and whose export ends normally has its file. *)
Lemma process_page_written (E : env) (fuel : nat) (id : str) (out : path)
      (depth : nat) (props : bool) (page : value) (title : str) (w w' : world) :
  pages_retrieve E (VStr id) = Reply page ->
  get_page_title page = Ok (VStr title) ->
  process_page E (S fuel) (VStr id) out depth props w = (Ok tt, w') ->
  is_file (page_file out title id) w'.
Proof.
  intros Hr Ht H. rewrite process_page_step in H.
  run_step H fetched w1 Hf.
  rewrite (retrieve_or_log_reply _ _ _ _ _ Hr) in Hf. injection Hf as <- <-.
  lift_step H t Htitle. rewrite Ht in Htitle. injection Htitle as <-.
  lift_step H id_str Hid. cbn [str_method] in Hid. injection Hid as <-.
  lift_step H safe Hsafe. rewrite sanitize_filename_str in Hsafe. injection Hsafe as <-.
  lift_step H line Hline.
  run_step H u1 w2 Hprint.
  run_step H content w3 Hcontent.
  run_step H comments_md w4 Hcomments.
  run_step H properties_md w5 Hprops.
  lift_step H markdown Hmd.
  run_step H u2 w6 Hmk.
  run_step H u3 w7 Hwrite. destruct u3.
  apply write_text_file in Hwrite. fold (page_file out title id) in Hwrite.
  lift_step H blocks Hblocks.
  lift_step H child_pages Hchildren.
  destruct child_pages as [|c cs].
  - unfold ret in H. injection H as <-. exact Hwrite.
  - lift_step H safe_dir Hsd.
    run_step H u4 w8 Hmk2.
    apply (is_file_keeps _ w8 w').
    + apply (respects_run fs_keeps _ _ _ _
               (respects_forM_ fs_keeps fs_keeps_refl fs_keeps_trans _ (c :: cs)
                  (visit_child_keeps E fuel _ depth)) H).
    + apply (is_file_keeps _ w7 w8); [|exact Hwrite].
      apply (respects_run fs_keeps _ _ _ _ (mkdir_keeps _) Hmk2).
Qed.

(** A database that is retrieved and whose export ends normally has its
    directory. *)
Lemma process_database_made (E : env) (fuel : nat) (id : str) (out : path)
      (depth : nat) (db titles first : value) (title : str) (w w' : world) :
  databases_retrieve E (VStr id) = Reply db ->
  get db "title" (VList [VDict []]) = Ok titles ->
  index0 titles = Ok first ->
  get first "plain_text" (VStr (lit "Untitled")) = Ok (VStr title) ->
  process_database E (S fuel) (VStr id) out depth w = (Ok tt, w') ->
  is_dir (path_join out (sanitized title)) w'.
Proof.
  intros Hr Hts Hfirst Ht H. rewrite process_database_step in H.
  run_step H fetched w1 Hf.
  rewrite (retrieve_or_log_reply _ _ _ _ _ Hr) in Hf. injection Hf as <- <-.
  lift_step H ts Htitles. rewrite Hts in Htitles. injection Htitles as <-.
  lift_step H f Hf. rewrite Hfirst in Hf. injection Hf as <-.
  lift_step H t Htitle. rewrite Ht in Htitle. injection Htitle as <-.
  lift_step H id_str Hid. cbn [str_method] in Hid. injection Hid as <-.
  lift_step H line Hline.
  run_step H u1 w2 Hprint.
  lift_step H records Hrecords.
  lift_step H safe Hsafe. rewrite sanitize_filename_str in Hsafe. injection Hsafe as <-.
  run_step H u2 w3 Hmk. destruct u2. apply mkdir_is_dir in Hmk.
  run_step H u3 w4 Hcsv.
  apply (is_dir_keeps _ w4 w').
  - apply (respects_run fs_keeps _ _ _ _
             (respects_forM_ fs_keeps fs_keeps_refl fs_keeps_trans _ records
                (visit_record_keeps E fuel _ depth)) H).
  - apply (is_dir_keeps _ w3 w4); [|exact Hmk].
    apply (respects_run fs_keeps _ _ _ _ (export_database_to_csv_keeps _ _ _ _) Hcsv).
Qed.

Lemma eq_lit_exclusive (v : value) (a b : string) :
  eq_lit v a = true -> lit a <> lit b -> eq_lit v b = false.
Proof.
  unfold eq_lit. destruct v; try discriminate. intros Ha Hab.
  apply str_eqb_eq in Ha. subst. now apply str_eqb_neq.
Qed.

(** After a loop over children that ended normally, every child that was
    retrieved has its file, resp. its directory. *)
Lemma children_exported (E : env) (fuel : nat) (dir : path) (depth : nat)
      (l : list value) :
  forall w w',
    forM_ (visit_child E (S fuel) dir depth) l w = (Ok tt, w') ->
    forall sibling p, In sibling l ->
      (eq_lit (type_of sibling) "child_page" = true ->
       page_retrieved E sibling dir p -> is_file p w')
      /\ (eq_lit (type_of sibling) "child_database" = true ->
          database_retrieved E sibling dir p -> is_dir p w').
Proof.
  induction l as [|x l IH]; intros w w' H sibling p Hin; [contradiction|].
  cbn [forM_] in H. run_step H u w1 Hx. destruct Hin as [->|Hin]; [|now apply (IH w1)].
  assert (K : fs_keeps w1 w').
  { apply (respects_run fs_keeps _ _ _ _
             (respects_forM_ fs_keeps fs_keeps_refl fs_keeps_trans _ l
                (visit_child_keeps E (S fuel) dir depth)) H). }
  unfold visit_child in Hx.
  split.
  - intros Hty [id [page [title [Hid [Hr [Ht ->]]]]]].
    lift_step Hx cid Hcid. rewrite Hid in Hcid. injection Hcid as <-.
    lift_step Hx ty Hget. rewrite (get_type_of _ _ Hid) in Hget. injection Hget as <-.
    rewrite Hty in Hx. destruct u.
    apply (is_file_keeps _ w1 w' K).
    now apply (process_page_written E fuel id dir (S depth) false page title w w1).
  - intros Hty [id [db [titles [first [title [Hid [Hr [Hts [Hf [Ht ->]]]]]]]]]].
    lift_step Hx cid Hcid. rewrite Hid in Hcid. injection Hcid as <-.
    lift_step Hx ty Hget. rewrite (get_type_of _ _ Hid) in Hget. injection Hget as <-.
    rewrite (eq_lit_exclusive _ "child_database" "child_page" Hty) in Hx
      by (vm_compute; discriminate).
    rewrite Hty in Hx. destruct u.
    apply (is_dir_keeps _ w1 w' K).
    now apply (process_database_made E fuel id dir (S depth) db titles first title w w1).
Qed.

(** The same for the records of a database. *)
Lemma records_exported (E : env) (fuel : nat) (dir : path) (depth : nat)
      (l : list value) :
  forall w w',
    forM_ (visit_record E (S fuel) dir depth) l w = (Ok tt, w') ->
    forall sibling p, In sibling l -> page_retrieved E sibling dir p -> is_file p w'.
Proof.
  induction l as [|x l IH]; intros w w' H sibling p Hin; [contradiction|].
  cbn [forM_] in H. run_step H u w1 Hx. destruct Hin as [->|Hin]; [|now apply (IH w1)].
  assert (K : fs_keeps w1 w').
  { apply (respects_run fs_keeps _ _ _ _
             (respects_forM_ fs_keeps fs_keeps_refl fs_keeps_trans _ l
                (visit_record_keeps E (S fuel) dir depth)) H). }
  unfold visit_record in Hx.
  intros [id [page [title [Hid [Hr [Ht ->]]]]]].
  lift_step Hx rid Hrid. rewrite Hid in Hrid. injection Hrid as <-. destruct u.
  apply (is_file_keeps _ w1 w' K).
  now apply (process_page_written E fuel id dir (S depth) true page title w w1).
Qed.

(** ** A node that cannot be retrieved *)

(** C1: when the page or database of a node cannot be retrieved, the
    failure is printed and nothing else happens for that node: the files
    are as they were, and the loop over its siblings goes on from there.
    When the loop then ends normally, every sibling, before or after the
    failed node, that could be retrieved has been exported: a page has its
    file, a database its directory.  This holds for the children of a page
    and for the records of a database. *)
Theorem fetch_failure_isolated (E : env) (fuel : nat) (dir : path) (depth : nat)
        (before after : list value) (failed : value)
        (prefix : str) (e : exn) (w w1 : world) :
  (child_fetch_fails E failed prefix e ->
   forM_ (visit_child E (S fuel) dir depth) before w = (Ok tt, w1) ->
   visit_child E (S fuel) dir depth failed w1
   = (Ok tt, mk_world (fs w1) (PrintExn prefix e :: trace w1))
   /\ forM_ (visit_child E (S fuel) dir depth) (before ++ failed :: after) w
      = forM_ (visit_child E (S fuel) dir depth) after
              (mk_world (fs w1) (PrintExn prefix e :: trace w1))
   /\ forall w',
       forM_ (visit_child E (S fuel) dir depth) after
             (mk_world (fs w1) (PrintExn prefix e :: trace w1)) = (Ok tt, w') ->
       forall sibling p, In sibling (before ++ after) ->
         (eq_lit (type_of sibling) "child_page" = true ->
          page_retrieved E sibling dir p -> is_file p w')
         /\ (eq_lit (type_of sibling) "child_database" = true ->
             database_retrieved E sibling dir p -> is_dir p w'))
  /\ (page_fetch_fails E failed prefix e ->
      forM_ (visit_record E (S fuel) dir depth) before w = (Ok tt, w1) ->
      visit_record E (S fuel) dir depth failed w1
      = (Ok tt, mk_world (fs w1) (PrintExn prefix e :: trace w1))
      /\ forM_ (visit_record E (S fuel) dir depth) (before ++ failed :: after) w
         = forM_ (visit_record E (S fuel) dir depth) after
                 (mk_world (fs w1) (PrintExn prefix e :: trace w1))
      /\ forall w',
          forM_ (visit_record E (S fuel) dir depth) after
                (mk_world (fs w1) (PrintExn prefix e :: trace w1)) = (Ok tt, w') ->
          forall sibling p, In sibling (before ++ after) ->
            page_retrieved E sibling dir p -> is_file p w').
Proof.
  assert (Hin : forall sibling : value,
             In sibling (before ++ after) -> In sibling (before ++ failed :: after)).
  { intros s Hs. apply in_or_app. apply in_app_or in Hs.
    destruct Hs; [now left | right; now right]. }
  split; intros Hfail Hbefore.
  - pose proof (visit_child_fetch_fails E fuel dir depth failed prefix e w1 Hfail) as Hv.
    assert (Hloop : forM_ (visit_child E (S fuel) dir depth) (before ++ failed :: after) w
                    = forM_ (visit_child E (S fuel) dir depth) after
                            (mk_world (fs w1) (PrintExn prefix e :: trace w1))).
    { rewrite (forM_app _ before (failed :: after) w w1 Hbefore).
      cbn [forM_]. unfold bindM at 1. now rewrite Hv. }
    split; [exact Hv|]. split; [exact Hloop|].
    intros w' Hafter sibling p Hs. rewrite <- Hloop in Hafter.
    apply (children_exported E fuel dir depth _ w w' Hafter). now apply Hin.
  - pose proof (visit_record_fetch_fails E fuel dir depth failed prefix e w1 Hfail) as Hv.
    assert (Hloop : forM_ (visit_record E (S fuel) dir depth) (before ++ failed :: after) w
                    = forM_ (visit_record E (S fuel) dir depth) after
                            (mk_world (fs w1) (PrintExn prefix e :: trace w1))).
    { rewrite (forM_app _ before (failed :: after) w w1 Hbefore).
      cbn [forM_]. unfold bindM at 1. now rewrite Hv. }
    split; [exact Hv|]. split; [exact Hloop|].
    intros w' Hafter sibling p Hs. rewrite <- Hloop in Hafter.
    apply (records_exported E fuel dir depth _ w w' Hafter). now apply Hin.
Qed.

Lemma fetch_failure_isolated_witness :
  let dir := parse_path (lit "root_page/Parent") in
  let one := child_page "c-1" "One" in
  let two := child_page "c-2" "Two" in
  let three := child_page "c-3" "Three" in
  (exists w',
      forM_ (visit_child sample_env 3 dir 0) [one; two; three] empty_world = (Ok tt, w')
      /\ is_file (parse_path (lit "root_page/Parent/One c1.md")) w'
      /\ is_file (parse_path (lit "root_page/Parent/Three c3.md")) w')
  /\ (exists w',
         forM_ (visit_record sample_env 3 dir 0) [two; one] empty_world = (Ok tt, w')
         /\ is_file (parse_path (lit "root_page/Parent/One c1.md")) w').
Proof.
  intros dir one two three.
  set (prefix := lit "  Error fetching page c-2: ").
  set (e := APIResponseError (lit "Could not find page")).
  assert (Hfails : page_fetch_fails sample_env two prefix e).
  { exists (lit "c-2"). repeat split. }
  assert (Hone : page_retrieved sample_env one dir
                                (parse_path (lit "root_page/Parent/One c1.md"))).
  { exists (lit "c-1"), (page_object "One"), (lit "One"). repeat split. }
  assert (Hthree : page_retrieved sample_env three dir
                                  (parse_path (lit "root_page/Parent/Three c3.md"))).
  { exists (lit "c-3"), (page_object "Three"), (lit "Three"). repeat split. }
  split.
  - pose (w1 := snd (forM_ (visit_child sample_env 3 dir 0) [one] empty_world)).
    pose (w' := snd (forM_ (visit_child sample_env 3 dir 0) [three]
                           (mk_world (fs w1) (PrintExn prefix e :: trace w1)))).
    assert (Hbefore : forM_ (visit_child sample_env 3 dir 0) [one] empty_world
                      = (Ok tt, w1)) by (vm_compute; reflexivity).
    assert (Hafter : forM_ (visit_child sample_env 3 dir 0) [three]
                           (mk_world (fs w1) (PrintExn prefix e :: trace w1))
                     = (Ok tt, w')) by (vm_compute; reflexivity).
    destruct (proj1 (fetch_failure_isolated sample_env 2 dir 0 [one] [three] two
                                            prefix e empty_world w1)
                    (or_introl (conj eq_refl Hfails)) Hbefore)
      as [_ [Hloop Hsiblings]].
    exists w'. split; [|split].
    + change [one; two; three] with ([one] ++ two :: [three]).
      now rewrite Hloop.
    + apply (proj1 (Hsiblings w' Hafter one _ (or_introl eq_refl)) eq_refl Hone).
    + apply (proj1 (Hsiblings w' Hafter three _ (or_intror (or_introl eq_refl)))
                   eq_refl Hthree).
  - pose (w' := snd (forM_ (visit_record sample_env 3 dir 0) [one]
                           (mk_world [] [PrintExn prefix e]))).
    assert (Hafter : forM_ (visit_record sample_env 3 dir 0) [one]
                           (mk_world (fs empty_world)
                                     (PrintExn prefix e :: trace empty_world))
                     = (Ok tt, w')) by (vm_compute; reflexivity).
    destruct (proj2 (fetch_failure_isolated sample_env 2 dir 0 [] [one] two
                                            prefix e empty_world empty_world)
                    Hfails eq_refl)
      as [_ [Hloop Hsiblings]].
    exists w'. split.
    + change [two; one] with ([] ++ two :: [one]). now rewrite Hloop.
    + apply (Hsiblings w' Hafter one _ (or_introl eq_refl) Hone).
Defined.

(** C1 as stated reaches further than the handler.  In this workspace the
    second of three children is retrieved, but its blocks cannot be listed:
    nothing is reported, the run ends with the exception, and the third
    child, which could be retrieved, has no file. *)
Lemma content_fetch_failure_aborts :
  let run := main unlistable_env 3 empty_world in
  pages_retrieve unlistable_env (VStr (lit "c-2")) = Reply (page_object "Two")
  /\ blocks_children_list unlistable_env (VStr (lit "c-2")) VNone
     = Fail (APIResponseError (lit "rate limited"))
  /\ fst run = Raise (APIResponseError (lit "rate limited"))
  /\ nothing_reported (trace (snd run))
  /\ pages_retrieve unlistable_env (VStr (lit "c-3")) = Reply (page_object "Three")
  /\ fs_lookup (parse_path (lit "root_page/Parent/Three c3.md")) (fs (snd run)) = None.
Proof.
  vm_compute. repeat split. repeat constructor.
Qed.

(** *** Nothing is downloaded when downloads are off *)

Lemma no_download_refl (w : world) : no_download w w.
Proof. split; auto. Qed.

Lemma no_download_trans (a b c : world) :
  no_download a b -> no_download b c -> no_download a c.
Proof.
  intros [T1 F1] [T2 F2]. split; [congruence|]. intros p b0 H. now apply F1, F2.
Qed.

Lemma mkdir_walk_new_dirs (a : N) (todo : list str) :
  forall done fs fs',
    mkdir_walk a done todo fs = Ok fs' ->
    forall q n, fs_lookup q fs' = Some n -> n = Dir \/ fs_lookup q fs = Some n.
Proof.
  induction todo as [|s todo IH]; cbn [mkdir_walk]; intros done fs fs' H q n Hq.
  - injection H as <-. now right.
  - destruct (fs_lookup (mk_path a (done ++ [s])) fs) as [[| |]|] eqn:Hp;
      try discriminate.
    + now apply (IH _ _ _ H).
    + destruct (IH _ _ _ H q n Hq) as [Hd|Hold]; [now left|].
      cbn [fs_lookup] in Hold.
      destruct (path_eqb q (mk_path a (done ++ [s]))); [|now right].
      injection Hold as <-. now left.
Qed.

Lemma fs_set_no_binary (p : path) (n : node) (w : world) (t : list event) :
  (forall b, n <> BinFile b) ->
  times_requested t = times_requested (trace w) ->
  no_download w (mk_world (fs_set p n (fs w)) t).
Proof.
  intros Hn Ht. split; [exact Ht|]. cbn [fs]. intros q b Hq.
  destruct (path_eqb q p) eqn:E.
  - apply path_eqb_eq in E. subst q. rewrite fs_lookup_set in Hq.
    injection Hq as ->. now destruct (Hn b).
  - now rewrite (fs_lookup_set_other _ _ _ _ E) in Hq.
Qed.

Lemma print_no_download (line : str) : respects no_download (print line).
Proof. intros w. split; auto. Qed.

Lemma report_no_download (prefix : str) (e : exn) :
  respects no_download (emit (PrintExn prefix e)).
Proof. intros w. split; auto. Qed.

Lemma mkdir_no_download (p : path) : respects no_download (mkdir p).
Proof.
  intros w. unfold mkdir. destruct (has_dotdot p); [apply no_download_refl|].
  destruct (mkdir_walk (anchor p) [] (segs p) (fs w)) as [fs'| | |] eqn:H;
    try apply no_download_refl.
  split; [reflexivity|]. cbn [snd fs]. intros q b Hq.
  destruct (mkdir_walk_new_dirs _ _ _ _ _ H q _ Hq) as [Hd|Hold];
    [discriminate | assumption].
Qed.

Lemma open_text_no_download (p : path) : respects no_download (open_w p (TextFile [])).
Proof.
  intros w. unfold open_w. destruct (has_dotdot p); [apply no_download_refl|].
  destruct (segs p); [apply no_download_refl|].
  destruct (node_at (parent p) (fs w)) as [[| |]|];
    destruct (fs_lookup p (fs w)) as [[| |]|];
    try apply no_download_refl; cbn [snd];
    apply fs_set_no_binary; try discriminate; reflexivity.
Qed.

Lemma write_text_no_download (p : path) (s : str) :
  respects no_download (write_text_to p s).
Proof.
  intros w. unfold write_text_to. destruct (negb (encodable s)); [apply no_download_refl|].
  destruct (fs_lookup p (fs w)) as [[| |]|]; try apply no_download_refl.
  cbn [snd]. apply fs_set_no_binary; [discriminate | reflexivity].
Qed.

(** X18: with the download of assets switched off, a run makes no HTTP
    request and neither creates nor changes a binary file: images keep
    their remote addresses. *)
Theorem export_without_downloads (E : env) (fuel : nat) (w : world) :
  DOWNLOAD_IMAGES E = false ->
  no_download w (snd (main E fuel w))
  /\ (forall id out depth props,
         no_download w (snd (process_page E fuel id out depth props w))).
Proof.
  intros Hoff.
  assert (D : DOWNLOAD_IMAGES E = true ->
              forall url dir, respects no_download (download_image E url dir)).
  { intros H. congruence. }
  split.
  - apply (main_respects E no_download no_download_refl no_download_trans
             print_no_download report_no_download mkdir_no_download
             open_text_no_download write_text_no_download D).
  - intros id out depth props.
    apply (proj1 (process_respects E no_download no_download_refl no_download_trans
                    print_no_download report_no_download mkdir_no_download
                    open_text_no_download write_text_no_download D fuel)).
Qed.

Lemma export_without_downloads_witness :
  fst (main offline_env 3 empty_world) = Ok tt
  /\ times_requested (trace (snd (main offline_env 3 empty_world))) = 0%nat.
Proof.
  split; [vm_compute; reflexivity|].
  exact (proj1 (proj1 (export_without_downloads offline_env 3 empty_world eq_refl))).
Defined.

(** ** Where the files go *)







(** ** A run without a root *)

(** X20: without a root identifier a run prints one error and does nothing
    else; with a root that cannot be retrieved it creates the output
    directory, prints the exception and ends normally, having written no
    file. *)
Theorem main_without_root (E : env) (fuel : nat) (w : world) :
  (ROOT_PAGE_ID E = [] ->
   main E fuel w
   = (Ok tt, mk_world (fs w)
                      (Printed (lit "Error: NOTION_ROOT_PAGE_ID is not set") :: trace w)))
  /\ (forall e fs1,
         ROOT_PAGE_ID E <> [] ->
         pages_retrieve E (VStr (ROOT_PAGE_ID E)) = Fail e ->
         has_dotdot OUTPUT_DIR = false ->
         mkdir_walk (anchor OUTPUT_DIR) [] (segs OUTPUT_DIR) (fs w) = Ok fs1 ->
         exists t,
           main E (S fuel) w = (Ok tt, mk_world fs1 t)
           /\ times_requested t = times_requested (trace w)
           /\ forall p, times_opened p t = times_opened p (trace w)).
Proof.
  split.
  - intros H. unfold main. rewrite H. reflexivity.
  - intros e fs1 Hroot Hfail Hdd Hmk. unfold main.
    destruct (ROOT_PAGE_ID E) as [|c root] eqn:Hr; [congruence|].
    eexists. split; [|split].
    + unfold bindM at 1, lift at 1. cbn [fstr py_str bind].
      unfold bindM at 1, print at 1, emit at 1.
      unfold bindM at 1, print at 1, emit at 1.
      unfold bindM at 1, mkdir at 1. rewrite Hdd. cbn [fs trace]. rewrite Hmk.
      unfold bindM at 1.
      rewrite (process_page_fetch_fails E fuel (VStr (c :: root)) OUTPUT_DIR 0 false e
                                        (c :: root) _ Hfail eq_refl).
      unfold logged. cbn [fs trace].
      unfold bindM, print, emit. cbn [fs trace]. reflexivity.
    + reflexivity.
    + intros p. reflexivity.
Qed.

Lemma main_without_root_witness :
  main unset_env 1 empty_world
  = (Ok tt, mk_world [] [Printed (lit "Error: NOTION_ROOT_PAGE_ID is not set")])
  /\ exists t,
      main rootless_env 1 empty_world = (Ok tt, mk_world [(OUTPUT_DIR, Dir)] t)
      /\ forall p, times_opened p t = 0%nat.
Proof.
  split.
  - exact (proj1 (main_without_root unset_env 1 empty_world) eq_refl).
  - destruct (proj2 (main_without_root rootless_env 0 empty_world)
                    (APIResponseError (lit "unauthorized")) [(OUTPUT_DIR, Dir)]
                    ltac:(vm_compute; discriminate) eq_refl eq_refl eq_refl)
      as [t [Hrun [_ Hopened]]].
    exists t. split; [exact Hrun | exact Hopened].
Defined.

(** ** A record that cannot be rendered *)

(** X21: the rows of the tabular export are written one at a time: when a
    record cannot be rendered, its exception ends the export of the
    database and the file keeps the header line and the rows of the
    records before it; the line announcing the file is not printed. *)
Theorem export_database_to_csv_truncated
        (first : value) (tail good rest : list value) (bad title : value) (db_id : str)
        (output_path : path) (w w1 : world) (headers : list str) (safe : str)
        (rows : list (list str)) (e : exn) :
  let csv_path := path_join output_path (safe ++ lit " " ++ db_id ++ lit ".csv") in
  first :: tail = good ++ bad :: rest ->
  csv_headers first = Ok headers ->
  sanitize_filename title = Ok safe ->
  mapM (csv_fields headers) good = Ok rows ->
  csv_fields headers bad = Raise e ->
  open_w csv_path (TextFile []) w = (Ok tt, w1) ->
  forallb encodable (csv_line headers :: map csv_line rows) = true ->
  exists w',
    export_database_to_csv (first :: tail) title db_id output_path w = (Raise e, w')
    /\ fs_lookup csv_path (fs w')
       = Some (TextFile (csv_line headers ++ List.concat (map csv_line rows)))
    /\ trace w' = trace w1.
Proof.
  intros csv_path Hsplit Hh Hs Hrows Hbad Hopen Henc.
  cbn [forallb] in Henc. apply andb_true_iff in Henc. destruct Henc as [He Henc].
  assert (Hw1 : fs_lookup csv_path (fs w1) = Some (TextFile [])).
  { unfold open_w in Hopen.
    destruct (has_dotdot csv_path); [discriminate|].
    destruct (segs csv_path); [discriminate|].
    destruct (node_at (parent csv_path) (fs w)) as [[| |]|];
      destruct (fs_lookup csv_path (fs w)) as [[| |]|]; try discriminate;
      injection Hopen as <-; apply fs_lookup_set. }
  destruct (write_records csv_path headers good rows
              (mk_world (fs_set csv_path (TextFile (csv_line headers)) (fs w1)) (trace w1))
              (csv_line headers) Hrows Henc) as [w2 [Hrun [Hfile Htr]]].
  { cbn [fs]. apply fs_lookup_set. }
  exists w2. split; [|split; [exact Hfile | exact Htr]].
  unfold export_database_to_csv.
  unfold bindM at 1. unfold lift at 1. rewrite Hh.
  unfold bindM at 1. unfold lift at 1. rewrite Hs.
  fold csv_path.
  unfold bindM at 1. rewrite Hopen.
  unfold bindM at 1. unfold write_text_to at 1. rewrite He, Hw1. cbn [negb app].
  unfold bindM at 1. rewrite Hsplit.
  rewrite (forM_app _ good (bad :: rest) _ _ Hrun).
  cbn [forM_]. unfold bindM at 1. unfold write_csv_record at 1.
  unfold bindM at 1. unfold lift at 1. rewrite Hbad. reflexivity.
Qed.

Lemma export_database_to_csv_truncated_witness :
  exists w',
    export_database_to_csv [record_a; broken_record; record_b] (VStr (lit "DB"))
                           (lit "db1") (mk_path 0 []) empty_world
    = (Raise TypeError, w')
    /\ fs_lookup (parse_path (lit "DB db1.csv")) (fs w')
       = Some (TextFile (lit "Name,Tag" ++ [13; 10] ++ lit "Alpha,High" ++ [13; 10])).
Proof.
  destruct (export_database_to_csv_truncated
              record_a [broken_record; record_b] [record_a] [record_b] broken_record
              (VStr (lit "DB")) (lit "db1") (mk_path 0 []) empty_world
              (mk_world [(parse_path (lit "DB db1.csv"), TextFile [])]
                        [FileOpened (parse_path (lit "DB db1.csv"))])
              [lit "Name"; lit "Tag"] (lit "DB") [[lit "Alpha"; lit "High"]] TypeError
              eq_refl eq_refl eq_refl eq_refl eq_refl eq_refl eq_refl)
    as [w' [Hrun [Hfile _]]].
  exists w'. split; [exact Hrun | exact Hfile].
Defined.

(** ** A page whose blocks cannot be listed *)

Lemma forM_raises {A} (f : A -> M unit) (before after : list A) (x : A)
      (w w1 w2 : world) (e : exn) :
  forM_ f before w = (Ok tt, w1) ->
  f x w1 = (Raise e, w2) ->
  forM_ f (before ++ x :: after) w = (Raise e, w2).
Proof.
  intros Hb Hx. rewrite (forM_app _ before (x :: after) w w1 Hb).
  cbn [forM_]. unfold bindM. now rewrite Hx.
Qed.

(** X22: only the retrieval of a page is guarded.  When a child page is
    retrieved but its blocks cannot be listed, the exception leaves the
    export of that page before any file is written for it, and ends the
    loop over the children: the siblings after it are not visited. *)
Theorem listing_failure_ends_siblings (E : env) (fuel : nat) (dir : path) (depth : nat)
        (before after : list value) (child page : value) (id title : str) (e : exn)
        (w w1 : world) :
  forM_ (visit_child E (S fuel) dir depth) before w = (Ok tt, w1) ->
  get child "id" VNone = Ok (VStr id) ->
  eq_lit (type_of child) "child_page" = true ->
  pages_retrieve E (VStr id) = Reply page ->
  get_page_title page = Ok (VStr title) ->
  blocks_children_list E (VStr id) VNone = Fail e ->
  exists w2,
    forM_ (visit_child E (S fuel) dir depth) (before ++ child :: after) w = (Raise e, w2)
    /\ fs w2 = fs w1.
Proof.
  intros Hb Hid Hty Hr Ht Hl.
  destruct (listing_failure_propagates E fuel id dir (S depth) false page title e w1
                                       Hr Ht Hl) as [w2 [Hrun Hfs]].
  exists w2. split; [|exact Hfs].
  apply (forM_raises _ before after child w w1 w2 e Hb).
  unfold visit_child. unfold bindM at 1. unfold lift at 1. rewrite Hid.
  unfold bindM at 1. unfold lift at 1. rewrite (get_type_of _ _ Hid), Hty.
  exact Hrun.
Qed.

Lemma listing_failure_ends_siblings_witness :
  exists w2,
    forM_ (visit_child unlistable_env 3 (parse_path (lit "root_page/Parent")) 0)
          ([child_page "c-1" "One"] ++ child_page "c-2" "Two" :: [child_page "c-3" "Three"])
          empty_world
    = (Raise (APIResponseError (lit "rate limited")), w2)
    /\ fs_lookup (parse_path (lit "root_page/Parent/Three c3.md")) (fs w2) = None.
Proof.
  set (visit := visit_child unlistable_env 3 (parse_path (lit "root_page/Parent")) 0).
  assert (Hbefore : forM_ visit [child_page "c-1" "One"] empty_world
                    = (Ok tt, snd (forM_ visit [child_page "c-1" "One"] empty_world))).
  { vm_compute. reflexivity. }
  destruct (listing_failure_ends_siblings
              unlistable_env 2 (parse_path (lit "root_page/Parent")) 0
              [child_page "c-1" "One"] [child_page "c-3" "Three"]
              (child_page "c-2" "Two") (page_object "Two") (lit "c-2") (lit "Two")
              (APIResponseError (lit "rate limited")) empty_world
              (snd (forM_ visit [child_page "c-1" "One"] empty_world))
              Hbefore eq_refl eq_refl eq_refl eq_refl eq_refl)
    as [w2 [Hrun Hfs]].
  exists w2. split; [exact Hrun|]. rewrite Hfs. vm_compute. reflexivity.
Defined.

(** ** Pipes in the property table *)

(** X23: in the property table of a record every name and every value has
    its pipes escaped, each pipe following a backslash, so that a pipe in
    a property cannot add a column. *)
Theorem properties_table_escaped (page : value) (d : list (str * value)) :
  get page "properties" (VDict []) = Ok (VDict d) ->
  forallb well_formed_property (map snd d) = true ->
  get_page_properties_markdown page = Ok []
  \/ exists columns,
      get_page_properties_markdown page = Ok (properties_table columns)
      /\ Forall (fun c => pipes_escaped (fst c) = true /\ pipes_escaped (snd c) = true)
                columns.
Proof.
  intros Hget Hwf.
  destruct (collect_prop_items_spec d Hwf) as [its [Hits Hspec]].
  unfold get_page_properties_markdown. rewrite Hget. cbn [bind].
  destruct d as [|kv d]; [now left|].
  cbn [truthy negb items bind]. rewrite Hits. cbn [bind].
  destruct its as [|it its]; [now left|].
  right. exists (sort_by_key (it :: its)). split; [reflexivity|].
  apply Forall_forall. intros [n v] Hin.
  apply (Permutation_in _ (sort_by_key_perm (it :: its))) in Hin.
  apply Hspec in Hin. destruct Hin as [name [prop [_ [s [_ [_ [_ [-> ->]]]]]]]].
  cbn [fst snd]. split; apply escape_pipe_escaped.
Qed.

Lemma properties_table_escaped_witness :
  exists columns,
    get_page_properties_markdown piped_record = Ok (properties_table columns)
    /\ Forall (fun c => pipes_escaped (fst c) = true /\ pipes_escaped (snd c) = true)
              columns.
Proof.
  destruct (properties_table_escaped piped_record piped_props eq_refl eq_refl)
    as [Hempty|Htable].
  - vm_compute in Hempty. discriminate Hempty.
  - exact Htable.
Defined.

(** ** File names do not collide *)

Lemma split_at_first (sep : N) (x x' y y' : str) :
  ~ In sep x -> ~ In sep x' ->
  x ++ sep :: y = x' ++ sep :: y' -> x = x' /\ y = y'.
Proof.
  revert x'. induction x as [|a x IH]; intros [|a' x'] Hx Hx' H; cbn [app] in H.
  - injection H as ->. auto.
  - injection H as <- _. exfalso. apply Hx'. now left.
  - injection H as -> _. exfalso. apply Hx. now left.
  - injection H as -> H.
    destruct (IH x') as [-> ->]; auto.
    + intros Hin. apply Hx. now right.
    + intros Hin. apply Hx'. now right.
Qed.

Lemma split_at_last (sep : N) (x x' y y' : str) :
  ~ In sep y -> ~ In sep y' ->
  x ++ sep :: y = x' ++ sep :: y' -> x = x' /\ y = y'.
Proof.
  intros Hy Hy' H. apply (f_equal (@rev N)) in H.
  rewrite !rev_app_distr in H. cbn [rev] in H. rewrite <- !app_assoc in H.
  cbn [app] in H.
  destruct (split_at_first sep (rev y) (rev y') (rev x) (rev x')) as [E1 E2].
  - intros Hin. apply Hy. now apply in_rev.
  - intros Hin. apply Hy'. now apply in_rev.
  - exact H.
  - split.
    + rewrite <- (rev_involutive x), <- (rev_involutive x'). now rewrite E2.
    + rewrite <- (rev_involutive y), <- (rev_involutive y'). now rewrite E1.
Qed.

(** X24: the name of a page's file determines the sanitised title and the
    identifier: two pages whose identifiers, hyphens removed, hold no
    space have the same file name only if they have the same sanitised
    title and the same identifier.  Pages with equal titles therefore
    never share a file. *)
Theorem page_filename_injective (title title' id id' : str) :
  ~ In 32 (replace 45 [] id) -> ~ In 32 (replace 45 [] id') ->
  sanitized title ++ lit " " ++ replace 45 [] id ++ lit ".md"
  = sanitized title' ++ lit " " ++ replace 45 [] id' ++ lit ".md" ->
  sanitized title = sanitized title' /\ replace 45 [] id = replace 45 [] id'.
Proof.
  intros Hi Hi' H. change (lit " ") with [32] in H. cbn [app] in H.
  assert (Hmd : forall x, ~ In 32 x -> ~ In 32 (x ++ lit ".md")).
  { intros x Hx Hin. apply in_app_or in Hin. destruct Hin as [Hin|Hin];
      [contradiction|]. vm_compute in Hin. intuition discriminate. }
  destruct (split_at_last 32 _ _ _ _ (Hmd _ Hi) (Hmd _ Hi') H) as [Et Eid].
  split; [exact Et|]. now apply app_inv_tail in Eid.
Qed.

Lemma page_filename_injective_witness :
  sanitized (lit "Notes") = sanitized (lit "Notes")
  /\ replace 45 [] (lit "ab-12") = replace 45 [] (lit "ab1-2").
Proof.
  apply (page_filename_injective (lit "Notes") (lit "Notes") (lit "ab-12") (lit "ab1-2")).
  - vm_compute. intuition discriminate.
  - vm_compute. intuition discriminate.
  - reflexivity.
Defined.

(** ** The listings that are drained, and the one that is not *)

Lemma drain_unique (list_fn : value -> reply value) (pages : list (list value)) :
  serves list_fn VNone pages ->
  forall n xs, drain n list_fn VNone [] = Ok xs -> xs = List.concat pages.
Proof.
  intros Hs n xs Hx.
  destruct (drain_ok_serves list_fn n VNone [] xs Hx) as [pages' [Hs' [Hlen ->]]].
  pose proof (drain_serves list_fn VNone pages Hs
                           (Nat.max n (List.length pages)) [] ltac:(lia)) as Hmax.
  rewrite (drain_serves list_fn VNone pages' Hs' (Nat.max n (List.length pages)) [])
    in Hmax by lia.
  simpl in Hmax. simpl. congruence.
Qed.

(** X25: the three listings that the script follows by cursor are drained
    at their place of use.  When the source serves N pages, the blocks that
    a page's content is rendered from, the comments that the comment
    section is rendered from, and the records that a database's directory,
    table and pages are made from are each the concatenation of the N item
    lists, in order; and no shorter result is ever returned. *)
Theorem listings_drained (E : env) (id : value) (fuel : nat)
        (pages : list (list value)) :
  (List.length pages <= S fuel)%nat ->
  (serves (blocks_children_list E id) VNone pages ->
   get_page_children E (S fuel) id = Ok (List.concat pages)
   /\ (forall out parent w,
          fetch_page_content E (S fuel) id out parent w
          = render_blocks E out parent (List.concat pages) w)
   /\ (forall n xs, get_page_children E n id = Ok xs -> xs = List.concat pages))
  /\ (serves (comments_list E id) VNone pages ->
      comments_body E (S fuel) id = comments_markdown (List.concat pages)
      /\ (forall n s, comments_body E n id = Ok s ->
                      comments_markdown (List.concat pages) = Ok s))
  /\ (serves (databases_query E id) VNone pages ->
      forall db titles first title id_str out depth w,
        databases_retrieve E id = Reply db ->
        get db "title" (VList [VDict []]) = Ok titles ->
        index0 titles = Ok first ->
        get first "plain_text" (VStr (lit "Untitled")) = Ok (VStr title) ->
        str_method id = Ok id_str ->
        process_database E (S fuel) id out depth w
        = export_records E fuel (VStr title) (replace 45 [] id_str) out depth
                         (List.concat pages)
                         (mk_world (fs w)
                                   (Printed (indent depth ++ lit "🗄️ " ++ title)
                                    :: trace w))).
Proof.
  intros Hfuel. split; [|split]; intros Hs.
  - assert (D : get_page_children E (S fuel) id = Ok (List.concat pages)).
    { unfold get_page_children.
      now rewrite (drain_serves _ VNone pages Hs (S fuel) [] Hfuel). }
    split; [exact D|]. split.
    + intros out parent w. unfold fetch_page_content, render_blocks.
      unfold bindM at 1, lift at 1. now rewrite D.
    + intros n xs. unfold get_page_children. now apply drain_unique.
  - split.
    + unfold comments_body.
      now rewrite (drain_serves _ VNone pages Hs (S fuel) [] Hfuel).
    + intros n s. unfold comments_body.
      destruct (drain n (comments_list E id) VNone []) as [comments| | |] eqn:Hd;
        try discriminate.
      rewrite (drain_unique _ pages Hs n comments Hd). cbn [bind]. trivial.
  - intros db titles first title id_str out depth w Hr Hts Hf Ht Hid.
    rewrite process_database_step.
    unfold bindM at 1. rewrite (retrieve_or_log_reply _ _ _ _ _ Hr).
    unfold bindM at 1, lift at 1. rewrite Hts.
    unfold bindM at 1, lift at 1. rewrite Hf.
    unfold bindM at 1, lift at 1. rewrite Ht.
    unfold bindM at 1, lift at 1. rewrite Hid.
    unfold bindM at 1, lift at 1. cbn [fstr py_str bind].
    unfold bindM at 1, print, emit.
    unfold bindM at 1, lift at 1.
    rewrite (drain_serves _ VNone pages Hs (S fuel) [] Hfuel). cbn [app].
    rewrite !app_nil_r. reflexivity.
Qed.

Lemma listings_drained_witness :
  get_page_children paged_workspace 2 (VStr (lit "d-1"))
  = Ok [VInt 1; VInt 2; VInt 3]
  /\ comments_body paged_workspace 2 (VStr (lit "d-1"))
     = comments_markdown [two_line_comment; two_line_comment]
  /\ process_database paged_workspace 2 (VStr (lit "d-1")) OUTPUT_DIR 0 empty_world
     = export_records paged_workspace 1 (VStr (lit "DB")) (lit "d1") OUTPUT_DIR 0
                      [record_a; record_b]
                      (mk_world [] [Printed (lit "🗄️ DB")]).
Proof.
  assert (B : serves two_pages VNone [[VInt 1; VInt 2]; [VInt 3]]).
  { eapply serves_more with (next := VStr (lit "c1")); try reflexivity.
    eapply serves_last; reflexivity. }
  assert (C : serves comment_pages VNone [[two_line_comment]; [two_line_comment]]).
  { eapply serves_more with (next := VStr (lit "c1")); try reflexivity.
    eapply serves_last; reflexivity. }
  assert (R : serves record_pages VNone [[record_a]; [record_b]]).
  { eapply serves_more with (next := VStr (lit "c1")); try reflexivity.
    eapply serves_last; reflexivity. }
  split; [|split].
  - exact (proj1 (proj1 (listings_drained paged_workspace (VStr (lit "d-1")) 1
                                          [[VInt 1; VInt 2]; [VInt 3]] (le_n 2)) B)).
  - exact (proj1 (proj1 (proj2 (listings_drained paged_workspace (VStr (lit "d-1")) 1
                                                 [[two_line_comment]; [two_line_comment]]
                                                 (le_n 2))) C)).
  - exact (proj2 (proj2 (listings_drained paged_workspace (VStr (lit "d-1")) 1
                                          [[record_a]; [record_b]] (le_n 2)))
                 R titled_database _ _ (lit "DB") (lit "d-1") OUTPUT_DIR 0%nat empty_world
                 eq_refl eq_refl eq_refl eq_refl eq_refl).
Defined.

(** C4: the rows of a table are listed with a single call, without a
    cursor.  For a table whose two rows are served in two pages, the loop
    of [get_page_children] over the same listing returns both rows, while
    the table is rendered from the first page alone: the second row is
    lost. *)
Theorem table_rows_not_drained :
  serves (blocks_children_list long_table_env (VStr (lit "t-1"))) VNone
         [[row_a]; [row_b]]
  /\ get_page_children long_table_env 2 (VStr (lit "t-1")) = Ok [row_a; row_b]
  /\ convert_table_block long_table_env sample_table empty_world
     = (Ok (lit "| a |" ++ [newline] ++ lit "| --- |" ++ [newline; newline]),
        empty_world).
Proof.
  split; [|split].
  - eapply serves_more with (next := VStr (lit "c1")); try reflexivity.
    eapply serves_last; reflexivity.
  - reflexivity.
  - vm_compute. reflexivity.
Qed.
